(** * travel_be: booking / payment state machine

    A shallow embedding of the booking, package-capacity and Midtrans
    webhook logic of the travel CRM backend
    ([services/bookingService.js], [services/packageService.js],
    [services/customerService.js], [services/midtransService.js] and the
    [initiatePayment] handler of the booking controller), together with
    the properties of that slice.

    Conventions of the model:
    - the relational store is a record of row lists, one per table; a
      Prisma [findUnique] is a [find] on the list, an [update] maps over the
      rows with the given key, a [create] appends a row;
    - every service function threads the store and may throw: it lives in
      the state-and-exception monad [M];
    - JavaScript numbers that hold integers are [Z]; [DECIMAL(12,2)] columns
      are [Z] counts of hundredths;
    - the clock ([new Date()], [Date.now()]) is an explicit argument;
    - row timestamps kept by the ORM ([createdAt], [updatedAt]) are not
      part of the model. *)

From Stdlib Require Import ZArith List String Ascii Bool Lia DecimalString.
Import ListNotations.
Local Open Scope string_scope.
Local Open Scope list_scope.
Local Open Scope Z_scope.

(* ===================================================================== *)
(** ** SHA-512 ([crypto.createHash('sha512')]) *)
(* ===================================================================== *)

Module SHA512.

Definition mask64 : Z := 2 ^ 64 - 1.
Definition w64 (x : Z) : Z := Z.land x mask64.
Definition add64 (x y : Z) : Z := w64 (x + y).

Definition rotr (n x : Z) : Z :=
  Z.lor (Z.shiftr x n) (w64 (Z.shiftl x (64 - n))).
Definition shr (n x : Z) : Z := Z.shiftr x n.

Definition Ch (x y z : Z) : Z :=
  Z.lxor (Z.land x y) (Z.land (Z.lxor x mask64) z).
Definition Maj (x y z : Z) : Z :=
  Z.lxor (Z.lxor (Z.land x y) (Z.land x z)) (Z.land y z).
Definition Sigma0 (x : Z) : Z := Z.lxor (Z.lxor (rotr 28 x) (rotr 34 x)) (rotr 39 x).
Definition Sigma1 (x : Z) : Z := Z.lxor (Z.lxor (rotr 14 x) (rotr 18 x)) (rotr 41 x).
Definition sigma0 (x : Z) : Z := Z.lxor (Z.lxor (rotr 1 x) (rotr 8 x)) (shr 7 x).
Definition sigma1 (x : Z) : Z := Z.lxor (Z.lxor (rotr 19 x) (rotr 61 x)) (shr 6 x).

Definition K : list Z := [
  0x428a2f98d728ae22; 0x7137449123ef65cd; 0xb5c0fbcfec4d3b2f; 0xe9b5dba58189dbbc;
  0x3956c25bf348b538; 0x59f111f1b605d019; 0x923f82a4af194f9b; 0xab1c5ed5da6d8118;
  0xd807aa98a3030242; 0x12835b0145706fbe; 0x243185be4ee4b28c; 0x550c7dc3d5ffb4e2;
  0x72be5d74f27b896f; 0x80deb1fe3b1696b1; 0x9bdc06a725c71235; 0xc19bf174cf692694;
  0xe49b69c19ef14ad2; 0xefbe4786384f25e3; 0x0fc19dc68b8cd5b5; 0x240ca1cc77ac9c65;
  0x2de92c6f592b0275; 0x4a7484aa6ea6e483; 0x5cb0a9dcbd41fbd4; 0x76f988da831153b5;
  0x983e5152ee66dfab; 0xa831c66d2db43210; 0xb00327c898fb213f; 0xbf597fc7beef0ee4;
  0xc6e00bf33da88fc2; 0xd5a79147930aa725; 0x06ca6351e003826f; 0x142929670a0e6e70;
  0x27b70a8546d22ffc; 0x2e1b21385c26c926; 0x4d2c6dfc5ac42aed; 0x53380d139d95b3df;
  0x650a73548baf63de; 0x766a0abb3c77b2a8; 0x81c2c92e47edaee6; 0x92722c851482353b;
  0xa2bfe8a14cf10364; 0xa81a664bbc423001; 0xc24b8b70d0f89791; 0xc76c51a30654be30;
  0xd192e819d6ef5218; 0xd69906245565a910; 0xf40e35855771202a; 0x106aa07032bbd1b8;
  0x19a4c116b8d2d0c8; 0x1e376c085141ab53; 0x2748774cdf8eeb99; 0x34b0bcb5e19b48a8;
  0x391c0cb3c5c95a63; 0x4ed8aa4ae3418acb; 0x5b9cca4f7763e373; 0x682e6ff3d6b2b8a3;
  0x748f82ee5defb2fc; 0x78a5636f43172f60; 0x84c87814a1f0ab72; 0x8cc702081a6439ec;
  0x90befffa23631e28; 0xa4506cebde82bde9; 0xbef9a3f7b2c67915; 0xc67178f2e372532b;
  0xca273eceea26619c; 0xd186b8c721c0c207; 0xeada7dd6cde0eb1e; 0xf57d4f7fee6ed178;
  0x06f067aa72176fba; 0x0a637dc5a2c898a6; 0x113f9804bef90dae; 0x1b710b35131c471b;
  0x28db77f523047d84; 0x32caab7b40c72493; 0x3c9ebe0a15c9bebc; 0x431d67c49c100d4c;
  0x4cc5d4becb3e42b6; 0x597f299cfc657e2a; 0x5fcb6fab3ad6faec; 0x6c44198c4a475817 ].

Definition H0 : list Z := [
  0x6a09e667f3bcc908; 0xbb67ae8584caa73b; 0x3c6ef372fe94f82b; 0xa54ff53a5f1d36f1;
  0x510e527fade682d1; 0x9b05688c2b3e6c1f; 0x1f83d9abfb41bd6b; 0x5be0cd19137e2179 ].

(** The message as bytes: the characters of the string, taken as the
    UTF-8 encoding Node feeds to the hash. *)
Definition bytes_of_string (s : string) : list Z :=
  map (fun c => Z.of_N (N_of_ascii c)) (list_ascii_of_string s).

(** Big-endian encoding of [x] on [n] bytes. *)
Fixpoint be_bytes (n : nat) (x : Z) : list Z :=
  match n with
  | O => []
  | S n' => Z.land (Z.shiftr x (8 * Z.of_nat n')) 255 :: be_bytes n' x
  end.

Definition be_word (bs : list Z) : Z :=
  fold_left (fun acc b => Z.lor (Z.shiftl acc 8) b) bs 0.

(** Padding: 0x80, zeros up to 112 mod 128, then the bit length on 16 bytes. *)
Definition pad (msg : list Z) : list Z :=
  let len := Z.of_nat (List.length msg) in
  let zeros := Z.to_nat ((111 - len) mod 128) in
  msg ++ [128] ++ repeat 0 zeros ++ be_bytes 16 (8 * len).

Fixpoint chunks (fuel : nat) (size : nat) (l : list Z) : list (list Z) :=
  match fuel with
  | O => []
  | S fuel' =>
      match l with
      | [] => []
      | _ => firstn size l :: chunks fuel' size (skipn size l)
      end
  end.

Definition words_of_block (block : list Z) : list Z :=
  map be_word (chunks 16 8 block).

(** Message schedule, most recent word first: [rev_w] holds
    W[t-1], W[t-2], ... *)
Definition next_w (rev_w : list Z) : Z :=
  add64 (add64 (add64 (sigma1 (nth 1 rev_w 0)) (nth 6 rev_w 0))
               (sigma0 (nth 14 rev_w 0))) (nth 15 rev_w 0).

Fixpoint extend (n : nat) (rev_w : list Z) : list Z :=
  match n with
  | O => rev_w
  | S n' => extend n' (next_w rev_w :: rev_w)
  end.

Definition schedule (block : list Z) : list Z :=
  rev (extend 64 (rev (words_of_block block))).

Record regs := Regs { ra : Z; rb : Z; rc : Z; rd : Z; re : Z; rf : Z; rg : Z; rh : Z }.

Definition round (r : regs) (kw : Z * Z) : regs :=
  let '(k, w) := kw in
  let T1 := add64 (add64 (add64 (add64 (rh r) (Sigma1 (re r))) (Ch (re r) (rf r) (rg r))) k) w in
  let T2 := add64 (Sigma0 (ra r)) (Maj (ra r) (rb r) (rc r)) in
  Regs (add64 T1 T2) (ra r) (rb r) (rc r) (add64 (rd r) T1) (re r) (rf r) (rg r).

Definition regs_of (h : list Z) : regs :=
  Regs (nth 0 h 0) (nth 1 h 0) (nth 2 h 0) (nth 3 h 0)
       (nth 4 h 0) (nth 5 h 0) (nth 6 h 0) (nth 7 h 0).

Definition list_of (r : regs) : list Z :=
  [ra r; rb r; rc r; rd r; re r; rf r; rg r; rh r].

Definition compress (h : list Z) (block : list Z) : list Z :=
  let r := fold_left round (combine K (schedule block)) (regs_of h) in
  map (fun p => add64 (fst p) (snd p)) (combine h (list_of r)).

Definition digest (msg : list Z) : list Z :=
  let p := pad msg in
  fold_left compress (chunks (List.length p) 128 p) H0.

Definition hex_digit (d : Z) : ascii :=
  if d <? 10 then ascii_of_N (Z.to_N (48 + d)) else ascii_of_N (Z.to_N (87 + d)).

Definition hex_of_byte (b : Z) : string :=
  String (hex_digit (Z.shiftr b 4)) (String (hex_digit (Z.land b 15)) EmptyString).

(** [.digest('hex')]: lower-case hexadecimal, two characters per byte. *)
Definition hex (msg : string) : string :=
  String.concat "" (map hex_of_byte (flat_map (be_bytes 8) (digest (bytes_of_string msg)))).

End SHA512.


(* ===================================================================== *)
(** ** Data model (the Prisma schema behind the migration) *)
(* ===================================================================== *)

Module BookingStatus.
Inductive t := PENDING | PAID | CONFIRMED | CANCELED | COMPLETED.

Definition eqb (a b : t) : bool :=
  match a, b with
  | PENDING, PENDING | PAID, PAID | CONFIRMED, CONFIRMED
  | CANCELED, CANCELED | COMPLETED, COMPLETED => true
  | _, _ => false
  end.

(** [[...].includes(status)] and Prisma's [status: { in: [...] }]. *)
Definition includes (l : list t) (a : t) : bool := existsb (eqb a) l.
End BookingStatus.

Module PaymentStatus.
Inductive t := PENDING | SUCCESS | FAILED | EXPIRED | REFUND.

Definition eqb (a b : t) : bool :=
  match a, b with
  | PENDING, PENDING | SUCCESS, SUCCESS | FAILED, FAILED
  | EXPIRED, EXPIRED | REFUND, REFUND => true
  | _, _ => false
  end.
End PaymentStatus.

Module CustomerStatus.
Inductive t := PROSPECT | ACTIVE | LOYAL.
End CustomerStatus.

Module Customer.
Record t := mk {
  id : Z;
  name : string;
  email : string;
  phone : option string;
  status : CustomerStatus.t
}.
End Customer.

Module TravelPackage.
(** [price] is the [DECIMAL(12,2)] column in hundredths. *)
Record t := mk {
  id : Z;
  name : string;
  destination : string;
  price : Z;
  quota : Z;
  isActive : bool
}.
End TravelPackage.

Module Booking.
Record t := mk {
  id : Z;
  bookingCode : string;
  customerId : Z;
  packageId : Z;
  participants : Z;
  totalAmount : Z;
  departureDate : string;
  status : BookingStatus.t;
  notes : option string
}.
End Booking.

Module Payment.
Record t := mk {
  id : Z;
  bookingId : Z;
  midtransOrderId : string;
  midtransToken : option string;
  paymentUrl : option string;
  amount : Z;
  status : PaymentStatus.t;
  paymentType : option string;
  paidAt : option Z;
  expiredAt : option Z
}.
End Payment.

(** The database: one list of rows per table, and the AUTO_INCREMENT
    counters of the two tables this slice inserts into. *)
Record Store := mkStore {
  customers : list Customer.t;
  travelPackages : list TravelPackage.t;
  bookings : list Booking.t;
  payments : list Payment.t;
  bookingSeq : Z;
  paymentSeq : Z
}.

(* ===================================================================== *)
(** ** Thrown errors and the store monad *)
(* ===================================================================== *)

(** [new Error(message)] with the optional [statusCode] the services
    attach; errors raised by the runtime or the ORM carry none. *)
Record Error := mkError { statusCode : option Z; message : string }.

Inductive Result (A : Type) : Type :=
| Ok (a : A)
| Throw (e : Error).
Arguments Ok {A} a.
Arguments Throw {A} e.

Definition M (A : Type) : Type := Store -> Result A * Store.

Definition ret {A} (a : A) : M A := fun s => (Ok a, s).
Definition throw {A} (e : Error) : M A := fun s => (Throw e, s).
Definition bind {A B} (m : M A) (k : A -> M B) : M B :=
  fun s => match m s with
           | (Ok a, s') => k a s'
           | (Throw e, s') => (Throw e, s')
           end.
Definition gets {A} (f : Store -> A) : M A := fun s => (Ok (f s), s).
Definition modify (f : Store -> Store) : M unit := fun s => (Ok tt, f s).

Notation "x <- m ;; k" := (bind m (fun x => k))
  (at level 61, m at next level, right associativity).
Notation "m ;;; k" := (bind m (fun _ => k))
  (at level 61, right associativity).

Definition httpError {A} (code : Z) (msg : string) : M A :=
  throw (mkError (Some code) msg).

(** Dereferencing a relation that came back [null]. *)
Definition typeError {A} : M A :=
  throw (mkError None "TypeError: Cannot read properties of null").

(** Prisma's error for an [update] whose [where] matches no row. *)
Definition recordNotFound {A} : M A :=
  throw (mkError None "Record to update not found.").

(** Prisma's error for a [create] that breaks a UNIQUE index. *)
Definition uniqueConstraintFailed : Error :=
  mkError None "Unique constraint failed".

(* ===================================================================== *)
(** ** Table primitives *)
(* ===================================================================== *)

Section Rows.
Context {A : Type} (key : A -> Z).

Definition findById (id : Z) (rows : list A) : option A :=
  find (fun r => key r =? id) rows.

Definition updateById (id : Z) (f : A -> A) (rows : list A) : list A :=
  map (fun r => if key r =? id then f r else r) rows.
End Rows.

Definition setBookings (f : list Booking.t -> list Booking.t) (s : Store) : Store :=
  mkStore (customers s) (travelPackages s) (f (bookings s)) (payments s)
          (bookingSeq s) (paymentSeq s).

Definition setPayments (f : list Payment.t -> list Payment.t) (s : Store) : Store :=
  mkStore (customers s) (travelPackages s) (bookings s) (f (payments s))
          (bookingSeq s) (paymentSeq s).

Definition setCustomers (f : list Customer.t -> list Customer.t) (s : Store) : Store :=
  mkStore (f (customers s)) (travelPackages s) (bookings s) (payments s)
          (bookingSeq s) (paymentSeq s).

(** [prisma.booking.update({ where: { id }, data })]. *)
Definition booking_update (id : Z) (data : Booking.t -> Booking.t) : M Booking.t :=
  row <- gets (fun s => findById Booking.id id (bookings s)) ;;
  match row with
  | None => recordNotFound
  | Some b => modify (setBookings (updateById Booking.id id data)) ;;; ret (data b)
  end.

(** [prisma.payment.update({ where: { id }, data })]. *)
Definition payment_update (id : Z) (data : Payment.t -> Payment.t) : M Payment.t :=
  row <- gets (fun s => findById Payment.id id (payments s)) ;;
  match row with
  | None => recordNotFound
  | Some p => modify (setPayments (updateById Payment.id id data)) ;;; ret (data p)
  end.

(** [prisma.customer.update({ where: { id }, data })]. *)
Definition customer_update (id : Z) (data : Customer.t -> Customer.t) : M Customer.t :=
  row <- gets (fun s => findById Customer.id id (customers s)) ;;
  match row with
  | None => recordNotFound
  | Some c => modify (setCustomers (updateById Customer.id id data)) ;;; ret (data c)
  end.

(* ===================================================================== *)
(** ** customerService.js *)
(* ===================================================================== *)

Definition getCustomerById (id : Z) : M Customer.t :=
  customer <- gets (fun s => findById Customer.id id (customers s)) ;;
  match customer with
  | None => httpError 404 "Customer not found"
  | Some c => ret c
  end.

Definition setCustomerStatus (st : CustomerStatus.t) (c : Customer.t) : Customer.t :=
  Customer.mk (Customer.id c) (Customer.name c) (Customer.email c) (Customer.phone c) st.

Definition updateCustomerStatus (customerId : Z) : M unit :=
  bookingsCount <- gets (fun s =>
    Z.of_nat (List.length (filter (fun b =>
      (Booking.customerId b =? customerId)
      && BookingStatus.includes
           [BookingStatus.PAID; BookingStatus.CONFIRMED; BookingStatus.COMPLETED]
           (Booking.status b)) (bookings s)))) ;;
  let newStatus :=
    if bookingsCount >=? 3 then CustomerStatus.LOYAL
    else if bookingsCount >=? 1 then CustomerStatus.ACTIVE
    else CustomerStatus.PROSPECT in
  customer_update customerId (setCustomerStatus newStatus) ;;; ret tt.

(* ===================================================================== *)
(** ** packageService.js *)
(* ===================================================================== *)

(** The [include: { bookings: { where: { status: { in: [...] } } } }] of
    the package query: the package's bookings in a slot-holding state. *)
Definition includedBookings (packageId : Z) (s : Store) : list Booking.t :=
  filter (fun b =>
    (Booking.packageId b =? packageId)
    && BookingStatus.includes
         [BookingStatus.PENDING; BookingStatus.PAID; BookingStatus.CONFIRMED]
         (Booking.status b)) (bookings s).

(** [bookings.reduce((sum, booking) => sum + booking.participants, 0)]. *)
Definition reduceParticipants (rows : list Booking.t) : Z :=
  fold_left (fun sum booking => sum + Booking.participants booking) rows 0.

Record PackageData := mkPackageData {
  package : TravelPackage.t;
  pd_bookedParticipants : Z;
  pd_availableSlots : Z
}.

Definition getPackageById (id : Z) : M PackageData :=
  travelPackage <- gets (fun s => findById TravelPackage.id id (travelPackages s)) ;;
  match travelPackage with
  | None => httpError 404 "Travel package not found"
  | Some p =>
      rows <- gets (includedBookings id) ;;
      let bookedParticipants := reduceParticipants rows in
      ret (mkPackageData p bookedParticipants (TravelPackage.quota p - bookedParticipants))
  end.

Record Availability := mkAvailability {
  isAvailable : bool;
  availableSlots : Z;
  requestedParticipants : Z
}.

Definition checkAvailability (packageId participants : Z) : M Availability :=
  travelPackage <- gets (fun s => findById TravelPackage.id packageId (travelPackages s)) ;;
  match travelPackage with
  | None => httpError 404 "Travel package not found"
  | Some p =>
      if negb (TravelPackage.isActive p) then
        httpError 400 "Travel package is not available"
      else
        rows <- gets (includedBookings packageId) ;;
        let bookedParticipants := reduceParticipants rows in
        let availableSlots := TravelPackage.quota p - bookedParticipants in
        ret (mkAvailability (availableSlots >=? participants) availableSlots participants)
  end.

(* ===================================================================== *)
(** ** bookingService.js *)
(* ===================================================================== *)

(** Template-literal rendering of an integral number. *)
Definition string_of_Z (z : Z) : string := NilZero.string_of_int (Z.to_int z).

(** A booking with [include: { customer, package, payment }]. *)
Record BookingWithRelations := mkBookingWithRelations {
  booking : Booking.t;
  customer : option Customer.t;
  travelPackage : option TravelPackage.t;
  payment : option Payment.t
}.

Definition withRelations (s : Store) (b : Booking.t) : BookingWithRelations :=
  mkBookingWithRelations b
    (findById Customer.id (Booking.customerId b) (customers s))
    (findById TravelPackage.id (Booking.packageId b) (travelPackages s))
    (findById Payment.bookingId (Booking.id b) (payments s)).

Definition getBookingById (id : Z) : M BookingWithRelations :=
  found <- gets (fun s => option_map (withRelations s) (findById Booking.id id (bookings s))) ;;
  match found with
  | None => httpError 404 "Booking not found"
  | Some b => ret b
  end.

Record BookingData := mkBookingData {
  bd_customerId : Z;
  bd_packageId : Z;
  bd_participants : Z;
  bd_departureDate : string;
  bd_notes : option string
}.

(** [prisma.booking.create]: the row gets the next id and the booking
    code produced by the schema's default generator, here [code]. *)
Definition booking_create (code : string) (customerId packageId participants totalAmount : Z)
    (departureDate : string) (notes : option string) (status : BookingStatus.t) : M Booking.t :=
  id <- gets bookingSeq ;;
  let row := Booking.mk id code customerId packageId participants totalAmount
                        departureDate status notes in
  modify (fun s => mkStore (customers s) (travelPackages s) (bookings s ++ [row])
                           (payments s) (id + 1) (paymentSeq s)) ;;;
  ret row.

(** [parseFloat(price) * participants] is a binary64 product written to a
    [DECIMAL(12,2)] column. Both roundings are relative errors below 2^-52,
    so for every amount the column can hold (below 10^10) the product is off
    by far less than half a hundredth and the stored value is the exact
    product; whole-rupiah prices are exact already. The model computes
    that exact product, in hundredths. A total the column cannot hold is
    refused by the insert; the model does not represent that refusal, and
    what is stated about a creation that succeeds assumes
    [fitsBookingColumns]. *)
Definition createBooking (bookingData : BookingData) (code : string) : M Booking.t :=
  let customerId := bd_customerId bookingData in
  let packageId := bd_packageId bookingData in
  let participants := bd_participants bookingData in
  (* 1. Verify customer exists *)
  getCustomerById customerId ;;;
  (* 2. Get package and verify availability *)
  travelPackage <- getPackageById packageId ;;
  if negb (TravelPackage.isActive (package travelPackage)) then
    httpError 400 "This travel package is not available"
  else
    availability <- checkAvailability packageId participants ;;
    if negb (isAvailable availability) then
      httpError 400 ("Not enough slots available. Only "
                     ++ string_of_Z (availableSlots availability) ++ " slots left.")%string
    else
      (* 3. Calculate total amount *)
      let pricePerPerson := TravelPackage.price (package travelPackage) in
      let totalAmount := pricePerPerson * participants in
      (* 4. Create booking *)
      booking_create code customerId packageId participants totalAmount
                     (bd_departureDate bookingData) (bd_notes bookingData)
                     BookingStatus.PENDING.

(** The request body accepted by [updateBookingSchema]; dates are kept as
    the strings [new Date] is given. *)
Record UpdateData := mkUpdateData {
  ud_participants : option Z;
  ud_departureDate : option string;
  ud_notes : option string;
  ud_status : option BookingStatus.t
}.

Definition orElse {A} (o : option A) (d : A) : A :=
  match o with Some a => a | None => d end.

(** [data: updateData]: every key present in the patch overwrites the
    column, the others are left alone. *)
Definition applyUpdate (u : UpdateData) (totalAmount : option Z) (b : Booking.t) : Booking.t :=
  Booking.mk (Booking.id b) (Booking.bookingCode b) (Booking.customerId b) (Booking.packageId b)
    (orElse (ud_participants u) (Booking.participants b))
    (orElse totalAmount (Booking.totalAmount b))
    (orElse (ud_departureDate u) (Booking.departureDate b))
    (orElse (ud_status u) (Booking.status b))
    (match ud_notes u with Some n => Some n | None => Booking.notes b end).

(** The recomputed total is the exact product in hundredths, as in
    [createBooking]; an update whose total the column cannot hold is refused
    by the database, which the model does not represent. *)
Definition updateBooking (id : Z) (updateData : UpdateData) : M Booking.t :=
  existingBooking <- getBookingById id ;;
  let existing := booking existingBooking in
  (* Don't allow updates to PAID, CONFIRMED, or COMPLETED bookings *)
  if BookingStatus.includes [BookingStatus.PAID; BookingStatus.CONFIRMED; BookingStatus.COMPLETED]
                            (Booking.status existing) then
    httpError 400 "Cannot modify a booking that is already paid or completed"
  else
    (* If participants changed, recalculate total *)
    totalAmount <-
      match ud_participants updateData with
      | Some n =>
          if negb (n =? 0) && negb (n =? Booking.participants existing) then
            match travelPackage existingBooking with
            | None => typeError
            | Some pkg =>
                let pricePerPerson := TravelPackage.price pkg in
                let total := pricePerPerson * n in
                (* Check availability for new participant count *)
                let additional := n - Booking.participants existing in
                if additional >? 0 then
                  availability <- checkAvailability (Booking.packageId existing) additional ;;
                  if negb (isAvailable availability) then
                    httpError 400 "Not enough slots available for additional participants"
                  else ret (Some total)
                else ret (Some total)
            end
          else ret None
      | None => ret None
      end ;;
    booking_update id (applyUpdate updateData totalAmount).

Definition setBookingStatus (st : BookingStatus.t) (b : Booking.t) : Booking.t :=
  Booking.mk (Booking.id b) (Booking.bookingCode b) (Booking.customerId b) (Booking.packageId b)
    (Booking.participants b) (Booking.totalAmount b) (Booking.departureDate b) st
    (Booking.notes b).

Definition cancelBooking (id : Z) : M Booking.t :=
  found <- getBookingById id ;;
  (* Don't allow cancellation of COMPLETED bookings *)
  if BookingStatus.eqb (Booking.status (booking found)) BookingStatus.COMPLETED then
    httpError 400 "Cannot cancel a completed booking"
  else
    booking_update id (setBookingStatus BookingStatus.CANCELED).

Definition updateBookingStatus (id : Z) (status : BookingStatus.t) : M Booking.t :=
  b <- booking_update id (setBookingStatus status) ;;
  (* Update customer status if booking is paid *)
  (if BookingStatus.eqb status BookingStatus.PAID
      || BookingStatus.eqb status BookingStatus.COMPLETED
   then updateCustomerStatus (Booking.customerId b)
   else ret tt) ;;;
  ret b.

(* ===================================================================== *)
(** ** midtransService.js *)
(* ===================================================================== *)

(** [process.env]: a variable that is not set reads as [undefined]. *)
Record Env := mkEnv {
  MIDTRANS_SERVER_KEY : option string;
  FRONTEND_URL : option string
}.

(** Rendering of an environment variable inside a template literal. *)
Definition template (v : option string) : string := orElse v "undefined".

(** [v || d] on a string that may be undefined: the empty string is falsy. *)
Definition orDefault (v : option string) (d : string) : string :=
  match v with
  | Some s => if String.eqb s "" then d else s
  | None => d
  end.

(** The webhook body (section 6 of the interface: [fraud_status] is
    optional, the other fields are present). *)
Record Notification := mkNotification {
  order_id : string;
  status_code : string;
  gross_amount : string;
  signature_key : string;
  transaction_status : string;
  fraud_status : option string;
  payment_type : string
}.

Record SnapParameter := mkSnapParameter {
  sp_order_id : string;
  sp_gross_amount : Z;
  sp_first_name : string;
  sp_email : string;
  sp_phone : string;
  sp_item_id : string;
  sp_item_name : string;
  sp_item_price : Z;
  sp_item_quantity : Z;
  sp_item_category : string;
  sp_expiry_unit : string;
  sp_expiry_duration : Z;
  sp_finish : string;
  sp_error : string;
  sp_pending : string
}.

Record SnapTransaction := mkSnapTransaction { token : string; redirect_url : string }.

Record SnapResult := mkSnapResult {
  sr_payment : Payment.t;
  sr_snapToken : string;
  sr_redirectUrl : string
}.

(** [parseInt] of a [DECIMAL(12,2)] amount: the digits before the point. *)
Definition parseInt (hundredths : Z) : Z := Z.quot hundredths 100.

Definition strIs (v : option string) (lit : string) : bool :=
  match v with Some s => String.eqb s lit | None => false end.

(** [prisma.payment.create]; the table has UNIQUE indexes on [bookingId]
    and on [midtransOrderId]. *)
Definition payment_create (bookingId : Z) (orderId tok url : string) (amount : Z)
    (expiredAt : Z) : M Payment.t :=
  clash <- gets (fun s => existsb (fun p =>
             (Payment.bookingId p =? bookingId)
             || String.eqb (Payment.midtransOrderId p) orderId) (payments s)) ;;
  if (clash : bool) then throw uniqueConstraintFailed
  else
    id <- gets paymentSeq ;;
    let row := Payment.mk id bookingId orderId (Some tok) (Some url) amount
                          PaymentStatus.PENDING None None (Some expiredAt) in
    modify (fun s => mkStore (customers s) (travelPackages s) (bookings s)
                             (payments s ++ [row]) (bookingSeq s) (id + 1)) ;;;
    ret row.

(** [prisma.payment.findUnique({ where: { midtransOrderId } })]. *)
Definition findByOrderId (orderId : string) (rows : list Payment.t) : option Payment.t :=
  find (fun p => String.eqb (Payment.midtransOrderId p) orderId) rows.

(** [try { body } catch (error) { throw handler }]. *)
Definition tryCatch {A} (body : M A) (handler : Error) : M A :=
  fun s => match body s with
           | (Ok a, s') => (Ok a, s')
           | (Throw _, s') => (Throw handler, s')
           end.

(** The status decision of [processNotification]: [current] is
    [payment.booking.status], the initial value of [bookingStatus]. *)
Definition mapStatus (transaction_status : string) (fraud_status : option string)
    (current : BookingStatus.t) : PaymentStatus.t * BookingStatus.t :=
  let paymentStatus := PaymentStatus.PENDING in
  let bookingStatus := current in
  if String.eqb transaction_status "capture" then
    (* For credit card payments *)
    if strIs fraud_status "accept" then (PaymentStatus.SUCCESS, BookingStatus.PAID)
    else if strIs fraud_status "challenge" then (PaymentStatus.PENDING, bookingStatus)
    else (paymentStatus, bookingStatus)
  else if String.eqb transaction_status "settlement" then
    (PaymentStatus.SUCCESS, BookingStatus.PAID)
  else if String.eqb transaction_status "pending" then
    (PaymentStatus.PENDING, bookingStatus)
  else if String.eqb transaction_status "deny" || String.eqb transaction_status "cancel" then
    (PaymentStatus.FAILED, BookingStatus.CANCELED)
  else if String.eqb transaction_status "expire" then
    (PaymentStatus.EXPIRED, BookingStatus.CANCELED)
  else if String.eqb transaction_status "refund" then
    (PaymentStatus.REFUND, bookingStatus)
  else (paymentStatus, bookingStatus).

(** The [data] of the payment update in [processNotification]. *)
Definition notificationData (paymentStatus : PaymentStatus.t) (payment_type : string)
    (now : Z) (p : Payment.t) : Payment.t :=
  Payment.mk (Payment.id p) (Payment.bookingId p) (Payment.midtransOrderId p)
    (Payment.midtransToken p) (Payment.paymentUrl p) (Payment.amount p)
    paymentStatus
    (Some payment_type)
    (if PaymentStatus.eqb paymentStatus PaymentStatus.SUCCESS then Some now else None)
    (Payment.expiredAt p).

(** The authenticated caller, [req.user]. *)
Record User := mkUser { user_type : string; user_id : Z }.

Record PayData := mkPayData { snapToken : option string; redirectUrl : option string }.

(** What the handler does with [res] and [next]. *)
Inductive Response :=
| Json (status : Z) (success : bool) (msg : string) (data : option PayData)
| Next (e : Error).

(** [booking.payment && booking.payment.status === 'PENDING']: the
    booking's payment when the test holds. *)
Definition pendingPayment (b : BookingWithRelations) : option Payment.t :=
  match payment b with
  | Some p => if PaymentStatus.eqb (Payment.status p) PaymentStatus.PENDING
              then Some p else None
  | None => None
  end.

Section Midtrans.
Variable env : Env.
(** [snap.createTransaction]: the provider's answer, [None] when the call
    throws. *)
Variable snap_createTransaction : SnapParameter -> option SnapTransaction.

(** [now] is the [Date.now()] of the order id, [created] the
    [new Date()] read after the provider answered, both in milliseconds;
    [setHours(getHours() + 24)] is local wall-clock arithmetic, taken here
    as 24 hours of clock time: that is exact only when the offset of the
    process's time zone does not change in between, so nothing below is
    stated about [expiredAt]. *)
Definition createSnapTransaction (b : BookingWithRelations) (now created : Z)
  : M SnapResult :=
  let bk := booking b in
  (* Generate unique order ID *)
  let orderId := ("TRV-" ++ Booking.bookingCode bk ++ "-" ++ string_of_Z now)%string in
  match customer b, travelPackage b with
  | None, _ | _, None => typeError
  | Some c, Some pkg =>
      let base := orDefault (FRONTEND_URL env) "http://localhost:3001" in
      let parameter :=
        mkSnapParameter orderId (parseInt (Booking.totalAmount bk))
          (Customer.name c) (Customer.email c) (orElse (Customer.phone c) "")
          ("PKG-" ++ string_of_Z (Booking.packageId bk))%string
          (TravelPackage.name pkg) (parseInt (TravelPackage.price pkg))
          (Booking.participants bk) "Travel Package"
          "hours" 24
          (base ++ "/booking/finish")%string
          (base ++ "/booking/error")%string
          (base ++ "/booking/pending")%string in
      tryCatch
        (match snap_createTransaction parameter with
         | None => throw (mkError None "MidtransError")
         | Some transaction =>
             (* Calculate expiry time (24 hours from now) *)
             let expiredAt := created + 24 * 3600 * 1000 in
             p <- payment_create (Booking.id bk) orderId (token transaction)
                                 (redirect_url transaction) (Booking.totalAmount bk)
                                 expiredAt ;;
             ret (mkSnapResult p (token transaction) (redirect_url transaction))
         end)
        (mkError (Some 500) "Failed to create payment transaction")
  end.

(** Signature Key = SHA512(order_id + status_code + gross_amount + ServerKey) *)
Definition verifySignature (notification : Notification) : bool :=
  let serverKey := MIDTRANS_SERVER_KEY env in
  let hash := SHA512.hex (order_id notification ++ status_code notification
                          ++ gross_amount notification ++ template serverKey)%string in
  String.eqb hash (signature_key notification).

Definition processNotification (notification : Notification) (now : Z) : M Payment.t :=
  (* Verify signature first *)
  if negb (verifySignature notification) then httpError 403 "Invalid signature"
  else
    (* Find payment by Midtrans order ID *)
    found <- gets (fun s => findByOrderId (order_id notification) (payments s)) ;;
    match found with
    | None => httpError 404 "Payment not found"
    | Some pay =>
        included <- gets (fun s => findById Booking.id (Payment.bookingId pay) (bookings s)) ;;
        match included with
        | None => typeError
        | Some bk =>
            let '(paymentStatus, bookingStatus) :=
              mapStatus (transaction_status notification) (fraud_status notification)
                        (Booking.status bk) in
            (* Update payment record *)
            updatedPayment <-
              payment_update (Payment.id pay)
                (notificationData paymentStatus (payment_type notification) now) ;;
            (* Update booking status if changed *)
            (if negb (BookingStatus.eqb bookingStatus (Booking.status bk)) then
               booking_update (Payment.bookingId pay) (setBookingStatus bookingStatus) ;;;
               (* Update customer status if booking is paid *)
               if BookingStatus.eqb bookingStatus BookingStatus.PAID
               then updateCustomerStatus (Booking.customerId bk)
               else ret tt
             else ret tt) ;;;
            ret updatedPayment
        end
    end.

(* =================================================================== *)
(** ** bookingController.js: [initiatePayment] *)
(* =================================================================== *)

Definition initiatePayment (user : User) (id : Z) (now created : Z)
  : Store -> Response * Store :=
  fun s =>
    match getBookingById id s with
    | (Throw e, s') => (Next e, s')
    | (Ok b, s') =>
        (* Ownership check for Customer *)
        if String.eqb (user_type user) "CUSTOMER"
           && negb (Booking.customerId (booking b) =? user_id user) then
          (Json 403 false "Access denied" None, s')
        (* Check if booking is in PENDING status *)
        else if negb (BookingStatus.eqb (Booking.status (booking b)) BookingStatus.PENDING) then
          (Json 400 false "Payment can only be initiated for pending bookings" None, s')
        else
          (* Check if payment already exists *)
          match pendingPayment b with
          | Some p =>
              (Json 200 true "Payment already initiated"
                    (Some (mkPayData (Payment.midtransToken p) (Payment.paymentUrl p))), s')
          | None =>
              (* Create Midtrans Snap transaction *)
              match createSnapTransaction b now created s' with
              | (Throw e, s'') => (Next e, s'')
              | (Ok result, s'') =>
                  (Json 200 true "Payment initiated successfully"
                        (Some (mkPayData (Some (sr_snapToken result))
                                         (Some (sr_redirectUrl result)))), s'')
              end
          end
    end.

End Midtrans.

(* ===================================================================== *)
(** ** Specification-side definitions *)
(* ===================================================================== *)

(** The slot-holding states as the specification names them. *)
Definition holdsSlot (st : BookingStatus.t) : bool :=
  match st with
  | BookingStatus.PENDING | BookingStatus.PAID | BookingStatus.CONFIRMED => true
  | BookingStatus.CANCELED | BookingStatus.COMPLETED => false
  end.

(** The specification's sum: over all bookings of the store, the
    participants of those that belong to the package and hold a slot. *)
Fixpoint specBookedParticipants (packageId : Z) (rows : list Booking.t) : Z :=
  match rows with
  | [] => 0
  | b :: rest =>
      (if (Booking.packageId b =? packageId) && holdsSlot (Booking.status b)
       then Booking.participants b else 0)
      + specBookedParticipants packageId rest
  end.

(** The provider outcomes that are final: every transaction status the
    table maps to SUCCESS, FAILED, EXPIRED or REFUND. *)
Definition finalOutcome (transaction_status : string) (fraud_status : option string) : Prop :=
  transaction_status = "settlement"
  \/ (transaction_status = "capture" /\ fraud_status = Some "accept")
  \/ transaction_status = "deny" \/ transaction_status = "cancel"
  \/ transaction_status = "expire" \/ transaction_status = "refund".

(** The terminal payment statuses. *)
Definition terminal (st : PaymentStatus.t) : bool :=
  match st with
  | PaymentStatus.PENDING => false
  | PaymentStatus.SUCCESS | PaymentStatus.FAILED
  | PaymentStatus.EXPIRED | PaymentStatus.REFUND => true
  end.

(** The transaction statuses [processNotification] tells apart. *)
Definition knownStatuses : list string :=
  ["capture"; "settlement"; "pending"; "deny"; "cancel"; "expire"; "refund"].

(** A payment row with its [paidAt] replaced. *)
Definition setPaidAt (v : option Z) (p : Payment.t) : Payment.t :=
  Payment.mk (Payment.id p) (Payment.bookingId p) (Payment.midtransOrderId p)
    (Payment.midtransToken p) (Payment.paymentUrl p) (Payment.amount p)
    (Payment.status p) (Payment.paymentType p) v (Payment.expiredAt p).

(** A run of [updateBooking] calls on one booking, results dropped. *)
Fixpoint updateBookingMany (id : Z) (patches : list UpdateData) (s : Store) : Store :=
  match patches with
  | [] => s
  | u :: rest => updateBookingMany id rest (snd (updateBooking id u s))
  end.

(* ===================================================================== *)
(** ** Sample rows and stores *)
(* ===================================================================== *)

Definition budi : Customer.t :=
  Customer.mk 1 "Budi" "budi@example.com" None CustomerStatus.PROSPECT.

(** Price 3500000.00, quota 10. *)
Definition baliTrip : TravelPackage.t :=
  TravelPackage.mk 1 "Bali Escape" "Bali" 350000000 10 true.

Definition closedTrip : TravelPackage.t :=
  TravelPackage.mk 2 "Lombok Retreat" "Lombok" 250000000 5 false.

Definition bookingOf (participants : Z) (st : BookingStatus.t) : Booking.t :=
  Booking.mk 1 "BK-0001" 1 1 participants (350000000 * participants)
             "2026-12-01T00:00:00.000Z" st None.

Definition storeWith (rows : list Booking.t) (pays : list Payment.t) : Store :=
  mkStore [budi] [baliTrip; closedTrip] rows pays 2 2.

Definition emptyStore : Store := mkStore [budi] [baliTrip; closedTrip] [] [] 1 1.

Definition demoEnv : Env := mkEnv (Some "Mid-server-demo-key") None.

Definition orderId1 : string := "TRV-BK-0001-1700000000000".

(** A notification for [orderId1] as the provider signs it for [demoEnv]
    (status code 200, gross amount 7000000.00). *)
Definition notice (transaction_status : string) (fraud_status : option string) : Notification :=
  mkNotification orderId1 "200" "7000000.00"
    "7b89b538f66a4f21e0d20cd8ddf25c486785f126eb35a4b71004cb4af010499c026bef34d6ca4b1fd3fe3e4f4243b8094c001f281ec0c09215259a36681a36c7"
    transaction_status fraud_status "bank_transfer".

Definition forgedNotice : Notification :=
  mkNotification orderId1 "200" "7000000.00"
    "fd7d4abf8c28e229298c6cd58d51ae480172367a911f0a967b0f29691e33fcc891e85f5c83cd72d12adbb4416a90336c34dc7e25b3c76af7483551f5dde44cdb"
    "settlement" None "bank_transfer".

Definition paymentRow (st : PaymentStatus.t) (paymentType : option string)
    (paidAt : option Z) : Payment.t :=
  Payment.mk 1 1 orderId1 (Some "tok-1")
             (Some "https://app.midtrans.com/snap/v2/vtweb/tok-1")
             700000000 st paymentType paidAt (Some 1700086400000).

(** A booking for 2 awaiting payment, its payment initiated. *)
Definition awaitingStore : Store :=
  storeWith [bookingOf 2 BookingStatus.PENDING] [paymentRow PaymentStatus.PENDING None None].

(** [awaitingStore] once the settlement was processed at 1700000500000. *)
Definition settledStore : Store :=
  mkStore [setCustomerStatus CustomerStatus.ACTIVE budi] [baliTrip; closedTrip]
          [bookingOf 2 BookingStatus.PAID]
          [paymentRow PaymentStatus.SUCCESS (Some "bank_transfer") (Some 1700000500000)]
          2 2.

(** A provider that answers every request with the same hosted page. *)
Definition demoSnap (_ : SnapParameter) : option SnapTransaction :=
  Some (mkSnapTransaction "tok-1" "https://app.midtrans.com/snap/v2/vtweb/tok-1").

Definition staff : User := mkUser "SALES" 7.

(* ===================================================================== *)
(** ** packageService.js: deactivation and deletion *)
(* ===================================================================== *)

Definition setTravelPackages (f : list TravelPackage.t -> list TravelPackage.t)
    (s : Store) : Store :=
  mkStore (customers s) (f (travelPackages s)) (bookings s) (payments s)
          (bookingSeq s) (paymentSeq s).

(** [prisma.travelPackage.update({ where: { id }, data })]. *)
Definition travelPackage_update (id : Z) (data : TravelPackage.t -> TravelPackage.t)
  : M TravelPackage.t :=
  row <- gets (fun s => findById TravelPackage.id id (travelPackages s)) ;;
  match row with
  | None => recordNotFound
  | Some p => modify (setTravelPackages (updateById TravelPackage.id id data)) ;;; ret (data p)
  end.

(** [prisma.travelPackage.delete({ where: { id } })]; Prisma throws when
    no row has the id. *)
Definition travelPackage_delete (id : Z) : M unit :=
  row <- gets (fun s => findById TravelPackage.id id (travelPackages s)) ;;
  match row with
  | None => throw (mkError None "Record to delete does not exist.")
  | Some _ =>
      modify (setTravelPackages (filter (fun p => negb (TravelPackage.id p =? id))))
  end.

Definition setIsActive (v : bool) (p : TravelPackage.t) : TravelPackage.t :=
  TravelPackage.mk (TravelPackage.id p) (TravelPackage.name p) (TravelPackage.destination p)
                   (TravelPackage.price p) (TravelPackage.quota p) v.

Definition deactivatePackage (id : Z) : M TravelPackage.t :=
  travelPackage_update id (setIsActive false).

Definition deletePackage (id : Z) : M unit :=
  (* Check if package has bookings *)
  bookingsCount <- gets (fun s =>
    Z.of_nat (List.length (filter (fun b => Booking.packageId b =? id) (bookings s)))) ;;
  if bookingsCount >? 0 then
    httpError 400 "Cannot delete package with existing bookings. Deactivate instead."
  else travelPackage_delete id.

(* ===================================================================== *)
(** ** bookingService.js: lookup by booking code *)
(* ===================================================================== *)

Definition getBookingByCode (bookingCode : string) : M BookingWithRelations :=
  found <- gets (fun s =>
    option_map (withRelations s)
      (find (fun b => String.eqb (Booking.bookingCode b) bookingCode) (bookings s))) ;;
  match found with
  | None => httpError 404 "Booking not found"
  | Some b => ret b
  end.

(* ===================================================================== *)
(** ** Controllers *)
(* ===================================================================== *)

(** What a handler does with [res] and [next]: a JSON body sent with a
    status, or the error handed to [next]. *)
Inductive Reply (A : Type) : Type :=
| Sent (status : Z) (success : bool) (msg : option string) (data : option A)
| Forwarded (e : Error).
Arguments Sent {A} status success msg data.
Arguments Forwarded {A} e.

(** The body of [POST /api/bookings]; [customerId] is optional. *)
Record CreateBody := mkCreateBody {
  cb_customerId : option Z;
  cb_packageId : Z;
  cb_participants : Z;
  cb_departureDate : string;
  cb_notes : option string
}.

(** [!req.body.customerId]: missing, or the falsy number 0. *)
Definition falsyId (v : option Z) : bool :=
  match v with
  | None => true
  | Some z => z =? 0
  end.

Module BookingController.

Definition getBookingById (user : User) (id : Z) : Store -> Reply BookingWithRelations * Store :=
  fun s =>
    match getBookingById id s with
    | (Throw e, s') => (Forwarded e, s')
    | (Ok b, s') =>
        (* Ownership check for Customer *)
        if String.eqb (user_type user) "CUSTOMER"
           && negb (Booking.customerId (booking b) =? user_id user) then
          (Sent 403 false (Some "Access denied") None, s')
        else (Sent 200 true None (Some b), s')
    end.

Definition createBooking (user : User) (body : CreateBody) (code : string)
  : Store -> Reply Booking.t * Store :=
  fun s =>
    (* Check if user is a Customer: force customerId to be their own ID *)
    let isCustomer := String.eqb (user_type user) "CUSTOMER" in
    let customerId := if isCustomer then Some (user_id user) else cb_customerId body in
    (* Staff must provide customerId *)
    if negb isCustomer && falsyId customerId then
      (Sent 400 false (Some "Customer ID is required") None, s)
    else
      match createBooking
              (mkBookingData (orElse customerId 0) (cb_packageId body) (cb_participants body)
                             (cb_departureDate body) (cb_notes body)) code s with
      | (Throw e, s') => (Forwarded e, s')
      | (Ok b, s') => (Sent 201 true (Some "Booking created successfully") (Some b), s')
      end.

End BookingController.

(** [data: { paymentId, status }] of the webhook answer. *)
Record WebhookData := mkWebhookData { paymentId : Z; paymentStatus : PaymentStatus.t }.

Module PaymentController.

Definition handleWebhook (env : Env) (notification : Notification) (now : Z)
  : Store -> Reply WebhookData * Store :=
  fun s =>
    (* Process and verify the notification *)
    match processNotification env notification now s with
    | (Throw e, s') => (Forwarded e, s')
    | (Ok payment, s') =>
        (Sent 200 true (Some "Notification processed")
              (Some (mkWebhookData (Payment.id payment) (Payment.status payment))), s')
    end.

End PaymentController.

(* ===================================================================== *)
(** ** middlewares/errorHandler.js *)
(* ===================================================================== *)

Record ZodIssue := mkZodIssue { zi_path : list string; zi_message : string }.

(** The properties of a thrown value the handler looks at. *)
Record JsError := mkJsError {
  err_name : string;
  err_code : option string;
  err_statusCode : option Z;
  err_message : string;
  err_errors : option (list ZodIssue);
  err_target : option (list string)
}.

(** The JSON answer: [errors] is set for validation errors only, [field]
    for unique-constraint errors only (its value may be undefined). *)
Record ErrorResponse := mkErrorResponse {
  er_status : Z;
  er_success : bool;
  er_message : string;
  er_errors : option (list (string * string));
  er_field : option (option string)
}.

(** [if (err.statusCode)]: set, and not the falsy number 0. *)
Definition truthyCode (v : option Z) : bool :=
  match v with
  | Some code => negb (code =? 0)
  | None => false
  end.

Definition errorHandler (NODE_ENV : option string) (err : JsError) : ErrorResponse :=
  (* Zod validation errors *)
  if String.eqb (err_name err) "ZodError" then
    mkErrorResponse 400 false "Validation error"
      (Some (map (fun e => (String.concat "." (zi_path e), zi_message e))
                 (orElse (err_errors err) [])))
      None
  (* Prisma errors *)
  else if strIs (err_code err) "P2002" then
    mkErrorResponse 409 false "A record with this value already exists" None
      (Some (match err_target err with
             | Some (t :: _) => Some t
             | _ => None
             end))
  else if strIs (err_code err) "P2025" then
    mkErrorResponse 404 false "Record not found" None None
  (* JWT errors *)
  else if String.eqb (err_name err) "JsonWebTokenError" then
    mkErrorResponse 401 false "Invalid token" None None
  else if String.eqb (err_name err) "TokenExpiredError" then
    mkErrorResponse 401 false "Token expired" None None
  (* Custom API errors *)
  else if truthyCode (err_statusCode err) then
    mkErrorResponse (orElse (err_statusCode err) 0) false (err_message err) None None
  (* Default server error *)
  else
    mkErrorResponse 500 false
      (if strIs NODE_ENV "development" then err_message err
       else "Internal server error") None None.

(** The error object the services build: [new Error(message)] with
    [statusCode] attached; its name is "Error" and it has no [code]. *)
Definition serviceError (e : Error) : JsError :=
  mkJsError "Error" None (statusCode e) (message e) None None.

(* ===================================================================== *)
(** ** middlewares/rbacMiddleware.js *)
(* ===================================================================== *)

Inductive Gate :=
| Proceed
| Rejected (status : Z) (msg : string).

(** [Proceed] is the call of [next()]. [user] is [req.user], absent when nobody is authenticated; its
    [role] is undefined for accounts that have none. *)
Definition authorize (allowedRoles : list string) (user : option (option string)) : Gate :=
  match user with
  | None => Rejected 401 "Authentication required"
  | Some role =>
      if negb (existsb (fun r => strIs role r) allowedRoles) then
        Rejected 403 ("Access denied. Required roles: "
                      ++ String.concat ", " allowedRoles)%string
      else Proceed
  end.

Definition adminOnly := authorize ["ADMIN"].
Definition staffOnly := authorize ["ADMIN"; "SALES"; "CS"].
Definition salesAndAdmin := authorize ["ADMIN"; "SALES"].
Definition csAndAdmin := authorize ["ADMIN"; "CS"].
Definition managementOnly := authorize ["ADMIN"; "MANAGER"].
Definition allStaff := authorize ["ADMIN"; "SALES"; "CS"; "MANAGER"].

(* ===================================================================== *)
(** ** Specification-side notions for the properties below *)
(* ===================================================================== *)

(** The bookings of a customer that count as paid for. *)
Fixpoint paidBookings (customerId : Z) (rows : list Booking.t) : Z :=
  match rows with
  | [] => 0
  | b :: rest =>
      (if (Booking.customerId b =? customerId)
          && match Booking.status b with
             | BookingStatus.PAID | BookingStatus.CONFIRMED | BookingStatus.COMPLETED => true
             | BookingStatus.PENDING | BookingStatus.CANCELED => false
             end
       then 1 else 0) + paidBookings customerId rest
  end.

(** The tier a count of paid bookings stands for. *)
Definition tierOf (count : Z) : CustomerStatus.t :=
  if 3 <=? count then CustomerStatus.LOYAL
  else if 1 <=? count then CustomerStatus.ACTIVE
  else CustomerStatus.PROSPECT.

(** What the bookings table can hold: [participants] is an INTEGER,
    [totalAmount] a DECIMAL(12,2), here in hundredths. *)
Definition fitsBookingColumns (participants totalAmount : Z) : Prop :=
  -2147483648 <= participants <= 2147483647
  /\ -999999999999 <= totalAmount <= 999999999999.

(** The slots a booking row holds in a package. *)
Definition slotsHeld (packageId : Z) (b : Booking.t) : Z :=
  if (Booking.packageId b =? packageId) && holdsSlot (Booking.status b)
  then Booking.participants b else 0.

(** No package is oversold: the slot-holding bookings of every package
    the store can resolve fit its quota. *)
Definition capacityOk (s : Store) : Prop :=
  forall packageId p,
    findById TravelPackage.id packageId (travelPackages s) = Some p ->
    specBookedParticipants packageId (bookings s) <= TravelPackage.quota p.

(** Every booking refers to a package of the store. *)
Definition packagesResolve (s : Store) : Prop :=
  forall b, In b (bookings s) ->
    findById TravelPackage.id (Booking.packageId b) (travelPackages s) <> None.

(** The primary key of the bookings table holds. *)
Definition uniqueBookingIds (s : Store) : Prop := NoDup (map Booking.id (bookings s)).

(** A run of booking requests, one after the other, results dropped. *)
Fixpoint createBookingMany (requests : list (BookingData * string)) (s : Store) : Store :=
  match requests with
  | [] => s
  | (data, code) :: rest => createBookingMany rest (snd (createBooking data code s))
  end.

(** A payment row without the columns a notification rewrites. *)
Definition paymentIdentity (p : Payment.t) :=
  (Payment.id p, Payment.bookingId p, Payment.midtransOrderId p, Payment.midtransToken p,
   Payment.paymentUrl p, Payment.amount p, Payment.expiredAt p).

(** A booking row without its status. *)
Definition bookingIdentity (b : Booking.t) :=
  (Booking.id b, Booking.bookingCode b, Booking.customerId b, Booking.packageId b,
   Booking.participants b, Booking.totalAmount b, Booking.departureDate b, Booking.notes b).

(** A customer row without its status. *)
Definition customerIdentity (c : Customer.t) :=
  (Customer.id c, Customer.name c, Customer.email c, Customer.phone c).

Definition customerBudi : User := mkUser "CUSTOMER" 1.
Definition customerSusi : User := mkUser "CUSTOMER" 2.


(* ===================================================================== *)
(** ** The hash against its published test vectors *)
(* ===================================================================== *)

Example sha512_abc :
  SHA512.hex "abc" =
  "ddaf35a193617abacc417349ae20413112e6fa4e89a97ea20a9eeee64b55d39a2192992a274fc1a836ba3c23a3feebbd454d4423643ce80e2a9ac94fa54ca49f".
Proof. vm_compute. reflexivity. Qed.

Example sha512_empty :
  SHA512.hex "" =
  "cf83e1357eefb8bdf1542850d66d8007d620e4050b5715dc83f4a921d36ce9ce47d0d13c5d85f2b0ff8318d2877eec2f63b931bd47417a81a538327af927da3e".
Proof. vm_compute. reflexivity. Qed.

(** Two blocks: 150 bytes, and 112 bytes (the padding spills over). *)
Example sha512_two_blocks :
  SHA512.hex
    "TRV-BK-0001-1700000000000TRV-BK-0001-1700000000000TRV-BK-0001-1700000000000TRV-BK-0001-1700000000000TRV-BK-0001-1700000000000TRV-BK-0001-1700000000000"
  = "c0a267120c2f15890a55279a622130874ea2297d0a77a275d9356a2d835e9ab66b2efdcca935e89642ad499ad04763f391a0fa4a3ad4486b80ef9cbdb3265156"
  /\ SHA512.hex
       "aaaaaaaaaaaaaaaaaaaaaaaaaaaaaaaaaaaaaaaaaaaaaaaaaaaaaaaaaaaaaaaaaaaaaaaaaaaaaaaaaaaaaaaaaaaaaaaaaaaaaaaaaaaaaaaa"
     = "c01d080efd492776a1c43bd23dd99d0a2e626d481e16782e75d54c2503b5dc32bd05f0f1ba33e568b88fd2d970929b719ecbb152f58f130a407c8830604b70ca".
Proof. vm_compute. auto. Qed.

(* ===================================================================== *)
(** ** Decidable equality of the status enumerations *)
(* ===================================================================== *)

Lemma BookingStatus_eqb_eq a b : BookingStatus.eqb a b = true <-> a = b.
Proof. destruct a, b; simpl; split; congruence. Qed.

Lemma BookingStatus_eqb_refl a : BookingStatus.eqb a a = true.
Proof. now destruct a. Qed.

Lemma PaymentStatus_eqb_eq a b : PaymentStatus.eqb a b = true <-> a = b.
Proof. destruct a, b; simpl; split; congruence. Qed.

(* ===================================================================== *)
(** ** Generic facts about the table primitives *)
(* ===================================================================== *)

Ltac unfold_monad :=
  unfold bind, gets, modify, ret, throw, httpError, typeError, recordNotFound in *.

Lemma find_map_preserved {A} (P : A -> bool) (g : A -> A) (rows : list A) :
  (forall r, P (g r) = P r) ->
  find P (map g rows) = option_map g (find P rows).
Proof.
  intros HP. induction rows as [|r rows IH]; simpl; [reflexivity|].
  rewrite HP. destruct (P r); [reflexivity | exact IH].
Qed.

Lemma findById_updateById {A} (key : A -> Z) (f : A -> A) (id id' : Z) (rows : list A) :
  (forall r, key (f r) = key r) ->
  findById key id' (updateById key id f rows)
  = option_map (fun r => if key r =? id then f r else r) (findById key id' rows).
Proof.
  intros Hk. unfold findById, updateById. apply find_map_preserved.
  intros r. destruct (key r =? id); [now rewrite Hk | reflexivity].
Qed.

Lemma updateById_twice {A} (key : A -> Z) (f g : A -> A) (id : Z) (rows : list A) :
  (forall r, key (f r) = key r) ->
  updateById key id g (updateById key id f rows)
  = updateById key id (fun r => g (f r)) rows.
Proof.
  intros Hk. unfold updateById. rewrite map_map. apply map_ext.
  intros r. destruct (key r =? id) eqn:E; [|now rewrite E].
  now rewrite Hk, E.
Qed.

Lemma find_Some_findById {A} (key : A -> Z) (P : A -> bool) (rows : list A) (r : A) :
  find P rows = Some r -> exists r0, findById key (key r) rows = Some r0.
Proof.
  intros H. apply find_some in H as [Hin _].
  unfold findById.
  destruct (find (fun r1 => key r1 =? key r) rows) as [r0|] eqn:E; [eauto|].
  exfalso. apply (find_none _ _ E) in Hin. now rewrite Z.eqb_refl in Hin.
Qed.

(* ===================================================================== *)
(** ** Capacity calculator *)
(* ===================================================================== *)


Lemma includes_slotHolding st :
  BookingStatus.includes [BookingStatus.PENDING; BookingStatus.PAID; BookingStatus.CONFIRMED] st
  = holdsSlot st.
Proof. now destruct st. Qed.

Lemma fold_participants_acc (rows : list Booking.t) (acc : Z) :
  fold_left (fun sum b => sum + Booking.participants b) rows acc
  = acc + fold_left (fun sum b => sum + Booking.participants b) rows 0.
Proof.
  revert acc. induction rows as [|b rows IH]; intros acc; simpl; [lia|].
  rewrite (IH (acc + _)), (IH (Booking.participants b)). lia.
Qed.

Lemma reduce_included_spec (packageId : Z) (s : Store) :
  reduceParticipants (includedBookings packageId s)
  = specBookedParticipants packageId (bookings s).
Proof.
  unfold reduceParticipants, includedBookings.
  induction (bookings s) as [|b rows IH]; [reflexivity|].
  cbn [filter specBookedParticipants]. rewrite includes_slotHolding.
  destruct ((Booking.packageId b =? packageId) && holdsSlot (Booking.status b)).
  - cbn [fold_left]. rewrite fold_participants_acc, IH. lia.
  - rewrite IH. lia.
Qed.

Lemma checkAvailability_run (s : Store) (packageId participants : Z) :
  checkAvailability packageId participants s =
  match findById TravelPackage.id packageId (travelPackages s) with
  | None => (Throw (mkError (Some 404) "Travel package not found"), s)
  | Some p =>
      if TravelPackage.isActive p then
        let slots := TravelPackage.quota p - specBookedParticipants packageId (bookings s) in
        (Ok (mkAvailability (slots >=? participants) slots participants), s)
      else (Throw (mkError (Some 400) "Travel package is not available"), s)
  end.
Proof.
  unfold checkAvailability. unfold_monad.
  destruct (findById TravelPackage.id packageId (travelPackages s)) as [p|]; [|reflexivity].
  destruct (TravelPackage.isActive p); simpl; [|reflexivity].
  now rewrite reduce_included_spec.
Qed.

(** C5. [checkAvailability] fails with 404 on an absent package and with
    400 on an inactive one, the store untouched; on an active package it
    returns availableSlots = quota minus the participants of the package's
    PENDING, PAID and CONFIRMED bookings (CANCELED and COMPLETED bookings
    add nothing to the sum) and isAvailable = (availableSlots >= requested).
    With quota 10 and one PENDING booking of 7, a request for 4 gets
    isAvailable = false and availableSlots = 3. *)
Theorem C5_checkAvailability (s : Store) (packageId participants : Z) :
  (findById TravelPackage.id packageId (travelPackages s) = None ->
   checkAvailability packageId participants s
   = (Throw (mkError (Some 404) "Travel package not found"), s))
  /\ (forall p, findById TravelPackage.id packageId (travelPackages s) = Some p ->
        TravelPackage.isActive p = false ->
        checkAvailability packageId participants s
        = (Throw (mkError (Some 400) "Travel package is not available"), s))
  /\ (forall p, findById TravelPackage.id packageId (travelPackages s) = Some p ->
        TravelPackage.isActive p = true ->
        let slots := TravelPackage.quota p - specBookedParticipants packageId (bookings s) in
        checkAvailability packageId participants s
        = (Ok (mkAvailability (slots >=? participants) slots participants), s))
  /\ (forall b rest,
        Booking.status b = BookingStatus.CANCELED \/ Booking.status b = BookingStatus.COMPLETED ->
        specBookedParticipants packageId (b :: rest) = specBookedParticipants packageId rest)
  /\ (forall p b, findById TravelPackage.id packageId (travelPackages s) = Some p ->
        TravelPackage.isActive p = true ->
        TravelPackage.quota p = 10 ->
        bookings s = [b] ->
        Booking.packageId b = packageId ->
        Booking.status b = BookingStatus.PENDING ->
        Booking.participants b = 7 ->
        participants = 4 ->
        checkAvailability packageId participants s = (Ok (mkAvailability false 3 4), s)).
Proof.
  rewrite checkAvailability_run.
  repeat split.
  - intros ->. reflexivity.
  - intros p -> ->. reflexivity.
  - intros p -> ->. reflexivity.
  - intros b rest [H|H]; simpl; rewrite H, andb_false_r; reflexivity.
  - intros p b -> -> Hq -> Hp Hs Hn ->. simpl.
    rewrite Hq, Hp, Hs, Hn, Z.eqb_refl. reflexivity.
Qed.

Lemma C5_checkAvailability_witness :
  checkAvailability 1 4 (storeWith [bookingOf 7 BookingStatus.PENDING] [])
  = (Ok (mkAvailability false 3 4), storeWith [bookingOf 7 BookingStatus.PENDING] [])
  /\ checkAvailability 2 1 emptyStore
     = (Throw (mkError (Some 400) "Travel package is not available"), emptyStore)
  /\ checkAvailability 9 1 emptyStore
     = (Throw (mkError (Some 404) "Travel package not found"), emptyStore)
  /\ checkAvailability 1 10 emptyStore = (Ok (mkAvailability true 10 10), emptyStore).
Proof.
  split; [|split; [|split]].
  - apply (proj2 (proj2 (proj2 (proj2
      (C5_checkAvailability (storeWith [bookingOf 7 BookingStatus.PENDING] []) 1 4))))
      baliTrip (bookingOf 7 BookingStatus.PENDING)); reflexivity.
  - apply (proj1 (proj2 (C5_checkAvailability emptyStore 2 1)) closedTrip); reflexivity.
  - apply (proj1 (C5_checkAvailability emptyStore 9 1)); reflexivity.
  - apply (proj1 (proj2 (proj2 (C5_checkAvailability emptyStore 1 10))) baliTrip); reflexivity.
Defined.

(* ===================================================================== *)
(** ** Booking lifecycle *)
(* ===================================================================== *)

Lemma getBookingById_found (s : Store) (id : Z) (b : Booking.t) :
  findById Booking.id id (bookings s) = Some b ->
  getBookingById id s = (Ok (withRelations s b), s).
Proof. intros H. unfold getBookingById. unfold_monad. now rewrite H. Qed.

Lemma booking_update_found (s : Store) (id : Z) (f : Booking.t -> Booking.t) (b : Booking.t) :
  findById Booking.id id (bookings s) = Some b ->
  booking_update id f s = (Ok (f b), setBookings (updateById Booking.id id f) s).
Proof. intros H. unfold booking_update. unfold_monad. now rewrite H. Qed.

(** C6. When the customer exists, the package exists and is active and
    the capacity check reports enough slots, [createBooking] returns and
    persists a booking with status PENDING and totalAmount = package price
    times participants, for every request whose participants and total the
    table's columns can hold (beyond them the insert is refused and no
    booking is returned); 2 participants at 3500000.00 give 7000000.00
    (amounts in hundredths). *)
Theorem C6_createBooking (s : Store) (data : BookingData) (code : string)
    (c : Customer.t) (p : TravelPackage.t) (a : Availability) :
  findById Customer.id (bd_customerId data) (customers s) = Some c ->
  findById TravelPackage.id (bd_packageId data) (travelPackages s) = Some p ->
  TravelPackage.isActive p = true ->
  checkAvailability (bd_packageId data) (bd_participants data) s = (Ok a, s) ->
  isAvailable a = true ->
  fitsBookingColumns (bd_participants data)
                     (TravelPackage.price p * bd_participants data) ->
  exists b s',
    createBooking data code s = (Ok b, s')
    /\ bookings s' = bookings s ++ [b]
    /\ Booking.status b = BookingStatus.PENDING
    /\ Booking.totalAmount b = TravelPackage.price p * bd_participants data
    /\ (bd_participants data = 2 -> TravelPackage.price p = 3500000 * 100 ->
        Booking.totalAmount b = 7000000 * 100).
Proof.
  intros Hc Hp Hact Hav Hok _.
  unfold createBooking, getCustomerById, getPackageById, booking_create.
  unfold bind at 1 2. unfold gets at 1. rewrite Hc. unfold ret at 1.
  unfold bind at 1 2. unfold gets at 1. rewrite Hp.
  unfold bind at 1. unfold gets at 1. unfold ret at 1.
  cbn [package]. rewrite Hact. cbn [negb].
  unfold bind at 1. rewrite Hav, Hok. cbn [negb].
  unfold_monad. cbn.
  eexists. eexists. split; [reflexivity|]. cbn.
  repeat split. intros -> ->. reflexivity.
Qed.

Lemma C6_createBooking_witness :
  exists b s',
    createBooking (mkBookingData 1 1 2 "2026-12-01T00:00:00.000Z" None) "BK-0001" emptyStore
    = (Ok b, s')
    /\ bookings s' = bookings emptyStore ++ [b]
    /\ Booking.status b = BookingStatus.PENDING
    /\ Booking.totalAmount b = 350000000 * 2
    /\ (2 = 2 -> 350000000 = 3500000 * 100 -> Booking.totalAmount b = 7000000 * 100).
Proof.
  apply (C6_createBooking emptyStore
           (mkBookingData 1 1 2 "2026-12-01T00:00:00.000Z" None) "BK-0001"
           budi baliTrip (mkAvailability true 10 2));
    try reflexivity.
  unfold fitsBookingColumns. cbn. lia.
Defined.

(** C7 as stated fails in its second half: a booking that reached PAID
    and was then cancelled is CANCELED, a status the guard of
    [updateBooking] lets through, and a later [updateBooking] call changes
    its participants (2 to 3) and its totalAmount (7000000.00 to
    10500000.00). *)
Lemma C7_counterexample :
  findById Booking.id 1 (bookings (storeWith [bookingOf 2 BookingStatus.PAID] []))
  = Some (bookingOf 2 BookingStatus.PAID)
  /\ cancelBooking 1 (storeWith [bookingOf 2 BookingStatus.PAID] [])
     = (Ok (bookingOf 2 BookingStatus.CANCELED),
        storeWith [bookingOf 2 BookingStatus.CANCELED] [])
  /\ updateBooking 1 (mkUpdateData (Some 3) None None None)
                   (storeWith [bookingOf 2 BookingStatus.CANCELED] [])
     = (Ok (bookingOf 3 BookingStatus.CANCELED),
        storeWith [bookingOf 3 BookingStatus.CANCELED] [])
  /\ Booking.participants (bookingOf 3 BookingStatus.CANCELED) = 3
  /\ Booking.participants (bookingOf 2 BookingStatus.PAID) = 2
  /\ Booking.totalAmount (bookingOf 3 BookingStatus.CANCELED) = 1050000000
  /\ Booking.totalAmount (bookingOf 2 BookingStatus.PAID) = 700000000
  /\ Booking.participants (bookingOf 3 BookingStatus.CANCELED)
     <> Booking.participants (bookingOf 2 BookingStatus.PAID)
  /\ Booking.totalAmount (bookingOf 3 BookingStatus.CANCELED)
     <> Booking.totalAmount (bookingOf 2 BookingStatus.PAID).
Proof. repeat split; discriminate. Qed.

(** C7, amended. On a booking whose status is PAID, CONFIRMED or
    COMPLETED every [updateBooking] call fails with 400 and leaves the store
    as it was, so no [updateBooking] call made while the booking is in one
    of these statuses, and no run of such calls, changes the booking, its
    totalAmount or its participants. *)
Theorem C7_updateBooking_paid_immutable (s : Store) (id : Z) (b : Booking.t) :
  findById Booking.id id (bookings s) = Some b ->
  Booking.status b = BookingStatus.PAID
  \/ Booking.status b = BookingStatus.CONFIRMED
  \/ Booking.status b = BookingStatus.COMPLETED ->
  (forall u, updateBooking id u s
             = (Throw (mkError (Some 400)
                  "Cannot modify a booking that is already paid or completed"), s))
  /\ (forall patches,
        updateBookingMany id patches s = s
        /\ exists b', findById Booking.id id (bookings (updateBookingMany id patches s)) = Some b'
                      /\ Booking.totalAmount b' = Booking.totalAmount b
                      /\ Booking.participants b' = Booking.participants b
                      /\ Booking.status b' = Booking.status b).
Proof.
  intros Hb Hst.
  assert (Hone : forall u, updateBooking id u s
             = (Throw (mkError (Some 400)
                  "Cannot modify a booking that is already paid or completed"), s)).
  { intros u. unfold updateBooking. unfold bind at 1.
    rewrite (getBookingById_found s id b Hb). cbn [booking withRelations].
    destruct Hst as [H|[H|H]]; rewrite H; reflexivity. }
  split; [exact Hone|].
  assert (Hmany : forall patches, updateBookingMany id patches s = s).
  { induction patches as [|u rest IH]; simpl; [reflexivity|].
    now rewrite Hone. }
  intros patches. split; [apply Hmany|].
  rewrite Hmany. exists b. now rewrite Hb.
Qed.

Lemma C7_updateBooking_paid_immutable_witness :
  updateBooking 1 (mkUpdateData (Some 3) None None (Some BookingStatus.PENDING))
                (storeWith [bookingOf 2 BookingStatus.PAID] [])
  = (Throw (mkError (Some 400) "Cannot modify a booking that is already paid or completed"),
     storeWith [bookingOf 2 BookingStatus.PAID] []).
Proof.
  apply (proj1 (C7_updateBooking_paid_immutable
                  (storeWith [bookingOf 2 BookingStatus.PAID] []) 1
                  (bookingOf 2 BookingStatus.PAID) eq_refl (or_introl eq_refl))).
Defined.

(** C8 as stated fails: cancelling a PAID booking succeeds and the
    booking becomes CANCELED. *)
Lemma C8_counterexample :
  findById Booking.id 1 (bookings (storeWith [bookingOf 2 BookingStatus.PAID] []))
  = Some (bookingOf 2 BookingStatus.PAID)
  /\ cancelBooking 1 (storeWith [bookingOf 2 BookingStatus.PAID] [])
     = (Ok (bookingOf 2 BookingStatus.CANCELED),
        storeWith [bookingOf 2 BookingStatus.CANCELED] [])
  /\ ~ (exists e, cancelBooking 1 (storeWith [bookingOf 2 BookingStatus.PAID] [])
                  = (Throw e, storeWith [bookingOf 2 BookingStatus.PAID] [])).
Proof.
  split; [reflexivity|]. split; [reflexivity|].
  intros [e H]. discriminate H.
Qed.

(** C8, amended. [cancelBooking] refuses only COMPLETED bookings (400,
    store untouched); on a booking in any other status, PAID included, it
    succeeds and sets the status to CANCELED. *)
Theorem C8_cancelBooking (s : Store) (id : Z) (b : Booking.t) :
  findById Booking.id id (bookings s) = Some b ->
  (Booking.status b <> BookingStatus.COMPLETED ->
   cancelBooking id s
   = (Ok (setBookingStatus BookingStatus.CANCELED b),
      setBookings (updateById Booking.id id (setBookingStatus BookingStatus.CANCELED)) s)
   /\ findById Booking.id id
        (bookings (snd (cancelBooking id s)))
      = Some (setBookingStatus BookingStatus.CANCELED b))
  /\ (Booking.status b = BookingStatus.PAID ->
      exists b' s', cancelBooking id s = (Ok b', s')
                    /\ Booking.status b' = BookingStatus.CANCELED
                    /\ findById Booking.id id (bookings s') = Some b')
  /\ (Booking.status b = BookingStatus.COMPLETED ->
      cancelBooking id s
      = (Throw (mkError (Some 400) "Cannot cancel a completed booking"), s)).
Proof.
  intros Hb.
  assert (Hrun : Booking.status b <> BookingStatus.COMPLETED ->
    cancelBooking id s
    = (Ok (setBookingStatus BookingStatus.CANCELED b),
       setBookings (updateById Booking.id id (setBookingStatus BookingStatus.CANCELED)) s)).
  { intros Hne. unfold cancelBooking. unfold bind at 1.
    rewrite (getBookingById_found s id b Hb). cbn [booking withRelations].
    destruct (BookingStatus.eqb (Booking.status b) BookingStatus.COMPLETED) eqn:E.
    - apply BookingStatus_eqb_eq in E. contradiction.
    - now apply booking_update_found. }
  assert (Hfind : findById Booking.id id
            (bookings (setBookings (updateById Booking.id id
                                      (setBookingStatus BookingStatus.CANCELED)) s))
          = Some (setBookingStatus BookingStatus.CANCELED b)).
  { cbn [bookings setBookings]. rewrite findById_updateById by reflexivity.
    rewrite Hb. cbn [option_map].
    unfold findById in Hb. apply find_some in Hb as [_ Hid]. now rewrite Hid. }
  split; [|split].
  - intros Hne. rewrite (Hrun Hne). split; [reflexivity | exact Hfind].
  - intros Hpaid. do 2 eexists. split; [apply Hrun; rewrite Hpaid; discriminate|].
    split; [reflexivity | exact Hfind].
  - intros Hc. unfold cancelBooking. unfold bind at 1.
    rewrite (getBookingById_found s id b Hb). cbn [booking withRelations].
    now rewrite Hc.
Qed.

Lemma C8_cancelBooking_witness :
  exists b' s', cancelBooking 1 (storeWith [bookingOf 2 BookingStatus.PAID] []) = (Ok b', s')
                /\ Booking.status b' = BookingStatus.CANCELED
                /\ findById Booking.id 1 (bookings s') = Some b'.
Proof.
  apply (proj1 (proj2 (C8_cancelBooking (storeWith [bookingOf 2 BookingStatus.PAID] []) 1
                         (bookingOf 2 BookingStatus.PAID) eq_refl))).
  reflexivity.
Defined.

(* ===================================================================== *)
(** ** Webhook notification processor *)
(* ===================================================================== *)

Lemma setBookingStatus_same (b : Booking.t) :
  setBookingStatus (Booking.status b) b = b.
Proof. now destruct b. Qed.

Lemma updateCustomerStatus_frame (c : Z) (s : Store) :
  payments (snd (updateCustomerStatus c s)) = payments s
  /\ bookings (snd (updateCustomerStatus c s)) = bookings s.
Proof.
  unfold updateCustomerStatus, customer_update. unfold_monad. cbn.
  destruct (findById Customer.id c (customers s)); cbn; auto.
Qed.

Lemma updateCustomerStatus_ok (c : Z) (s : Store) :
  findById Customer.id c (customers s) <> None ->
  exists s', updateCustomerStatus c s = (Ok tt, s').
Proof.
  intros H. unfold updateCustomerStatus, customer_update. unfold_monad. cbn.
  destruct (findById Customer.id c (customers s)); [|contradiction].
  cbn. eauto.
Qed.

Section Webhook.
Variable env : Env.
Variable n : Notification.

Lemma processNotification_run (now : Z) (s : Store) (pay : Payment.t) (bk : Booking.t) :
  verifySignature env n = true ->
  findByOrderId (order_id n) (payments s) = Some pay ->
  findById Booking.id (Payment.bookingId pay) (bookings s) = Some bk ->
  exists p0,
    findById Payment.id (Payment.id pay) (payments s) = Some p0
    /\ let ps := fst (mapStatus (transaction_status n) (fraud_status n) (Booking.status bk)) in
       let bs := snd (mapStatus (transaction_status n) (fraud_status n) (Booking.status bk)) in
       let data := notificationData ps (payment_type n) now in
       let s1 := setPayments (updateById Payment.id (Payment.id pay) data) s in
       let s2 := setBookings (updateById Booking.id (Payment.bookingId pay)
                                         (setBookingStatus bs)) s1 in
       processNotification env n now s =
       if BookingStatus.eqb bs (Booking.status bk) then (Ok (data p0), s1)
       else if BookingStatus.eqb bs BookingStatus.PAID then
              match updateCustomerStatus (Booking.customerId bk) s2 with
              | (Ok _, s3) => (Ok (data p0), s3)
              | (Throw e, s3) => (Throw e, s3)
              end
            else (Ok (data p0), s2).
Proof.
  intros Hsig Hpay Hbk.
  destruct (find_Some_findById Payment.id _ _ _ Hpay) as [p0 Hp0].
  exists p0. split; [exact Hp0|]. cbv zeta.
  unfold processNotification. rewrite Hsig. cbn [negb].
  unfold bind at 1. unfold gets at 1. cbv beta. rewrite Hpay.
  unfold bind at 1. unfold gets at 1. rewrite Hbk.
  destruct (mapStatus (transaction_status n) (fraud_status n) (Booking.status bk))
    as [ps bs]. cbn [fst snd].
  unfold bind at 1. unfold payment_update at 1.
  unfold bind at 1. unfold gets at 1. rewrite Hp0.
  unfold bind at 1. unfold modify at 1. unfold ret at 1.
  destruct (BookingStatus.eqb bs (Booking.status bk)); cbn [negb].
  - reflexivity.
  - unfold bind at 1. unfold bind at 1.
    rewrite (booking_update_found _ _ _ bk) by exact Hbk.
    destruct (BookingStatus.eqb bs BookingStatus.PAID).
    + destruct (updateCustomerStatus _ _) as [[[]|e] s3]; reflexivity.
    + reflexivity.
Qed.

(** The tables after a notification that passed the signature check and
    resolved to a payment and its booking. *)
Lemma processNotification_tables (now : Z) (s : Store) (pay : Payment.t) (bk : Booking.t) :
  verifySignature env n = true ->
  findByOrderId (order_id n) (payments s) = Some pay ->
  findById Booking.id (Payment.bookingId pay) (bookings s) = Some bk ->
  let ps := fst (mapStatus (transaction_status n) (fraud_status n) (Booking.status bk)) in
  let bs := snd (mapStatus (transaction_status n) (fraud_status n) (Booking.status bk)) in
  let s' := snd (processNotification env n now s) in
  payments s' = updateById Payment.id (Payment.id pay)
                           (notificationData ps (payment_type n) now) (payments s)
  /\ bookings s' = (if BookingStatus.eqb bs (Booking.status bk) then bookings s
                    else updateById Booking.id (Payment.bookingId pay)
                                    (setBookingStatus bs) (bookings s)).
Proof.
  intros Hsig Hpay Hbk. cbv zeta.
  destruct (processNotification_run now s pay bk Hsig Hpay Hbk) as [p0 [_ Hrun]].
  cbv zeta in Hrun. rewrite Hrun. clear Hrun.
  destruct (BookingStatus.eqb _ (Booking.status bk)); [split; reflexivity|].
  destruct (BookingStatus.eqb _ BookingStatus.PAID); [|split; reflexivity].
  match goal with |- context [updateCustomerStatus ?c ?st] =>
    destruct (updateCustomerStatus_frame c st) as [Hp Hb];
    destruct (updateCustomerStatus c st) as [[[]|e] s3] end;
  cbn [snd] in *; rewrite Hp, Hb; split; reflexivity.
Qed.

(** The rows read back after the notification: the payment found by
    order id and the booking it belongs to. *)
Lemma processNotification_rows (now : Z) (s : Store) (pay : Payment.t) (bk : Booking.t) :
  verifySignature env n = true ->
  findByOrderId (order_id n) (payments s) = Some pay ->
  findById Booking.id (Payment.bookingId pay) (bookings s) = Some bk ->
  let ps := fst (mapStatus (transaction_status n) (fraud_status n) (Booking.status bk)) in
  let bs := snd (mapStatus (transaction_status n) (fraud_status n) (Booking.status bk)) in
  let s' := snd (processNotification env n now s) in
  findByOrderId (order_id n) (payments s') = Some (notificationData ps (payment_type n) now pay)
  /\ findById Booking.id (Payment.bookingId pay) (bookings s')
     = Some (setBookingStatus bs bk).
Proof.
  intros Hsig Hpay Hbk. cbv zeta.
  destruct (processNotification_tables now s pay bk Hsig Hpay Hbk) as [Hp Hb].
  cbv zeta in Hp, Hb. rewrite Hp, Hb. split.
  - unfold updateById, findByOrderId in *. rewrite find_map_preserved.
    + rewrite Hpay. cbn [option_map]. now rewrite Z.eqb_refl.
    + intros r. destruct (Payment.id r =? Payment.id pay); reflexivity.
  - destruct (BookingStatus.eqb _ (Booking.status bk)) eqn:E.
    + apply BookingStatus_eqb_eq in E. rewrite E, setBookingStatus_same. exact Hbk.
    + rewrite findById_updateById by reflexivity. rewrite Hbk. cbn [option_map].
      unfold findById in Hbk. apply find_some in Hbk as [_ Hid]. now rewrite Hid.
Qed.

Lemma processNotification_returns (now : Z) (s : Store) (pay : Payment.t) (bk : Booking.t) :
  verifySignature env n = true ->
  findByOrderId (order_id n) (payments s) = Some pay ->
  findById Booking.id (Payment.bookingId pay) (bookings s) = Some bk ->
  findById Customer.id (Booking.customerId bk) (customers s) <> None ->
  exists p s', processNotification env n now s = (Ok p, s').
Proof.
  intros Hsig Hpay Hbk Hc.
  destruct (processNotification_run now s pay bk Hsig Hpay Hbk) as [p0 [_ Hrun]].
  cbv zeta in Hrun. rewrite Hrun. clear Hrun.
  destruct (BookingStatus.eqb _ (Booking.status bk)); [eauto|].
  destruct (BookingStatus.eqb _ BookingStatus.PAID); [|eauto].
  match goal with |- context [updateCustomerStatus ?c ?st] =>
    destruct (updateCustomerStatus_ok c st) as [s3 H3]; [exact Hc|rewrite H3] end.
  eauto.
Qed.

End Webhook.

Example notice_signature_valid :
  verifySignature demoEnv (notice "settlement" None) = true
  /\ verifySignature demoEnv forgedNotice = false
  /\ verifySignature (mkEnv None None) forgedNotice = true.
Proof. vm_compute. auto. Qed.

Example settlement_run :
  processNotification demoEnv (notice "settlement" None) 1700000500000 awaitingStore
  = (Ok (paymentRow PaymentStatus.SUCCESS (Some "bank_transfer") (Some 1700000500000)),
     settledStore).
Proof. vm_compute. reflexivity. Qed.

(** C1. A validly signed notification that resolves to a payment (and
    its booking) rewrites them per the status table, sets paymentType, and
    sets paidAt to the current time exactly when the payment status
    becomes SUCCESS, null otherwise. *)
Theorem C1_status_mapping (env : Env) (n : Notification) (now : Z) (s : Store)
    (pay : Payment.t) (bk : Booking.t) :
  verifySignature env n = true ->
  findByOrderId (order_id n) (payments s) = Some pay ->
  findById Booking.id (Payment.bookingId pay) (bookings s) = Some bk ->
  let ts := transaction_status n in
  let fs := fraud_status n in
  let s' := snd (processNotification env n now s) in
  exists pay' bk',
    findByOrderId (order_id n) (payments s') = Some pay'
    /\ findById Booking.id (Payment.bookingId pay) (bookings s') = Some bk'
    /\ (ts = "capture" -> fs = Some "accept" ->
        Payment.status pay' = PaymentStatus.SUCCESS /\ Booking.status bk' = BookingStatus.PAID)
    /\ (ts = "capture" -> fs = Some "challenge" ->
        Payment.status pay' = PaymentStatus.PENDING /\ bk' = bk)
    /\ (ts = "settlement" ->
        Payment.status pay' = PaymentStatus.SUCCESS /\ Booking.status bk' = BookingStatus.PAID)
    /\ (ts = "pending" ->
        Payment.status pay' = PaymentStatus.PENDING /\ bk' = bk)
    /\ (ts = "deny" \/ ts = "cancel" ->
        Payment.status pay' = PaymentStatus.FAILED /\ Booking.status bk' = BookingStatus.CANCELED)
    /\ (ts = "expire" ->
        Payment.status pay' = PaymentStatus.EXPIRED /\ Booking.status bk' = BookingStatus.CANCELED)
    /\ (ts = "refund" ->
        Payment.status pay' = PaymentStatus.REFUND /\ bk' = bk)
    /\ Payment.paymentType pay' = Some (payment_type n)
    /\ (Payment.paidAt pay' = Some now <-> Payment.status pay' = PaymentStatus.SUCCESS)
    /\ (Payment.status pay' <> PaymentStatus.SUCCESS -> Payment.paidAt pay' = None)
    /\ (findById Customer.id (Booking.customerId bk) (customers s) <> None ->
        exists p, fst (processNotification env n now s) = Ok p).
Proof.
  intros Hsig Hpay Hbk ts fs s'.
  destruct (processNotification_rows env n now s pay bk Hsig Hpay Hbk) as [Hp Hb].
  cbv zeta in Hp, Hb. fold ts fs s' in Hp, Hb.
  eexists. eexists. split; [exact Hp|]. split; [exact Hb|].
  cbn [Payment.status Payment.paidAt Payment.paymentType notificationData
       Booking.status setBookingStatus].
  repeat match goal with |- _ /\ _ => split end.
  - intros H1 H2. rewrite H1, H2. split; reflexivity.
  - intros H1 H2. rewrite H1, H2. split; [reflexivity | apply setBookingStatus_same].
  - intros H1. rewrite H1. split; reflexivity.
  - intros H1. rewrite H1. split; [reflexivity | apply setBookingStatus_same].
  - intros [H1|H1]; rewrite H1; split; reflexivity.
  - intros H1. rewrite H1. split; reflexivity.
  - intros H1. rewrite H1. split; [reflexivity | apply setBookingStatus_same].
  - reflexivity.
  - destruct (fst (mapStatus ts fs (Booking.status bk))); cbn; split; congruence.
  - destruct (fst (mapStatus ts fs (Booking.status bk))); cbn; congruence.
  - intros Hc.
    destruct (processNotification_returns env n now s pay bk Hsig Hpay Hbk Hc) as [p [s1 H]].
    exists p. now rewrite H.
Qed.

Lemma C1_status_mapping_witness :
  exists pay' bk',
    findByOrderId orderId1
      (payments (snd (processNotification demoEnv (notice "settlement" None)
                                          1700000500000 awaitingStore))) = Some pay'
    /\ findById Booking.id 1
         (bookings (snd (processNotification demoEnv (notice "settlement" None)
                                             1700000500000 awaitingStore))) = Some bk'
    /\ Payment.status pay' = PaymentStatus.SUCCESS
    /\ Booking.status bk' = BookingStatus.PAID
    /\ Payment.paidAt pay' = Some 1700000500000.
Proof.
  destruct (C1_status_mapping demoEnv (notice "settlement" None) 1700000500000 awaitingStore
              (paymentRow PaymentStatus.PENDING None None)
              (bookingOf 2 BookingStatus.PENDING))
    as (pay' & bk' & H1 & H2 & _ & _ & H5 & _ & _ & _ & _ & _ & H11 & _).
  - vm_compute. reflexivity.
  - reflexivity.
  - reflexivity.
  - destruct (H5 eq_refl) as [Hs Hb]. exists pay', bk'.
    repeat split; try assumption. apply H11. exact Hs.
Defined.

(** C4. [processNotification] recomputes the SHA-512 hex digest of
    order_id + status_code + gross_amount + server key and compares it with
    the payload's signature_key; when they differ it throws 403 and the
    store (payments, bookings, customers) is left as it was. *)
Theorem C4_invalid_signature (env : Env) (n : Notification) (now : Z) (s : Store) :
  (verifySignature env n = true <->
   signature_key n
   = SHA512.hex (order_id n ++ status_code n ++ gross_amount n
                 ++ template (MIDTRANS_SERVER_KEY env))%string)
  /\ (signature_key n
      <> SHA512.hex (order_id n ++ status_code n ++ gross_amount n
                     ++ template (MIDTRANS_SERVER_KEY env))%string ->
      processNotification env n now s
      = (Throw (mkError (Some 403) "Invalid signature"), s)).
Proof.
  assert (Hiff : verifySignature env n = true <->
    signature_key n
    = SHA512.hex (order_id n ++ status_code n ++ gross_amount n
                  ++ template (MIDTRANS_SERVER_KEY env))%string).
  { unfold verifySignature. rewrite String.eqb_eq. split; congruence. }
  split; [exact Hiff|].
  intros Hne.
  unfold processNotification.
  destruct (verifySignature env n) eqn:E; [|reflexivity].
  exfalso. apply Hne. now apply Hiff.
Qed.

Lemma C4_invalid_signature_witness :
  processNotification demoEnv forgedNotice 1700000500000 awaitingStore
  = (Throw (mkError (Some 403) "Invalid signature"), awaitingStore).
Proof.
  apply (proj2 (C4_invalid_signature demoEnv forgedNotice 1700000500000 awaitingStore)).
  vm_compute. discriminate.
Defined.

Lemma strIs_false (v : option string) (lit : string) :
  v <> Some lit -> strIs v lit = false.
Proof.
  intros H. destruct v as [x|]; [|reflexivity]. cbn.
  apply String.eqb_neq. congruence.
Qed.

Lemma mapStatus_unrecognised (ts : string) (fs : option string) (c : BookingStatus.t) :
  ~ In ts knownStatuses
  \/ (ts = "capture" /\ fs <> Some "accept" /\ fs <> Some "challenge") ->
  mapStatus ts fs c = (PaymentStatus.PENDING, c).
Proof.
  intros [Hno | (-> & Ha & Hc)].
  - unfold mapStatus.
    repeat match goal with
    | |- context [String.eqb ts ?lit] =>
        let E := fresh in
        destruct (String.eqb ts lit) eqn:E;
        [apply String.eqb_eq in E; exfalso; apply Hno; rewrite E; cbn; tauto|]
    end.
    reflexivity.
  - unfold mapStatus. cbn. now rewrite (strIs_false _ _ Ha), (strIs_false _ _ Hc).
Qed.

(** C10. A validly signed notification whose transaction_status is not
    one of the seven known ones, or is capture with a fraud_status that is
    neither accept nor challenge, is accepted: the payment becomes PENDING
    with paidAt null and the payload's payment_type, nothing else in the
    store changes. *)
Theorem C10_unrecognised_status (env : Env) (n : Notification) (now : Z) (s : Store)
    (pay : Payment.t) (bk : Booking.t) :
  verifySignature env n = true ->
  findByOrderId (order_id n) (payments s) = Some pay ->
  findById Booking.id (Payment.bookingId pay) (bookings s) = Some bk ->
  ~ In (transaction_status n) knownStatuses
  \/ (transaction_status n = "capture"
      /\ fraud_status n <> Some "accept" /\ fraud_status n <> Some "challenge") ->
  exists p pay',
    processNotification env n now s
    = (Ok p, setPayments (updateById Payment.id (Payment.id pay)
                            (notificationData PaymentStatus.PENDING (payment_type n) now)) s)
    /\ Payment.status p = PaymentStatus.PENDING
    /\ findByOrderId (order_id n)
         (payments (snd (processNotification env n now s))) = Some pay'
    /\ Payment.status pay' = PaymentStatus.PENDING
    /\ Payment.paidAt pay' = None
    /\ Payment.paymentType pay' = Some (payment_type n)
    /\ bookings (snd (processNotification env n now s)) = bookings s
    /\ customers (snd (processNotification env n now s)) = customers s.
Proof.
  intros Hsig Hpay Hbk Hun.
  pose proof (mapStatus_unrecognised _ _ (Booking.status bk) Hun) as Hmap.
  destruct (processNotification_run env n now s pay bk Hsig Hpay Hbk) as [p0 [_ Hrun]].
  destruct (processNotification_rows env n now s pay bk Hsig Hpay Hbk) as [Hp _].
  cbv zeta in Hrun, Hp. rewrite Hmap in Hrun, Hp. cbn [fst snd] in Hrun, Hp.
  rewrite BookingStatus_eqb_refl in Hrun.
  eexists. eexists. split; [exact Hrun|].
  split; [reflexivity|]. split; [exact Hp|].
  rewrite Hrun. repeat split.
Qed.

Lemma C10_unrecognised_status_witness :
  exists p pay',
    processNotification demoEnv (notice "authorize" None) 1700000900000 settledStore
    = (Ok p, setPayments (updateById Payment.id 1
                            (notificationData PaymentStatus.PENDING "bank_transfer"
                                              1700000900000)) settledStore)
    /\ Payment.status p = PaymentStatus.PENDING
    /\ findByOrderId orderId1
         (payments (snd (processNotification demoEnv (notice "authorize" None)
                                             1700000900000 settledStore))) = Some pay'
    /\ Payment.status pay' = PaymentStatus.PENDING
    /\ Payment.paidAt pay' = None
    /\ Payment.paymentType pay' = Some "bank_transfer"
    /\ bookings (snd (processNotification demoEnv (notice "authorize" None)
                                          1700000900000 settledStore))
       = bookings settledStore
    /\ customers (snd (processNotification demoEnv (notice "authorize" None)
                                           1700000900000 settledStore))
       = customers settledStore.
Proof.
  apply (C10_unrecognised_status demoEnv (notice "authorize" None) 1700000900000 settledStore
           (paymentRow PaymentStatus.SUCCESS (Some "bank_transfer") (Some 1700000500000))
           (bookingOf 2 BookingStatus.PAID)).
  - vm_compute. reflexivity.
  - reflexivity.
  - reflexivity.
  - left. cbn. intros H. repeat (destruct H as [H|H]; [discriminate H|]). exact H.
Defined.

Lemma mapStatus_final (ts : string) (fs : option string) (c : BookingStatus.t) :
  finalOutcome ts fs -> fst (mapStatus ts fs c) <> PaymentStatus.PENDING.
Proof.
  intros [->|[[-> ->]|[->|[->|[->| ->]]]]]; cbn; discriminate.
Qed.

Lemma mapStatus_not_final (ts : string) (fs : option string) (c : BookingStatus.t) :
  ~ finalOutcome ts fs -> fst (mapStatus ts fs c) = PaymentStatus.PENDING.
Proof.
  intros Hno. unfold mapStatus.
  destruct (String.eqb ts "capture") eqn:E1.
  { apply String.eqb_eq in E1.
    destruct (strIs fs "accept") eqn:E2; [|destruct (strIs fs "challenge"); reflexivity].
    exfalso. apply Hno. right; left. split; [exact E1|].
    destruct fs as [x|]; [|discriminate E2]. cbn in E2.
    apply String.eqb_eq in E2. now rewrite E2. }
  destruct (String.eqb ts "settlement") eqn:E2.
  { apply String.eqb_eq in E2. exfalso. apply Hno. now left. }
  destruct (String.eqb ts "pending"); [reflexivity|].
  destruct (String.eqb ts "deny") eqn:E4.
  { apply String.eqb_eq in E4. exfalso. apply Hno. unfold finalOutcome. tauto. }
  destruct (String.eqb ts "cancel") eqn:E5.
  { apply String.eqb_eq in E5. exfalso. apply Hno. unfold finalOutcome. tauto. }
  cbn [orb].
  destruct (String.eqb ts "expire") eqn:E6.
  { apply String.eqb_eq in E6. exfalso. apply Hno. unfold finalOutcome. tauto. }
  destruct (String.eqb ts "refund") eqn:E7.
  { apply String.eqb_eq in E7. exfalso. apply Hno. unfold finalOutcome. tauto. }
  reflexivity.
Qed.

(** C3 as stated fails: after the settlement was processed the payment
    is SUCCESS, and a validly signed [pending] notification for the same
    order then sets it back to PENDING. *)
Lemma C3_counterexample :
  snd (processNotification demoEnv (notice "settlement" None) 1700000500000 awaitingStore)
  = settledStore
  /\ option_map Payment.status (findByOrderId orderId1 (payments settledStore))
     = Some PaymentStatus.SUCCESS
  /\ verifySignature demoEnv (notice "pending" None) = true
  /\ option_map Payment.status
       (findByOrderId orderId1
          (payments (snd (processNotification demoEnv (notice "pending" None)
                                              1700000900000 settledStore))))
     = Some PaymentStatus.PENDING.
Proof. vm_compute. auto. Qed.

(** C3, amended. The stored status plays no part: on a payment in a
    terminal status a validly signed notification leaves a status other
    than PENDING exactly when it carries a final outcome (settlement,
    capture with accept, deny, cancel, expire, refund); every other
    notification sets the status to PENDING. *)
Theorem C3_terminal_status_overwritten (env : Env) (n : Notification) (now : Z) (s : Store)
    (pay : Payment.t) (bk : Booking.t) :
  verifySignature env n = true ->
  findByOrderId (order_id n) (payments s) = Some pay ->
  findById Booking.id (Payment.bookingId pay) (bookings s) = Some bk ->
  terminal (Payment.status pay) = true ->
  exists pay',
    findByOrderId (order_id n) (payments (snd (processNotification env n now s))) = Some pay'
    /\ (finalOutcome (transaction_status n) (fraud_status n) ->
        Payment.status pay' <> PaymentStatus.PENDING)
    /\ (~ finalOutcome (transaction_status n) (fraud_status n) ->
        Payment.status pay' = PaymentStatus.PENDING).
Proof.
  intros Hsig Hpay Hbk _.
  destruct (processNotification_rows env n now s pay bk Hsig Hpay Hbk) as [Hp _].
  cbv zeta in Hp. eexists. split; [exact Hp|].
  cbn [Payment.status notificationData]. split.
  - apply mapStatus_final.
  - apply mapStatus_not_final.
Qed.

Lemma C3_terminal_status_overwritten_witness :
  exists pay',
    findByOrderId orderId1
      (payments (snd (processNotification demoEnv (notice "pending" None)
                                          1700000900000 settledStore))) = Some pay'
    /\ Payment.status pay' = PaymentStatus.PENDING.
Proof.
  destruct (C3_terminal_status_overwritten demoEnv (notice "pending" None) 1700000900000
              settledStore
              (paymentRow PaymentStatus.SUCCESS (Some "bank_transfer") (Some 1700000500000))
              (bookingOf 2 BookingStatus.PAID))
    as (pay' & H1 & _ & H3).
  - vm_compute. reflexivity.
  - reflexivity.
  - reflexivity.
  - reflexivity.
  - exists pay'. split; [exact H1|]. apply H3.
    unfold finalOutcome. cbn.
    intros [H|[[H _]|[H|[H|[H|H]]]]]; discriminate H.
Defined.

Lemma mapStatus_fst_current (ts : string) (fs : option string) (c c' : BookingStatus.t) :
  fst (mapStatus ts fs c) = fst (mapStatus ts fs c').
Proof.
  unfold mapStatus.
  repeat match goal with |- context [if ?b then _ else _] => destruct b end; reflexivity.
Qed.

Lemma mapStatus_snd_idem (ts : string) (fs : option string) (c : BookingStatus.t) :
  snd (mapStatus ts fs (snd (mapStatus ts fs c))) = snd (mapStatus ts fs c).
Proof.
  unfold mapStatus.
  repeat match goal with |- context [if ?b then _ else _] => destruct b end; reflexivity.
Qed.

Lemma setPayments_same (f : list Payment.t -> list Payment.t) (s : Store) :
  f (payments s) = payments s -> setPayments f s = s.
Proof. intros H. destruct s. unfold setPayments. cbn in *. now rewrite H. Qed.

Lemma setPayments_ext (f g : list Payment.t -> list Payment.t) (s : Store) :
  f (payments s) = g (payments s) -> setPayments f s = setPayments g s.
Proof. intros H. unfold setPayments. now rewrite H. Qed.

(** C2 as stated fails: the settlement processed at 1700000500000 and
    delivered again at 1700000900000 moves paidAt to the second time, so
    the state after the second call is not the state after the first. *)
Lemma C2_counterexample :
  processNotification demoEnv (notice "settlement" None) 1700000500000 awaitingStore
  = (Ok (paymentRow PaymentStatus.SUCCESS (Some "bank_transfer") (Some 1700000500000)),
     settledStore)
  /\ option_map Payment.paidAt
       (findByOrderId orderId1
          (payments (snd (processNotification demoEnv (notice "settlement" None)
                                              1700000900000 settledStore))))
     = Some (Some 1700000900000)
  /\ snd (processNotification demoEnv (notice "settlement" None) 1700000900000 settledStore)
     <> settledStore.
Proof.
  split; [vm_compute; reflexivity|]. split; [vm_compute; reflexivity|].
  intros H. apply (f_equal payments) in H. vm_compute in H. discriminate H.
Qed.

(** C2, amended. Delivering again a notification that was processed
    successfully raises no error and leaves bookings, customers and every
    payment column but paidAt as the first call left them; paidAt of the
    payment is written again: with the time of the second call when the
    payment status is SUCCESS, null otherwise. The second call is a no-op
    exactly when the status is not SUCCESS or the two calls carry the same
    time. *)
Theorem C2_redelivery (env : Env) (n : Notification) (t1 t2 : Z) (s s1 : Store)
    (pay p1 : Payment.t) (bk : Booking.t) :
  verifySignature env n = true ->
  findByOrderId (order_id n) (payments s) = Some pay ->
  findById Booking.id (Payment.bookingId pay) (bookings s) = Some bk ->
  processNotification env n t1 s = (Ok p1, s1) ->
  let ps := fst (mapStatus (transaction_status n) (fraud_status n) (Booking.status bk)) in
  let stamp := if PaymentStatus.eqb ps PaymentStatus.SUCCESS then Some t2 else None in
  processNotification env n t2 s1
  = (Ok (setPaidAt stamp p1),
     setPayments (updateById Payment.id (Payment.id pay) (setPaidAt stamp)) s1)
  /\ (ps <> PaymentStatus.SUCCESS \/ t2 = t1 ->
      processNotification env n t2 s1 = (Ok p1, s1))
  /\ (ps = PaymentStatus.SUCCESS -> t2 <> t1 ->
      snd (processNotification env n t2 s1) <> s1).
Proof.
  intros Hsig Hpay Hbk H1 ps stamp.
  set (ts := transaction_status n) in *. set (fs := fraud_status n) in *.
  set (bs := snd (mapStatus ts fs (Booking.status bk))).
  set (data1 := notificationData ps (payment_type n) t1).
  set (data2 := notificationData ps (payment_type n) t2).
  (* the first call *)
  destruct (processNotification_run env n t1 s pay bk Hsig Hpay Hbk) as [p0 [Hp0 Hrun1]].
  destruct (processNotification_tables env n t1 s pay bk Hsig Hpay Hbk) as [Htab _].
  destruct (processNotification_rows env n t1 s pay bk Hsig Hpay Hbk) as [Hrow1 Hrow2].
  cbv zeta in Hrun1, Htab, Hrow1, Hrow2.
  fold ts fs ps bs data1 in Hrun1, Htab, Hrow1, Hrow2.
  rewrite H1 in Htab, Hrow1, Hrow2. cbn [snd] in Htab, Hrow1, Hrow2.
  assert (Hp1 : p1 = data1 p0).
  { rewrite H1 in Hrun1.
    destruct (BookingStatus.eqb bs (Booking.status bk)); [congruence|].
    destruct (BookingStatus.eqb bs BookingStatus.PAID); [|congruence].
    destruct (updateCustomerStatus _ _) as [[[]|e] s3]; congruence. }
  (* the second call, on the rows the first one left *)
  destruct (processNotification_run env n t2 s1 (data1 pay) (setBookingStatus bs bk)
              Hsig Hrow1 Hrow2) as [p0' [Hp0' Hrun2]].
  cbv zeta in Hrun2. fold ts fs in Hrun2.
  cbn [Booking.status setBookingStatus Payment.id Payment.bookingId
       notificationData data1] in Hrun2, Hp0'.
  unfold bs in Hrun2.
  rewrite mapStatus_snd_idem in Hrun2.
  rewrite (mapStatus_fst_current ts fs (snd (mapStatus ts fs (Booking.status bk)))
                                 (Booking.status bk)) in Hrun2.
  fold bs ps data2 in Hrun2. rewrite BookingStatus_eqb_refl in Hrun2.
  assert (Hkey : forall r, Payment.id (data1 r) = Payment.id r) by reflexivity.
  assert (Hid0 : Payment.id p0 = Payment.id pay).
  { unfold findById in Hp0. apply find_some in Hp0 as [_ E]. now apply Z.eqb_eq in E. }
  assert (Hp0'' : p0' = data1 p0).
  { rewrite Htab, (findById_updateById _ _ _ _ _ Hkey), Hp0 in Hp0'.
    cbn [option_map] in Hp0'. rewrite Hid0, Z.eqb_refl in Hp0'. congruence. }
  assert (Hstamp : forall r, data2 (data1 r) = setPaidAt stamp (data1 r)) by reflexivity.
  assert (Hpays : updateById Payment.id (Payment.id pay) data2 (payments s1)
                  = updateById Payment.id (Payment.id pay) (setPaidAt stamp) (payments s1)).
  { rewrite Htab, !(updateById_twice _ _ _ _ _ Hkey).
    unfold updateById. apply map_ext. intros r.
    destruct (Payment.id r =? Payment.id pay); [apply Hstamp | reflexivity]. }
  assert (Hsecond : processNotification env n t2 s1
            = (Ok (setPaidAt stamp p1),
               setPayments (updateById Payment.id (Payment.id pay) (setPaidAt stamp)) s1)).
  { rewrite Hrun2, Hp0'', Hp1, Hstamp. 
    now rewrite (setPayments_ext _ _ _ Hpays). }
  split; [exact Hsecond|]. split.
  - intros Hnoop. rewrite Hsecond.
    assert (Hfix : forall r, setPaidAt stamp (data1 r) = data1 r).
    { intros r. unfold stamp, data1, setPaidAt, notificationData. cbn.
      destruct Hnoop as [Hne| ->]; [|reflexivity].
      destruct ps; try reflexivity. contradiction. }
    f_equal.
    + now rewrite Hp1, Hfix.
    + apply setPayments_same.
      rewrite Htab, (updateById_twice _ _ _ _ _ Hkey).
      unfold updateById. apply map_ext. intros r.
      destruct (Payment.id r =? Payment.id pay); [apply Hfix | reflexivity].
  - intros Hps Hne Heq.
    destruct (processNotification_rows env n t2 s1 (data1 pay) (setBookingStatus bs bk)
                Hsig Hrow1 Hrow2) as [Hrow3 _].
    cbv zeta in Hrow3. rewrite Heq, Hrow1 in Hrow3.
    apply (f_equal (option_map Payment.paidAt)) in Hrow3.
    cbn [option_map Payment.paidAt notificationData data1 Booking.status
         setBookingStatus] in Hrow3.
    fold ts fs in Hrow3.
    rewrite (mapStatus_fst_current ts fs bs (Booking.status bk)) in Hrow3.
    fold ps in Hrow3. rewrite Hps in Hrow3. cbn in Hrow3. congruence.
Qed.

Lemma C2_redelivery_witness :
  processNotification demoEnv (notice "settlement" None) 1700000900000 settledStore
  = (Ok (paymentRow PaymentStatus.SUCCESS (Some "bank_transfer") (Some 1700000900000)),
     setPayments (updateById Payment.id 1 (setPaidAt (Some 1700000900000))) settledStore).
Proof.
  apply (proj1 (C2_redelivery demoEnv (notice "settlement" None)
                  1700000500000 1700000900000 awaitingStore settledStore
                  (paymentRow PaymentStatus.PENDING None None)
                  (paymentRow PaymentStatus.SUCCESS (Some "bank_transfer")
                              (Some 1700000500000))
                  (bookingOf 2 BookingStatus.PENDING)
                  ltac:(vm_compute; reflexivity) eq_refl eq_refl
                  ltac:(vm_compute; reflexivity))).
Defined.

(* ===================================================================== *)
(** ** Payment initiation *)
(* ===================================================================== *)

Lemma existsb_or_find_none {A} (P Q : A -> bool) (rows : list A) :
  existsb (fun r => P r || Q r) rows = false -> find P rows = None.
Proof.
  induction rows as [|r rows IH]; cbn; [reflexivity|].
  intros H. apply orb_false_iff in H as [H1 H2].
  apply orb_false_iff in H1 as [H1 _]. rewrite H1. now apply IH.
Qed.

Lemma find_app_last {A} (P : A -> bool) (rows : list A) (r : A) :
  find P rows = None -> P r = true -> find P (rows ++ [r]) = Some r.
Proof.
  induction rows as [|r0 rows IH]; cbn; intros Hn Hr.
  - now rewrite Hr.
  - destruct (P r0); [discriminate|]. now apply IH.
Qed.

Section Initiation.
Variable env : Env.
Variable snap_createTransaction : SnapParameter -> option SnapTransaction.

(** What a successful [createSnapTransaction] leaves behind: one more
    payment row, PENDING, for this booking, holding the returned token and
    URL; the booking had no payment row before. *)
Lemma createSnapTransaction_ok (bw : BookingWithRelations) (now created : Z)
    (s s1 : Store) (r : SnapResult) :
  createSnapTransaction env snap_createTransaction bw now created s = (Ok r, s1) ->
  payments s1 = payments s ++ [sr_payment r]
  /\ bookings s1 = bookings s
  /\ customers s1 = customers s
  /\ travelPackages s1 = travelPackages s
  /\ findById Payment.bookingId (Booking.id (booking bw)) (payments s) = None
  /\ Payment.bookingId (sr_payment r) = Booking.id (booking bw)
  /\ Payment.status (sr_payment r) = PaymentStatus.PENDING
  /\ Payment.midtransToken (sr_payment r) = Some (sr_snapToken r)
  /\ Payment.paymentUrl (sr_payment r) = Some (sr_redirectUrl r).
Proof.
  unfold createSnapTransaction.
  destruct (customer bw) as [c|]; [|destruct (travelPackage bw); discriminate].
  destruct (travelPackage bw) as [pkg|]; [|discriminate].
  unfold tryCatch.
  destruct (snap_createTransaction _) as [tx|]; [|discriminate].
  unfold payment_create. unfold_monad. cbv beta.
  match goal with |- context [existsb ?f (payments s)] =>
    destruct (existsb f (payments s)) eqn:E end; [discriminate|].
  cbn. intros H. injection H as <- <-. cbn.
  repeat split.
  unfold findById. exact (existsb_or_find_none _ _ _ E).
Qed.

(** C9. For a caller that passes the ownership check, [initiatePayment]
    answers 400 on every booking that is not PENDING; on a PENDING booking
    that already has a PENDING payment it answers with that payment's token
    and URL and leaves the store alone; and whenever a call succeeded, the
    next call (no change in between) returns the same token and URL and
    adds no payment row. *)
Theorem C9_initiatePayment (user : User) (id now created : Z) (s : Store) (b : Booking.t) :
  findById Booking.id id (bookings s) = Some b ->
  String.eqb (user_type user) "CUSTOMER"
  && negb (Booking.customerId b =? user_id user) = false ->
  (Booking.status b <> BookingStatus.PENDING ->
   initiatePayment env snap_createTransaction user id now created s
   = (Json 400 false "Payment can only be initiated for pending bookings" None, s))
  /\ (forall p, Booking.status b = BookingStatus.PENDING ->
        findById Payment.bookingId (Booking.id b) (payments s) = Some p ->
        Payment.status p = PaymentStatus.PENDING ->
        initiatePayment env snap_createTransaction user id now created s
        = (Json 200 true "Payment already initiated"
                (Some (mkPayData (Payment.midtransToken p) (Payment.paymentUrl p))), s))
  /\ (forall m data s1,
        initiatePayment env snap_createTransaction user id now created s
        = (Json 200 true m data, s1) ->
        forall now' created',
          initiatePayment env snap_createTransaction user id now' created' s1
          = (Json 200 true "Payment already initiated" data, s1)
          /\ payments (snd (initiatePayment env snap_createTransaction user id
                                            now' created' s1)) = payments s1).
Proof.
  intros Hb Hown.
  assert (Hexisting : forall s0 p t c,
    findById Booking.id id (bookings s0) = Some b ->
    Booking.status b = BookingStatus.PENDING ->
    findById Payment.bookingId (Booking.id b) (payments s0) = Some p ->
    Payment.status p = PaymentStatus.PENDING ->
    initiatePayment env snap_createTransaction user id t c s0
    = (Json 200 true "Payment already initiated"
            (Some (mkPayData (Payment.midtransToken p) (Payment.paymentUrl p))), s0)).
  { intros s0 p t c Hb0 Hst Hp Hps. unfold initiatePayment.
    rewrite (getBookingById_found s0 id b Hb0). cbn [booking withRelations].
    rewrite Hown, Hst. cbn [BookingStatus.eqb negb].
    unfold pendingPayment. cbn [payment withRelations]. rewrite Hp, Hps. reflexivity. }
  split; [|split].
  - intros Hne. unfold initiatePayment.
    rewrite (getBookingById_found s id b Hb). cbn [booking withRelations].
    rewrite Hown.
    destruct (BookingStatus.eqb (Booking.status b) BookingStatus.PENDING) eqn:E;
      [apply BookingStatus_eqb_eq in E; contradiction | reflexivity].
  - intros p Hst Hp Hps. now apply Hexisting.
  - intros m data s1 Hfirst now' created'.
    assert (Hgoal : initiatePayment env snap_createTransaction user id now' created' s1
                    = (Json 200 true "Payment already initiated" data, s1));
      [|split; [exact Hgoal | now rewrite Hgoal]].
    unfold initiatePayment in Hfirst.
    rewrite (getBookingById_found s id b Hb) in Hfirst. cbn [booking withRelations] in Hfirst.
    rewrite Hown in Hfirst.
    destruct (BookingStatus.eqb (Booking.status b) BookingStatus.PENDING) eqn:Est;
      [|discriminate]. apply BookingStatus_eqb_eq in Est. cbn [negb] in Hfirst.
    unfold pendingPayment in Hfirst. cbn [payment withRelations] in Hfirst.
    destruct (findById Payment.bookingId (Booking.id b) (payments s)) as [p|] eqn:Hp.
    + destruct (PaymentStatus.eqb (Payment.status p) PaymentStatus.PENDING) eqn:Eps.
      * injection Hfirst as <- <- <-. apply PaymentStatus_eqb_eq in Eps.
        now apply Hexisting.
      * destruct (createSnapTransaction _ _ _ _ _ _) as [[r|e] s2] eqn:Hc; [|discriminate].
        apply createSnapTransaction_ok in Hc as (_ & _ & _ & _ & Hnone & _).
        cbn [booking withRelations] in Hnone. congruence.
    + destruct (createSnapTransaction _ _ _ _ _ _) as [[r|e] s2] eqn:Hc; [|discriminate].
      injection Hfirst as <- <- <-.
      apply createSnapTransaction_ok in Hc
        as (Hpays & Hbks & _ & _ & Hnone & Hbid & Hps & Htok & Hurl).
      cbn [booking withRelations] in *.
      rewrite <- Htok, <- Hurl. apply Hexisting; try assumption.
      * now rewrite Hbks.
      * rewrite Hpays. apply find_app_last; [exact Hnone|].
        rewrite Hbid. apply Z.eqb_refl.
Qed.

End Initiation.

Lemma C9_initiatePayment_witness :
  initiatePayment demoEnv demoSnap staff 1 1700000000000 1700000000100
                  (storeWith [bookingOf 2 BookingStatus.PAID] [])
  = (Json 400 false "Payment can only be initiated for pending bookings" None,
     storeWith [bookingOf 2 BookingStatus.PAID] [])
  /\ exists s1,
       initiatePayment demoEnv demoSnap staff 1 1700000000000 1700000000100
                       (storeWith [bookingOf 2 BookingStatus.PENDING] [])
       = (Json 200 true "Payment initiated successfully"
               (Some (mkPayData (Some "tok-1")
                        (Some "https://app.midtrans.com/snap/v2/vtweb/tok-1"))), s1)
       /\ initiatePayment demoEnv demoSnap staff 1 1700000000500 1700000000600 s1
          = (Json 200 true "Payment already initiated"
                  (Some (mkPayData (Some "tok-1")
                           (Some "https://app.midtrans.com/snap/v2/vtweb/tok-1"))), s1)
       /\ List.length (payments s1) = 1%nat.
Proof.
  split.
  - apply (proj1 (C9_initiatePayment demoEnv demoSnap staff 1 1700000000000 1700000000100
                    (storeWith [bookingOf 2 BookingStatus.PAID] [])
                    (bookingOf 2 BookingStatus.PAID) eq_refl eq_refl)).
    discriminate.
  - eexists. split; [vm_compute; reflexivity|]. split; [|reflexivity].
    apply (proj2 (proj2 (C9_initiatePayment demoEnv demoSnap staff 1
                           1700000000000 1700000000100
                           (storeWith [bookingOf 2 BookingStatus.PENDING] [])
                           (bookingOf 2 BookingStatus.PENDING) eq_refl eq_refl))
                 "Payment initiated successfully").
    vm_compute. reflexivity.
Defined.

(* ===================================================================== *)
(** ** Further properties: the signature digest *)
(* ===================================================================== *)

Lemma string_length_append (s1 s2 : string) :
  String.length (s1 ++ s2) = (String.length s1 + String.length s2)%nat.
Proof. induction s1 as [|c s1 IH]; cbn; [reflexivity | now rewrite IH]. Qed.

Lemma hex_concat_length (l : list Z) :
  String.length (String.concat "" (map SHA512.hex_of_byte l)) = (2 * List.length l)%nat.
Proof.
  induction l as [|b l IH]; [reflexivity|].
  destruct l as [|b' l']; [reflexivity|].
  change (String.concat "" (map SHA512.hex_of_byte (b :: b' :: l')))
    with (SHA512.hex_of_byte b ++ ""
          ++ String.concat "" (map SHA512.hex_of_byte (b' :: l')))%string.
  rewrite !string_length_append, IH. cbn [String.length SHA512.hex_of_byte List.length]. lia.
Qed.

Lemma compress_length (h block : list Z) :
  List.length h = 8%nat -> List.length (SHA512.compress h block) = 8%nat.
Proof.
  intros H. unfold SHA512.compress. rewrite length_map, length_combine, H. reflexivity.
Qed.

Lemma digest_length (msg : list Z) : List.length (SHA512.digest msg) = 8%nat.
Proof.
  unfold SHA512.digest.
  generalize (SHA512.chunks (List.length (SHA512.pad msg)) 128 (SHA512.pad msg)).
  assert (H : List.length SHA512.H0 = 8%nat) by reflexivity.
  revert H. generalize SHA512.H0.
  intros h H blocks. revert h H.
  induction blocks as [|b blocks IH]; intros h H; cbn [fold_left]; [exact H|].
  apply IH. now apply compress_length.
Qed.

Lemma be_bytes_length (k : nat) (x : Z) : List.length (SHA512.be_bytes k x) = k.
Proof. induction k as [|k IH]; cbn; [reflexivity | now rewrite IH]. Qed.

Lemma sha512_hex_length (msg : string) : String.length (SHA512.hex msg) = 128%nat.
Proof.
  unfold SHA512.hex. rewrite hex_concat_length.
  rewrite (flat_map_constant_length (c := 8%nat)).
  - now rewrite digest_length.
  - intros x _. apply be_bytes_length.
Qed.

(** X1. The digest [verifySignature] compares with is always 128
    characters long, so a notification whose signature_key has any other
    length is rejected with 403 whatever the server key, and nothing is
    written. *)
Theorem X1_signature_length (env : Env) (n : Notification) (now : Z) (s : Store) :
  String.length (signature_key n) <> 128%nat ->
  verifySignature env n = false
  /\ processNotification env n now s
     = (Throw (mkError (Some 403) "Invalid signature"), s).
Proof.
  intros Hlen.
  assert (Hv : verifySignature env n = false).
  { unfold verifySignature. apply String.eqb_neq. intros Heq.
    apply Hlen. rewrite <- Heq. apply sha512_hex_length. }
  split; [exact Hv|]. unfold processNotification. now rewrite Hv.
Qed.

Lemma X1_signature_length_witness :
  processNotification demoEnv
    (mkNotification orderId1 "200" "7000000.00" "" "settlement" None "bank_transfer")
    1700000500000 awaitingStore
  = (Throw (mkError (Some 403) "Invalid signature"), awaitingStore).
Proof.
  apply (proj2 (X1_signature_length demoEnv
                  (mkNotification orderId1 "200" "7000000.00" "" "settlement" None
                                  "bank_transfer")
                  1700000500000 awaitingStore ltac:(cbn; lia))).
Defined.

(* ===================================================================== *)
(** ** Further properties: customer tier *)
(* ===================================================================== *)

Lemma map_updateById_invariant {A B} (key : A -> Z) (f : A -> B) (g : A -> A)
    (id : Z) (rows : list A) :
  (forall r, f (g r) = f r) ->
  map f (updateById key id g rows) = map f rows.
Proof.
  intros H. unfold updateById. rewrite map_map. apply map_ext.
  intros r. destruct (key r =? id); [apply H | reflexivity].
Qed.

Lemma findById_key {A} (key : A -> Z) (id : Z) (rows : list A) (r : A) :
  findById key id rows = Some r -> In r rows /\ key r = id.
Proof.
  unfold findById. intros H. apply find_some in H as [Hin Hk].
  split; [exact Hin | now apply Z.eqb_eq].
Qed.

Lemma paid_count_spec (customerId : Z) (rows : list Booking.t) :
  Z.of_nat (List.length (filter (fun b =>
    (Booking.customerId b =? customerId)
    && BookingStatus.includes
         [BookingStatus.PAID; BookingStatus.CONFIRMED; BookingStatus.COMPLETED]
         (Booking.status b)) rows))
  = paidBookings customerId rows.
Proof.
  induction rows as [|b rows IH]; [reflexivity|].
  cbn [filter paidBookings].
  replace (BookingStatus.includes
             [BookingStatus.PAID; BookingStatus.CONFIRMED; BookingStatus.COMPLETED]
             (Booking.status b))
    with (match Booking.status b with
          | BookingStatus.PAID | BookingStatus.CONFIRMED | BookingStatus.COMPLETED => true
          | BookingStatus.PENDING | BookingStatus.CANCELED => false
          end) by now destruct (Booking.status b).
  destruct ((Booking.customerId b =? customerId) && _).
  - cbn [List.length]. rewrite Nat2Z.inj_succ, IH. lia.
  - rewrite IH. lia.
Qed.

Lemma paidBookings_nonneg (customerId : Z) (rows : list Booking.t) :
  0 <= paidBookings customerId rows.
Proof.
  induction rows as [|b rows IH]; cbn [paidBookings]; [lia|].
  destruct ((Booking.customerId b =? customerId) && _); lia.
Qed.

Lemma updateCustomerStatus_run (customerId : Z) (s : Store) (c : Customer.t) :
  findById Customer.id customerId (customers s) = Some c ->
  updateCustomerStatus customerId s
  = (Ok tt, setCustomers (updateById Customer.id customerId
                            (setCustomerStatus
                               (tierOf (paidBookings customerId (bookings s))))) s).
Proof.
  intros Hc. unfold updateCustomerStatus, customer_update. unfold_monad. cbv beta.
  rewrite paid_count_spec, Hc. unfold tierOf. now rewrite !Z.geb_leb.
Qed.

Lemma setCustomers_same (f : list Customer.t -> list Customer.t) (s : Store) :
  f (customers s) = customers s -> setCustomers f s = s.
Proof. intros H. destruct s. unfold setCustomers. cbn in *. now rewrite H. Qed.

(** X2. [updateCustomerStatus] derives the tier from the customer's
    bookings in PAID, CONFIRMED or COMPLETED: none gives PROSPECT, one or
    two ACTIVE, three or more LOYAL. It writes nothing but that status,
    running it again changes nothing, and for a customer that does not
    exist it throws the ORM's error (no status code) with the store as it
    was. *)
Theorem X2_updateCustomerStatus (customerId : Z) (s : Store) :
  (forall c, findById Customer.id customerId (customers s) = Some c ->
     let count := paidBookings customerId (bookings s) in
     let s' := snd (updateCustomerStatus customerId s) in
     fst (updateCustomerStatus customerId s) = Ok tt
     /\ findById Customer.id customerId (customers s')
        = Some (setCustomerStatus (tierOf count) c)
     /\ (count = 0 -> tierOf count = CustomerStatus.PROSPECT)
     /\ (1 <= count <= 2 -> tierOf count = CustomerStatus.ACTIVE)
     /\ (3 <= count -> tierOf count = CustomerStatus.LOYAL)
     /\ 0 <= count
     /\ map customerIdentity (customers s') = map customerIdentity (customers s)
     /\ bookings s' = bookings s /\ payments s' = payments s
     /\ travelPackages s' = travelPackages s
     /\ updateCustomerStatus customerId s' = (Ok tt, s'))
  /\ (findById Customer.id customerId (customers s) = None ->
      updateCustomerStatus customerId s
      = (Throw (mkError None "Record to update not found."), s)).
Proof.
  split.
  - intros c Hc count s'. subst s'. rewrite (updateCustomerStatus_run _ _ _ Hc).
    fold count. cbn [fst snd customers bookings payments travelPackages setCustomers].
    assert (Hfind : findById Customer.id customerId
                      (updateById Customer.id customerId
                         (setCustomerStatus (tierOf count)) (customers s))
                    = Some (setCustomerStatus (tierOf count) c)).
    { rewrite findById_updateById by reflexivity. rewrite Hc. cbn [option_map].
      destruct (findById_key _ _ _ _ Hc) as [_ Hid]. rewrite Hid, Z.eqb_refl. reflexivity. }
    split; [reflexivity|]. split; [exact Hfind|].
    split; [intros ->; reflexivity|].
    split.
    { intros [H1 H2]. unfold tierOf.
      destruct (3 <=? count) eqn:E3; [apply Z.leb_le in E3; lia|].
      destruct (1 <=? count) eqn:E1; [reflexivity | apply Z.leb_gt in E1; lia]. }
    split; [intros H3; unfold tierOf; apply Z.leb_le in H3; now rewrite H3|].
    split; [apply paidBookings_nonneg|].
    split; [now apply map_updateById_invariant|].
    split; [reflexivity|]. split; [reflexivity|]. split; [reflexivity|].
    rewrite (updateCustomerStatus_run _ _ (setCustomerStatus (tierOf count) c)).
    + cbn [bookings setCustomers]. fold count. f_equal.
      apply setCustomers_same. cbn [customers setCustomers].
      rewrite updateById_twice by reflexivity.
      unfold updateById. apply map_ext. intros r.
      destruct (Customer.id r =? customerId); reflexivity.
    + exact Hfind.
  - intros Hc. unfold updateCustomerStatus, customer_update. unfold_monad. cbv beta.
    now rewrite Hc.
Qed.

Lemma X2_updateCustomerStatus_witness :
  findById Customer.id 1
    (customers (snd (updateCustomerStatus 1 (storeWith [bookingOf 2 BookingStatus.PAID] []))))
  = Some (setCustomerStatus CustomerStatus.ACTIVE budi)
  /\ updateCustomerStatus 9 emptyStore
     = (Throw (mkError None "Record to update not found."), emptyStore).
Proof.
  split.
  - apply (proj1 (proj2 (proj1 (X2_updateCustomerStatus 1
                                  (storeWith [bookingOf 2 BookingStatus.PAID] []))
                               budi eq_refl))).
  - apply (proj2 (X2_updateCustomerStatus 9 emptyStore)). reflexivity.
Defined.

Lemma paidBookings_pos (customerId : Z) (rows : list Booking.t) (b : Booking.t) :
  In b rows ->
  Booking.customerId b = customerId ->
  Booking.status b = BookingStatus.PAID \/ Booking.status b = BookingStatus.COMPLETED ->
  1 <= paidBookings customerId rows.
Proof.
  intros Hin Hc Hst. induction rows as [|r rows IH]; [contradiction|].
  cbn [paidBookings]. pose proof (paidBookings_nonneg customerId rows) as Hge.
  destruct Hin as [-> | Hin].
  - rewrite Hc, Z.eqb_refl. destruct Hst as [-> | ->]; cbn [andb]; lia.
  - specialize (IH Hin). destruct ((Booking.customerId r =? customerId) && _); lia.
Qed.

Lemma tierOf_pos (count : Z) : 1 <= count -> tierOf count <> CustomerStatus.PROSPECT.
Proof.
  intros H. unfold tierOf. destruct (3 <=? count); [discriminate|].
  destruct (1 <=? count) eqn:E; [discriminate | apply Z.leb_gt in E; lia].
Qed.

Lemma In_updateById {A} (key : A -> Z) (id : Z) (f : A -> A) (rows : list A) (r : A) :
  In r rows -> key r = id -> In (f r) (updateById key id f rows).
Proof.
  intros Hin Hk. unfold updateById.
  apply in_map_iff. exists r. split; [|exact Hin].
  apply Z.eqb_eq in Hk. now rewrite Hk.
Qed.

(** X3. A notification that moves a booking into PAID (settlement, or
    capture with accept, on a booking not yet PAID) recomputes the tier of
    the booking's customer from the bookings as they are after the update:
    the customer ends up ACTIVE or LOYAL, never PROSPECT. Any other
    notification leaves every customer row as it was, also one that cancels
    a booking that was PAID. *)
Theorem X3_paid_recomputes_tier (env : Env) (n : Notification) (now : Z) (s : Store)
    (pay : Payment.t) (bk : Booking.t) (c : Customer.t) :
  verifySignature env n = true ->
  findByOrderId (order_id n) (payments s) = Some pay ->
  findById Booking.id (Payment.bookingId pay) (bookings s) = Some bk ->
  findById Customer.id (Booking.customerId bk) (customers s) = Some c ->
  let bs := snd (mapStatus (transaction_status n) (fraud_status n) (Booking.status bk)) in
  let s' := snd (processNotification env n now s) in
  let count := paidBookings (Booking.customerId bk) (bookings s') in
  ((transaction_status n = "settlement"
    \/ (transaction_status n = "capture" /\ fraud_status n = Some "accept")) ->
   Booking.status bk <> BookingStatus.PAID ->
   (exists p, fst (processNotification env n now s) = Ok p)
   /\ findById Customer.id (Booking.customerId bk) (customers s')
      = Some (setCustomerStatus (tierOf count) c)
   /\ 1 <= count
   /\ tierOf count <> CustomerStatus.PROSPECT)
  /\ (bs <> BookingStatus.PAID \/ Booking.status bk = BookingStatus.PAID ->
      customers s' = customers s).
Proof.
  intros Hsig Hpay Hbk Hc bs s' count.
  destruct (processNotification_run env n now s pay bk Hsig Hpay Hbk) as [p0 [_ Hrun]].
  cbv zeta in Hrun. fold bs in Hrun.
  destruct (findById_key _ _ _ _ Hbk) as [Hin Hid].
  split.
  - intros Hpaid Hne.
    assert (Hbs : bs = BookingStatus.PAID).
    { unfold bs. destruct Hpaid as [-> | [-> ->]]; reflexivity. }
    subst s' count. rewrite Hrun, Hbs.
    destruct (BookingStatus.eqb BookingStatus.PAID (Booking.status bk)) eqn:E.
    { apply BookingStatus_eqb_eq in E. congruence. }
    cbn [BookingStatus.eqb].
    match goal with |- context [updateCustomerStatus ?cid ?st] =>
      rewrite (updateCustomerStatus_run cid st c) by exact Hc end.
    cbn [fst snd bookings customers setCustomers setBookings setPayments].
    assert (Hcount : 1 <= paidBookings (Booking.customerId bk)
                            (updateById Booking.id (Payment.bookingId pay)
                               (setBookingStatus BookingStatus.PAID) (bookings s))).
    { apply (paidBookings_pos _ _ (setBookingStatus BookingStatus.PAID bk)).
      - now apply In_updateById.
      - reflexivity.
      - now left. }
    split; [eauto|]. split; [|split; [exact Hcount | now apply tierOf_pos]].
    rewrite findById_updateById by reflexivity. rewrite Hc. cbn [option_map].
    destruct (findById_key _ _ _ _ Hc) as [_ Hcid]. now rewrite Hcid, Z.eqb_refl.
  - intros Hno. subst s'. rewrite Hrun.
    destruct (BookingStatus.eqb bs (Booking.status bk)) eqn:E; [reflexivity|].
    destruct (BookingStatus.eqb bs BookingStatus.PAID) eqn:E2; [|reflexivity].
    apply BookingStatus_eqb_eq in E2. destruct Hno as [Hno | Hno]; [contradiction|].
    rewrite E2, Hno in E. discriminate E.
Qed.

Lemma X3_paid_recomputes_tier_witness :
  findById Customer.id 1
    (customers (snd (processNotification demoEnv (notice "settlement" None)
                                         1700000500000 awaitingStore)))
  = Some (setCustomerStatus CustomerStatus.ACTIVE budi)
  /\ customers (snd (processNotification demoEnv (notice "deny" None)
                                         1700000900000 settledStore))
     = customers settledStore.
Proof.
  split.
  - apply (proj1 (X3_paid_recomputes_tier demoEnv (notice "settlement" None) 1700000500000
                    awaitingStore (paymentRow PaymentStatus.PENDING None None)
                    (bookingOf 2 BookingStatus.PENDING) budi
                    ltac:(vm_compute; reflexivity) eq_refl eq_refl eq_refl)
                 (or_introl eq_refl) ltac:(discriminate)).
  - apply (proj2 (X3_paid_recomputes_tier demoEnv (notice "deny" None) 1700000900000
                    settledStore
                    (paymentRow PaymentStatus.SUCCESS (Some "bank_transfer")
                                (Some 1700000500000))
                    (bookingOf 2 BookingStatus.PAID) (setCustomerStatus CustomerStatus.ACTIVE budi)
                    ltac:(vm_compute; reflexivity) eq_refl eq_refl eq_refl)).
    right. reflexivity.
Defined.

Lemma updateCustomerStatus_store (customerId : Z) (s : Store) :
  exists f, snd (updateCustomerStatus customerId s) = setCustomers f s
            /\ map customerIdentity (f (customers s)) = map customerIdentity (customers s).
Proof.
  destruct (findById Customer.id customerId (customers s)) as [c|] eqn:Hc.
  - rewrite (updateCustomerStatus_run _ _ _ Hc). eexists. split; [reflexivity|].
    now apply map_updateById_invariant.
  - exists (fun l => l). split; [|reflexivity].
    unfold updateCustomerStatus, customer_update. unfold_monad. cbv beta.
    rewrite Hc. cbn. now destruct s.
Qed.

(** X4. Whatever the notification and whatever the outcome,
    [processNotification] adds and removes no row: payments keep their id,
    booking, order id, token, URL, amount and expiry, bookings keep
    everything but their status, customers everything but their tier, and
    packages and id counters are not touched. *)
Theorem X4_notification_frame (env : Env) (n : Notification) (now : Z) (s : Store) :
  let s' := snd (processNotification env n now s) in
  map paymentIdentity (payments s') = map paymentIdentity (payments s)
  /\ map bookingIdentity (bookings s') = map bookingIdentity (bookings s)
  /\ map customerIdentity (customers s') = map customerIdentity (customers s)
  /\ travelPackages s' = travelPackages s
  /\ bookingSeq s' = bookingSeq s
  /\ paymentSeq s' = paymentSeq s.
Proof.
  cbv zeta.
  destruct (verifySignature env n) eqn:Hsig;
    [|unfold processNotification; rewrite Hsig; cbn; repeat split].
  destruct (findByOrderId (order_id n) (payments s)) as [pay|] eqn:Hpay;
    [|unfold processNotification; rewrite Hsig; cbn [negb]; unfold_monad; cbv beta;
      rewrite Hpay; cbn; repeat split].
  destruct (findById Booking.id (Payment.bookingId pay) (bookings s)) as [bk|] eqn:Hbk;
    [|unfold processNotification; rewrite Hsig; cbn [negb]; unfold_monad; cbv beta;
      rewrite Hpay; cbv beta iota; rewrite Hbk; cbn; repeat split].
  destruct (processNotification_run env n now s pay bk Hsig Hpay Hbk) as [p0 [_ Hrun]].
  cbv zeta in Hrun. rewrite Hrun. clear Hrun.
  set (ps := fst (mapStatus _ _ _)). set (bs := snd (mapStatus _ _ _)).
  assert (HP : map paymentIdentity
                 (updateById Payment.id (Payment.id pay)
                    (notificationData ps (payment_type n) now) (payments s))
               = map paymentIdentity (payments s))
    by now apply map_updateById_invariant.
  assert (HB : map bookingIdentity
                 (updateById Booking.id (Payment.bookingId pay)
                    (setBookingStatus bs) (bookings s))
               = map bookingIdentity (bookings s))
    by now apply map_updateById_invariant.
  destruct (BookingStatus.eqb bs (Booking.status bk)).
  { cbn [snd payments bookings customers travelPackages bookingSeq paymentSeq
         setPayments setBookings setCustomers].
    rewrite HP. repeat split. }
  destruct (BookingStatus.eqb bs BookingStatus.PAID).
  2:{ cbn [snd payments bookings customers travelPackages bookingSeq paymentSeq
           setPayments setBookings setCustomers].
      rewrite HP, HB. repeat split. }
  match goal with |- context [updateCustomerStatus ?cid ?st] =>
    destruct (updateCustomerStatus_store cid st) as [f [Hs3 Hf]];
    destruct (updateCustomerStatus cid st) as [[[]|e] s3] end;
    cbn [snd] in *; subst s3;
    cbn [snd payments bookings customers travelPackages bookingSeq paymentSeq
         setPayments setBookings setCustomers] in *;
    rewrite HP, HB, Hf; repeat split.
Qed.

(* ===================================================================== *)
(** ** Further properties: creating bookings and capacity *)
(* ===================================================================== *)

Lemma getPackageById_run (id : Z) (s : Store) :
  getPackageById id s =
  match findById TravelPackage.id id (travelPackages s) with
  | None => (Throw (mkError (Some 404) "Travel package not found"), s)
  | Some p =>
      (Ok (mkPackageData p (specBookedParticipants id (bookings s))
             (TravelPackage.quota p - specBookedParticipants id (bookings s))), s)
  end.
Proof.
  unfold getPackageById. unfold_monad. cbv beta.
  destruct (findById TravelPackage.id id (travelPackages s)); [|reflexivity].
  now rewrite reduce_included_spec.
Qed.

Lemma createBooking_run (data : BookingData) (code : string) (s : Store) :
  createBooking data code s =
  match findById Customer.id (bd_customerId data) (customers s) with
  | None => (Throw (mkError (Some 404) "Customer not found"), s)
  | Some _ =>
      match findById TravelPackage.id (bd_packageId data) (travelPackages s) with
      | None => (Throw (mkError (Some 404) "Travel package not found"), s)
      | Some p =>
          if TravelPackage.isActive p then
            let slots := TravelPackage.quota p
                         - specBookedParticipants (bd_packageId data) (bookings s) in
            if slots >=? bd_participants data then
              let row := Booking.mk (bookingSeq s) code (bd_customerId data)
                           (bd_packageId data) (bd_participants data)
                           (TravelPackage.price p * bd_participants data)
                           (bd_departureDate data) BookingStatus.PENDING (bd_notes data) in
              (Ok row, mkStore (customers s) (travelPackages s) (bookings s ++ [row])
                               (payments s) (bookingSeq s + 1) (paymentSeq s))
            else
              (Throw (mkError (Some 400)
                        ("Not enough slots available. Only " ++ string_of_Z slots
                         ++ " slots left.")%string), s)
          else (Throw (mkError (Some 400) "This travel package is not available"), s)
      end
  end.
Proof.
  unfold createBooking, getCustomerById.
  unfold bind at 1 2. unfold gets at 1.
  destruct (findById Customer.id (bd_customerId data) (customers s)); [|reflexivity].
  unfold ret at 1. unfold bind at 1. rewrite getPackageById_run.
  destruct (findById TravelPackage.id (bd_packageId data) (travelPackages s)) as [p|] eqn:Hp;
    [|reflexivity].
  cbn [package]. destruct (TravelPackage.isActive p) eqn:Hact; [|reflexivity].
  cbn [negb]. unfold bind at 1. rewrite checkAvailability_run, Hp, Hact.
  cbv zeta. cbn [isAvailable availableSlots].
  destruct (_ >=? _); reflexivity.
Qed.

(** X5. [createBooking] checks in this order and fails without writing
    anything: 404 when the customer is missing, 404 when the package is
    missing, 400 when the package is inactive, 400 when fewer slots are left
    than requested, the message naming the number left. Otherwise, when
    the participants and the total fit the table's columns, it appends
    exactly one booking, whose id is the next id of the table. *)
Theorem X5_createBooking_outcomes (data : BookingData) (code : string) (s : Store) :
  (findById Customer.id (bd_customerId data) (customers s) = None ->
   createBooking data code s = (Throw (mkError (Some 404) "Customer not found"), s))
  /\ (findById Customer.id (bd_customerId data) (customers s) <> None ->
      findById TravelPackage.id (bd_packageId data) (travelPackages s) = None ->
      createBooking data code s
      = (Throw (mkError (Some 404) "Travel package not found"), s))
  /\ (forall p,
      findById Customer.id (bd_customerId data) (customers s) <> None ->
      findById TravelPackage.id (bd_packageId data) (travelPackages s) = Some p ->
      let slots := TravelPackage.quota p
                   - specBookedParticipants (bd_packageId data) (bookings s) in
      (TravelPackage.isActive p = false ->
       createBooking data code s
       = (Throw (mkError (Some 400) "This travel package is not available"), s))
      /\ (TravelPackage.isActive p = true -> slots < bd_participants data ->
          createBooking data code s
          = (Throw (mkError (Some 400)
                      ("Not enough slots available. Only " ++ string_of_Z slots
                       ++ " slots left.")%string), s))
      /\ (TravelPackage.isActive p = true -> bd_participants data <= slots ->
          fitsBookingColumns (bd_participants data)
                             (TravelPackage.price p * bd_participants data) ->
          exists b,
            createBooking data code s
            = (Ok b, mkStore (customers s) (travelPackages s) (bookings s ++ [b])
                             (payments s) (bookingSeq s + 1) (paymentSeq s))
            /\ Booking.id b = bookingSeq s
            /\ Booking.bookingCode b = code
            /\ Booking.customerId b = bd_customerId data
            /\ Booking.packageId b = bd_packageId data
            /\ Booking.participants b = bd_participants data)).
Proof.
  rewrite createBooking_run.
  split; [intros ->; reflexivity|].
  split.
  - intros Hc ->. destruct (findById Customer.id _ _); [reflexivity | contradiction].
  - intros p Hc -> slots. cbv zeta. fold slots.
    destruct (findById Customer.id _ _); [|contradiction].
    split; [intros ->; reflexivity|]. split.
    + intros -> Hlt. destruct (slots >=? bd_participants data) eqn:E; [|reflexivity].
      apply Z.geb_le in E. lia.
    + intros -> Hle _. destruct (slots >=? bd_participants data) eqn:E.
      * eexists. split; [reflexivity|]. repeat split.
      * rewrite Z.geb_leb in E. apply Z.leb_gt in E. lia.
Qed.

Lemma X5_createBooking_outcomes_witness :
  createBooking (mkBookingData 1 1 4 "2026-12-24T00:00:00.000Z" None) "BK-0002"
                (storeWith [bookingOf 7 BookingStatus.PENDING] [])
  = (Throw (mkError (Some 400) "Not enough slots available. Only 3 slots left."),
     storeWith [bookingOf 7 BookingStatus.PENDING] [])
  /\ createBooking (mkBookingData 9 1 1 "2026-12-24T00:00:00.000Z" None) "BK-0002" emptyStore
     = (Throw (mkError (Some 404) "Customer not found"), emptyStore)
  /\ createBooking (mkBookingData 1 9 1 "2026-12-24T00:00:00.000Z" None) "BK-0002" emptyStore
     = (Throw (mkError (Some 404) "Travel package not found"), emptyStore)
  /\ createBooking (mkBookingData 1 2 1 "2026-12-24T00:00:00.000Z" None) "BK-0002" emptyStore
     = (Throw (mkError (Some 400) "This travel package is not available"), emptyStore)
  /\ exists b, fst (createBooking (mkBookingData 1 1 10 "2026-12-24T00:00:00.000Z" None)
                                  "BK-0002" emptyStore) = Ok b
               /\ Booking.id b = 1.
Proof.
  split; [|split; [|split; [|split]]].
  - apply (proj1 (proj2 (proj2 (proj2 (X5_createBooking_outcomes
             (mkBookingData 1 1 4 "2026-12-24T00:00:00.000Z" None) "BK-0002"
             (storeWith [bookingOf 7 BookingStatus.PENDING] []))) baliTrip
             ltac:(discriminate) eq_refl))); [reflexivity | cbn; lia].
  - apply (proj1 (X5_createBooking_outcomes
             (mkBookingData 9 1 1 "2026-12-24T00:00:00.000Z" None) "BK-0002" emptyStore)).
    reflexivity.
  - apply (proj1 (proj2 (X5_createBooking_outcomes
             (mkBookingData 1 9 1 "2026-12-24T00:00:00.000Z" None) "BK-0002" emptyStore)));
      [discriminate | reflexivity].
  - apply (proj1 (proj2 (proj2 (X5_createBooking_outcomes
             (mkBookingData 1 2 1 "2026-12-24T00:00:00.000Z" None) "BK-0002" emptyStore))
             closedTrip ltac:(discriminate) eq_refl)). reflexivity.
  - destruct (proj2 (proj2 (proj2 (proj2 (X5_createBooking_outcomes
             (mkBookingData 1 1 10 "2026-12-24T00:00:00.000Z" None) "BK-0002" emptyStore))
             baliTrip ltac:(discriminate) eq_refl))) as [b [H1 [H2 _]]];
      [reflexivity | cbn; lia | unfold fitsBookingColumns; cbn; lia |].
    exists b. split; [now rewrite H1 | exact H2].
Defined.

Lemma specBooked_app (packageId : Z) (rows : list Booking.t) (b : Booking.t) :
  specBookedParticipants packageId (rows ++ [b])
  = specBookedParticipants packageId rows
    + (if (Booking.packageId b =? packageId) && holdsSlot (Booking.status b)
       then Booking.participants b else 0).
Proof.
  induction rows as [|r rows IH]; cbn [app specBookedParticipants]; [lia|].
  rewrite IH. lia.
Qed.

Lemma createBooking_capacityOk (data : BookingData) (code : string) (s : Store) :
  capacityOk s -> capacityOk (snd (createBooking data code s)).
Proof.
  intros Hok. rewrite createBooking_run.
  destruct (findById Customer.id _ _); [|exact Hok].
  destruct (findById TravelPackage.id (bd_packageId data) _) as [p|] eqn:Hp; [|exact Hok].
  destruct (TravelPackage.isActive p); [|exact Hok].
  cbv zeta. destruct (_ >=? _) eqn:E; [|exact Hok].
  apply Z.geb_le in E.
  intros pid q Hq. cbn [snd travelPackages bookings] in *.
  rewrite specBooked_app. cbn [Booking.packageId Booking.status Booking.participants holdsSlot].
  rewrite andb_true_r.
  destruct (bd_packageId data =? pid) eqn:Epid.
  - apply Z.eqb_eq in Epid. subst pid. rewrite Hp in Hq. injection Hq as <-. lia.
  - specialize (Hok pid q Hq). lia.
Qed.

(** X6. Run one after the other, booking requests never oversell: if the
    slot-holding bookings of every package fit its quota, they still do
    after any series of [createBooking] calls, failed ones included; and a
    booking that is accepted takes exactly its participants from its own
    package and nothing from the others. *)
Theorem X6_createBooking_keeps_capacity (s : Store) :
  capacityOk s ->
  (forall requests, capacityOk (createBookingMany requests s))
  /\ (forall data code b s',
        createBooking data code s = (Ok b, s') ->
        forall packageId,
          specBookedParticipants packageId (bookings s')
          = specBookedParticipants packageId (bookings s)
            + (if bd_packageId data =? packageId then bd_participants data else 0)).
Proof.
  intros Hok. split.
  - intros requests. revert s Hok.
    induction requests as [|[data code] rest IH]; intros s Hok; cbn [createBookingMany].
    + exact Hok.
    + apply IH. now apply createBooking_capacityOk.
  - intros data code b s' Hrun pid. rewrite createBooking_run in Hrun.
    destruct (findById Customer.id _ _); [|discriminate].
    destruct (findById TravelPackage.id (bd_packageId data) _) as [p|]; [|discriminate].
    destruct (TravelPackage.isActive p); [|discriminate].
    cbv zeta in Hrun. destruct (_ >=? _); [|discriminate].
    injection Hrun as <- <-. cbn [bookings]. rewrite specBooked_app.
    cbn [Booking.packageId Booking.status Booking.participants holdsSlot].
    now rewrite andb_true_r.
Qed.

Lemma X6_createBooking_keeps_capacity_witness :
  capacityOk (createBookingMany
                [(mkBookingData 1 1 7 "2026-12-24T00:00:00.000Z" None, "BK-0001");
                 (mkBookingData 1 1 4 "2026-12-24T00:00:00.000Z" None, "BK-0002");
                 (mkBookingData 1 1 3 "2026-12-24T00:00:00.000Z" None, "BK-0003")]
                emptyStore).
Proof.
  apply (proj1 (X6_createBooking_keeps_capacity emptyStore
                  ltac:(intros pid p H; unfold emptyStore, findById in H;
                        cbn [travelPackages find] in H;
                        destruct (TravelPackage.id baliTrip =? pid);
                        [injection H as <-; cbn; lia|];
                        destruct (TravelPackage.id closedTrip =? pid);
                        [injection H as <-; cbn; lia | discriminate]))).
Defined.

(* ===================================================================== *)
(** ** Further properties: cancelling and updating bookings *)
(* ===================================================================== *)

Lemma updateById_absent {A} (key : A -> Z) (id : Z) (f : A -> A) (rows : list A) :
  ~ In id (map key rows) -> updateById key id f rows = rows.
Proof.
  induction rows as [|r rows IH]; cbn; [reflexivity|].
  intros Hn. destruct (key r =? id) eqn:E.
  - apply Z.eqb_eq in E. exfalso. apply Hn. now left.
  - f_equal. apply IH. intros H. apply Hn. now right.
Qed.

Lemma specBooked_updateById (packageId id : Z) (f : Booking.t -> Booking.t)
    (rows : list Booking.t) (b : Booking.t) :
  NoDup (map Booking.id rows) ->
  findById Booking.id id rows = Some b ->
  specBookedParticipants packageId (updateById Booking.id id f rows)
  = specBookedParticipants packageId rows - slotsHeld packageId b + slotsHeld packageId (f b).
Proof.
  unfold slotsHeld.
  induction rows as [|r rows IH]; intros Hnd Hf; [discriminate|].
  cbn [map] in Hnd. apply NoDup_cons_iff in Hnd as [Hnotin Hnd].
  unfold findById in Hf. cbn [find] in Hf.
  cbn [updateById map specBookedParticipants].
  change (map (fun r0 => if Booking.id r0 =? id then f r0 else r0) rows)
    with (updateById Booking.id id f rows).
  destruct (Booking.id r =? id) eqn:E.
  - injection Hf as <-. apply Z.eqb_eq in E. subst id.
    rewrite (updateById_absent _ _ _ _ Hnotin). cbn [specBookedParticipants]. lia.
  - cbn [specBookedParticipants]. rewrite (IH Hnd Hf). lia.
Qed.

Lemma cancelBooking_run (id : Z) (s : Store) :
  cancelBooking id s =
  match findById Booking.id id (bookings s) with
  | None => (Throw (mkError (Some 404) "Booking not found"), s)
  | Some b =>
      if BookingStatus.eqb (Booking.status b) BookingStatus.COMPLETED then
        (Throw (mkError (Some 400) "Cannot cancel a completed booking"), s)
      else
        (Ok (setBookingStatus BookingStatus.CANCELED b),
         setBookings (updateById Booking.id id (setBookingStatus BookingStatus.CANCELED)) s)
  end.
Proof.
  unfold cancelBooking. unfold bind at 1.
  destruct (findById Booking.id id (bookings s)) as [b|] eqn:Hb.
  - rewrite (getBookingById_found s id b Hb). cbn [booking withRelations].
    destruct (BookingStatus.eqb _ _); [reflexivity|].
    now apply booking_update_found.
  - unfold getBookingById. unfold_monad. cbv beta. now rewrite Hb.
Qed.

Lemma setBookings_same (f : list Booking.t -> list Booking.t) (s : Store) :
  f (bookings s) = bookings s -> setBookings f s = s.
Proof. intros H. destruct s. unfold setBookings. cbn in *. now rewrite H. Qed.

(** X7. [cancelBooking] answers 404 for an unknown id and writes nothing.
    Cancelling a booking that is not COMPLETED gives back exactly the slots
    it held (its participants if it was PENDING, PAID or CONFIRMED, none
    otherwise) to its package and leaves the other packages' counts alone;
    cancelling it once more succeeds and changes nothing. *)
Theorem X7_cancelBooking_releases (id : Z) (s : Store) :
  (findById Booking.id id (bookings s) = None ->
   cancelBooking id s = (Throw (mkError (Some 404) "Booking not found"), s))
  /\ (forall b,
      findById Booking.id id (bookings s) = Some b ->
      Booking.status b <> BookingStatus.COMPLETED ->
      let s' := snd (cancelBooking id s) in
      (uniqueBookingIds s ->
       forall packageId,
         specBookedParticipants packageId (bookings s')
         = specBookedParticipants packageId (bookings s) - slotsHeld packageId b)
      /\ cancelBooking id s' = (Ok (setBookingStatus BookingStatus.CANCELED b), s')
      /\ customers s' = customers s /\ payments s' = payments s).
Proof.
  rewrite cancelBooking_run. split; [intros ->; reflexivity|].
  intros b Hb Hne s'. subst s'. rewrite Hb.
  destruct (BookingStatus.eqb (Booking.status b) BookingStatus.COMPLETED) eqn:E;
    [apply BookingStatus_eqb_eq in E; contradiction|].
  cbn [snd bookings setBookings customers payments].
  destruct (findById_key _ _ _ _ Hb) as [_ Hid].
  split; [|split; [|split; reflexivity]].
  - intros Hu pid. rewrite (specBooked_updateById pid id _ _ b Hu Hb).
    unfold slotsHeld at 2. cbn [Booking.status setBookingStatus holdsSlot].
    rewrite andb_false_r. lia.
  - rewrite cancelBooking_run. cbn [bookings setBookings].
    rewrite findById_updateById by reflexivity. rewrite Hb. cbn [option_map].
    rewrite Hid, Z.eqb_refl. cbn [Booking.status setBookingStatus BookingStatus.eqb].
    f_equal. apply setBookings_same. cbn [bookings setBookings].
    rewrite updateById_twice by reflexivity.
    unfold updateById. apply map_ext. intros r.
    destruct (Booking.id r =? id); reflexivity.
Qed.

Lemma X7_cancelBooking_releases_witness :
  specBookedParticipants 1
    (bookings (snd (cancelBooking 1 (storeWith [bookingOf 7 BookingStatus.PENDING] []))))
  = specBookedParticipants 1 (bookings (storeWith [bookingOf 7 BookingStatus.PENDING] []))
    - slotsHeld 1 (bookingOf 7 BookingStatus.PENDING)
  /\ cancelBooking 5 emptyStore = (Throw (mkError (Some 404) "Booking not found"), emptyStore).
Proof.
  split.
  - apply (proj1 (proj2 (X7_cancelBooking_releases 1
                           (storeWith [bookingOf 7 BookingStatus.PENDING] []))
                        (bookingOf 7 BookingStatus.PENDING) eq_refl ltac:(discriminate))).
    unfold uniqueBookingIds. cbn. repeat constructor. intros [].
  - apply (proj1 (X7_cancelBooking_releases 5 emptyStore)). reflexivity.
Defined.

Lemma updateBooking_run (id : Z) (u : UpdateData) (s : Store) (b : Booking.t) :
  findById Booking.id id (bookings s) = Some b ->
  Booking.status b = BookingStatus.PENDING \/ Booking.status b = BookingStatus.CANCELED ->
  let write := fun total =>
    (Ok (applyUpdate u total b),
     setBookings (updateById Booking.id id (applyUpdate u total)) s) in
  updateBooking id u s =
  match ud_participants u with
  | None => write None
  | Some n =>
      if negb (n =? 0) && negb (n =? Booking.participants b) then
        match findById TravelPackage.id (Booking.packageId b) (travelPackages s) with
        | None => (Throw (mkError None "TypeError: Cannot read properties of null"), s)
        | Some pkg =>
            if n - Booking.participants b >? 0 then
              if TravelPackage.isActive pkg then
                if TravelPackage.quota pkg
                   - specBookedParticipants (Booking.packageId b) (bookings s)
                   >=? n - Booking.participants b
                then write (Some (TravelPackage.price pkg * n))
                else (Throw (mkError (Some 400)
                               "Not enough slots available for additional participants"), s)
              else (Throw (mkError (Some 400) "Travel package is not available"), s)
            else write (Some (TravelPackage.price pkg * n))
        end
      else write None
  end.
Proof.
  intros Hb Hst. cbv zeta. unfold updateBooking. unfold bind at 1.
  rewrite (getBookingById_found s id b Hb). cbn [booking withRelations travelPackage].
  replace (BookingStatus.includes _ (Booking.status b)) with false
    by (destruct Hst as [-> | ->]; reflexivity).
  unfold bind at 1.
  destruct (ud_participants u) as [n|].
  2:{ unfold ret at 1. now apply booking_update_found. }
  destruct (negb (n =? 0) && negb (n =? Booking.participants b)).
  2:{ unfold ret at 1. now apply booking_update_found. }
  destruct (findById TravelPackage.id (Booking.packageId b) (travelPackages s))
    as [pkg|] eqn:Hp; [|reflexivity].
  destruct (n - Booking.participants b >? 0).
  2:{ unfold ret at 1. now apply booking_update_found. }
  unfold bind at 1. rewrite checkAvailability_run, Hp.
  destruct (TravelPackage.isActive pkg); [|reflexivity].
  cbv zeta. cbn [isAvailable].
  destruct (_ >=? _); cbn [negb]; [|reflexivity].
  unfold ret at 1. now apply booking_update_found.
Qed.

(** X8. [updateBooking] keeps the total in step with the participants:
    on a PENDING or CANCELED booking whose total is price times
    participants, any accepted patch that does not set participants to 0
    leaves a stored row whose total is again the package price times its
    participants. *)
Theorem X8_updateBooking_total (id : Z) (u : UpdateData) (s s' : Store)
    (b b' : Booking.t) (pkg : TravelPackage.t) :
  findById Booking.id id (bookings s) = Some b ->
  Booking.status b = BookingStatus.PENDING \/ Booking.status b = BookingStatus.CANCELED ->
  findById TravelPackage.id (Booking.packageId b) (travelPackages s) = Some pkg ->
  Booking.totalAmount b = TravelPackage.price pkg * Booking.participants b ->
  ud_participants u <> Some 0 ->
  updateBooking id u s = (Ok b', s') ->
  Booking.totalAmount b' = TravelPackage.price pkg * Booking.participants b'
  /\ findById Booking.id id (bookings s') = Some b'
  /\ Booking.packageId b' = Booking.packageId b
  /\ travelPackages s' = travelPackages s.
Proof.
  intros Hb Hst Hp Htot Hnz Hrun.
  rewrite (updateBooking_run id u s b Hb Hst) in Hrun. cbv zeta in Hrun. rewrite Hp in Hrun.
  destruct (findById_key _ _ _ _ Hb) as [_ Hid].
  assert (Hwrite : forall total,
    (Ok (applyUpdate u total b),
     setBookings (updateById Booking.id id (applyUpdate u total)) s) = (Ok b', s') ->
    findById Booking.id id (bookings s') = Some b'
    /\ Booking.packageId b' = Booking.packageId b
    /\ travelPackages s' = travelPackages s).
  { intros total H. injection H as <- <-. cbn [bookings setBookings travelPackages].
    rewrite findById_updateById by reflexivity. rewrite Hb. cbn [option_map].
    now rewrite Hid, Z.eqb_refl. }
  destruct (ud_participants u) as [n|] eqn:Hn.
  - destruct (n =? 0) eqn:E0; [apply Z.eqb_eq in E0; congruence|].
    cbn [negb andb] in Hrun.
    destruct (n =? Booking.participants b) eqn:E1; cbn [negb] in Hrun.
    + split; [|now apply (Hwrite None)].
      injection Hrun as <- _. apply Z.eqb_eq in E1.
      cbn [Booking.totalAmount Booking.participants applyUpdate orElse].
      rewrite Hn. cbn [orElse]. now rewrite E1, <- Htot.
    + assert (Hgoal : (Ok (applyUpdate u (Some (TravelPackage.price pkg * n)) b),
                       setBookings (updateById Booking.id id
                          (applyUpdate u (Some (TravelPackage.price pkg * n)))) s)
                      = (Ok b', s')).
      { destruct (n - Booking.participants b >? 0); [|exact Hrun].
        destruct (TravelPackage.isActive pkg); [|discriminate].
        destruct (_ >=? _); [exact Hrun | discriminate]. }
      split; [|now apply (Hwrite _ Hgoal)].
      injection Hgoal as <- _.
      cbn [Booking.totalAmount Booking.participants applyUpdate orElse].
      rewrite Hn. reflexivity.
  - split; [|now apply (Hwrite None)].
    injection Hrun as <- _.
    cbn [Booking.totalAmount Booking.participants applyUpdate orElse].
    rewrite Hn. exact Htot.
Qed.

Lemma X8_updateBooking_total_witness :
  Booking.totalAmount (bookingOf 5 BookingStatus.PENDING) = 350000000 * 5
  /\ findById Booking.id 1
       (bookings (snd (updateBooking 1 (mkUpdateData (Some 5) None None None)
                                     (storeWith [bookingOf 2 BookingStatus.PENDING] []))))
     = Some (bookingOf 5 BookingStatus.PENDING).
Proof.
  split; [reflexivity|].
  apply (proj1 (proj2 (X8_updateBooking_total 1 (mkUpdateData (Some 5) None None None)
                         (storeWith [bookingOf 2 BookingStatus.PENDING] [])
                         (storeWith [bookingOf 5 BookingStatus.PENDING] [])
                         (bookingOf 2 BookingStatus.PENDING)
                         (bookingOf 5 BookingStatus.PENDING) baliTrip
                         eq_refl (or_introl eq_refl) eq_refl eq_refl
                         ltac:(discriminate) eq_refl))).
Defined.



(** X10. A patch without participants is written to a PENDING or
    CANCELED booking as it is: no capacity check, no customer update, no
    payment change. Setting a CANCELED booking back to PENDING this way
    adds its participants to the slots its package holds, whatever the
    quota. *)
Theorem X10_updateBooking_plain_patch (id : Z) (u : UpdateData) (s : Store) (b : Booking.t) :
  findById Booking.id id (bookings s) = Some b ->
  Booking.status b = BookingStatus.PENDING \/ Booking.status b = BookingStatus.CANCELED ->
  ud_participants u = None ->
  let s' := setBookings (updateById Booking.id id (applyUpdate u None)) s in
  updateBooking id u s = (Ok (applyUpdate u None b), s')
  /\ findById Booking.id id (bookings s') = Some (applyUpdate u None b)
  /\ Booking.status (applyUpdate u None b) = orElse (ud_status u) (Booking.status b)
  /\ Booking.totalAmount (applyUpdate u None b) = Booking.totalAmount b
  /\ customers s' = customers s
  /\ payments s' = payments s
  /\ (uniqueBookingIds s -> Booking.status b = BookingStatus.CANCELED ->
      ud_status u = Some BookingStatus.PENDING ->
      forall packageId,
        specBookedParticipants packageId (bookings s')
        = specBookedParticipants packageId (bookings s)
          + (if Booking.packageId b =? packageId then Booking.participants b else 0)).
Proof.
  intros Hb Hst Hn s'. subst s'.
  rewrite (updateBooking_run id u s b Hb Hst). cbv zeta. rewrite Hn.
  destruct (findById_key _ _ _ _ Hb) as [_ Hid].
  split; [reflexivity|]. split.
  { cbn [bookings setBookings]. rewrite findById_updateById by reflexivity.
    rewrite Hb. cbn [option_map]. now rewrite Hid, Z.eqb_refl. }
  split; [reflexivity|]. split; [reflexivity|]. split; [reflexivity|].
  split; [reflexivity|].
  intros Hu Hc Hs pid. cbn [bookings setBookings].
  rewrite (specBooked_updateById pid id _ _ b Hu Hb). unfold slotsHeld.
  cbn [Booking.packageId Booking.status Booking.participants applyUpdate].
  rewrite Hn, Hs, Hc. cbn [orElse holdsSlot]. rewrite andb_false_r, andb_true_r.
  destruct (Booking.packageId b =? pid); lia.
Qed.

Lemma X10_updateBooking_plain_patch_witness :
  updateBooking 1 (mkUpdateData None None None (Some BookingStatus.PENDING))
                (storeWith [bookingOf 7 BookingStatus.CANCELED] [])
  = (Ok (bookingOf 7 BookingStatus.PENDING), storeWith [bookingOf 7 BookingStatus.PENDING] []).
Proof.
  apply (proj1 (X10_updateBooking_plain_patch 1
                  (mkUpdateData None None None (Some BookingStatus.PENDING))
                  (storeWith [bookingOf 7 BookingStatus.CANCELED] [])
                  (bookingOf 7 BookingStatus.CANCELED) eq_refl (or_intror eq_refl) eq_refl)).
Defined.

Lemma updateBookingStatus_run (id : Z) (st : BookingStatus.t) (s : Store) (b : Booking.t) :
  findById Booking.id id (bookings s) = Some b ->
  updateBookingStatus id st s =
  let s1 := setBookings (updateById Booking.id id (setBookingStatus st)) s in
  if BookingStatus.eqb st BookingStatus.PAID || BookingStatus.eqb st BookingStatus.COMPLETED
  then match updateCustomerStatus (Booking.customerId b) s1 with
       | (Ok _, s2) => (Ok (setBookingStatus st b), s2)
       | (Throw e, s2) => (Throw e, s2)
       end
  else (Ok (setBookingStatus st b), s1).
Proof.
  intros Hb. unfold updateBookingStatus. unfold bind at 1.
  rewrite (booking_update_found s id _ b Hb). cbv zeta.
  cbn [Booking.customerId setBookingStatus].
  destruct (_ || _).
  - unfold bind at 1.
    destruct (updateCustomerStatus _ _) as [[[]|e] s2]; reflexivity.
  - reflexivity.
Qed.

(** X11. [updateBookingStatus] writes the status without any guard. For
    PAID and COMPLETED it then recomputes the tier of the booking's
    customer, who ends up ACTIVE or LOYAL; for every other status no
    customer row changes. For an unknown id it throws the ORM's error and
    writes nothing. *)
Theorem X11_updateBookingStatus (id : Z) (st : BookingStatus.t) (s : Store) :
  (findById Booking.id id (bookings s) = None ->
   updateBookingStatus id st s = (Throw (mkError None "Record to update not found."), s))
  /\ (forall b, findById Booking.id id (bookings s) = Some b ->
      let s' := snd (updateBookingStatus id st s) in
      findById Booking.id id (bookings s') = Some (setBookingStatus st b)
      /\ payments s' = payments s
      /\ (st <> BookingStatus.PAID -> st <> BookingStatus.COMPLETED ->
          fst (updateBookingStatus id st s) = Ok (setBookingStatus st b)
          /\ customers s' = customers s)
      /\ (st = BookingStatus.PAID \/ st = BookingStatus.COMPLETED ->
          forall c, findById Customer.id (Booking.customerId b) (customers s) = Some c ->
            let count := paidBookings (Booking.customerId b) (bookings s') in
            fst (updateBookingStatus id st s) = Ok (setBookingStatus st b)
            /\ findById Customer.id (Booking.customerId b) (customers s')
               = Some (setCustomerStatus (tierOf count) c)
            /\ tierOf count <> CustomerStatus.PROSPECT)).
Proof.
  split.
  - intros Hb. unfold updateBookingStatus, booking_update. unfold_monad. cbv beta.
    now rewrite Hb.
  - intros b Hb s'. subst s'.
    destruct (findById_key _ _ _ _ Hb) as [Hin Hid].
    rewrite (updateBookingStatus_run id st s b Hb). cbv zeta.
    set (s1 := setBookings (updateById Booking.id id (setBookingStatus st)) s).
    assert (Hfind : findById Booking.id id (bookings s1) = Some (setBookingStatus st b)).
    { unfold s1. cbn [bookings setBookings].
      rewrite findById_updateById by reflexivity. rewrite Hb. cbn [option_map].
      now rewrite Hid, Z.eqb_refl. }
    destruct (BookingStatus.eqb st BookingStatus.PAID
              || BookingStatus.eqb st BookingStatus.COMPLETED) eqn:E.
    + assert (Hst : st = BookingStatus.PAID \/ st = BookingStatus.COMPLETED).
      { apply orb_true_iff in E as [E|E]; apply BookingStatus_eqb_eq in E; auto. }
      destruct (updateCustomerStatus_frame (Booking.customerId b) s1) as [Hp Hbk].
      assert (Hsnd : forall (r : Result unit) (s2 : Store) (v : Booking.t),
                snd (match r with Ok _ => (Ok v, s2) | Throw e => (Throw e, s2) end) = s2)
        by (intros [[]|e] s2 v; reflexivity).
      split.
      { destruct (updateCustomerStatus _ s1) as [r s2]. rewrite Hsnd.
        cbn [snd] in Hbk. now rewrite Hbk. }
      split.
      { destruct (updateCustomerStatus _ s1) as [r s2]. rewrite Hsnd.
        cbn [snd] in Hp. now rewrite Hp. }
      split; [intros H1 H2; destruct Hst; contradiction|].
      intros _ c Hc.
      rewrite (updateCustomerStatus_run (Booking.customerId b) s1 c) by exact Hc.
      cbn [fst snd customers bookings setCustomers].
      split; [reflexivity|]. split.
      * rewrite findById_updateById by reflexivity.
        change (customers s1) with (customers s). rewrite Hc. cbn [option_map].
        destruct (findById_key _ _ _ _ Hc) as [_ Hcid]. now rewrite Hcid, Z.eqb_refl.
      * apply tierOf_pos.
        apply (paidBookings_pos _ _ (setBookingStatus st b)).
        -- unfold s1. cbn [bookings setBookings]. now apply In_updateById.
        -- reflexivity.
        -- exact Hst.
    + apply orb_false_iff in E as [E1 E2]. cbn [snd fst].
      split; [exact Hfind|]. split; [reflexivity|]. split; [split; reflexivity|].
      intros [-> | ->]; discriminate.
Qed.

Lemma X11_updateBookingStatus_witness :
  findById Booking.id 1
    (bookings (snd (updateBookingStatus 1 BookingStatus.COMPLETED
                      (storeWith [bookingOf 2 BookingStatus.PAID] []))))
  = Some (bookingOf 2 BookingStatus.COMPLETED)
  /\ updateBookingStatus 5 BookingStatus.PAID emptyStore
     = (Throw (mkError None "Record to update not found."), emptyStore).
Proof.
  split.
  - apply (proj1 (proj2 (X11_updateBookingStatus 1 BookingStatus.COMPLETED
                           (storeWith [bookingOf 2 BookingStatus.PAID] []))
                        (bookingOf 2 BookingStatus.PAID) eq_refl)).
  - apply (proj1 (X11_updateBookingStatus 5 BookingStatus.PAID emptyStore)). reflexivity.
Defined.

(* ===================================================================== *)
(** ** Further properties: payment initiation *)
(* ===================================================================== *)

Section MorePayments.
Variable env : Env.
Variable snap_createTransaction : SnapParameter -> option SnapTransaction.

Lemma createSnapTransaction_throw (bw : BookingWithRelations) (now created : Z)
    (s s' : Store) (e : Error) :
  createSnapTransaction env snap_createTransaction bw now created s = (Throw e, s') ->
  s' = s.
Proof.
  unfold createSnapTransaction.
  destruct (customer bw) as [c|]; [|destruct (travelPackage bw); intros H; now inversion H].
  destruct (travelPackage bw) as [pkg|]; [|intros H; now inversion H].
  unfold tryCatch.
  destruct (snap_createTransaction _) as [tx|]; [|intros H; now inversion H].
  unfold payment_create. unfold_monad. cbv beta.
  destruct (existsb _ (payments s)); intros H; now inversion H.
Qed.

Lemma existsb_or_find_none_r {A} (P Q : A -> bool) (rows : list A) :
  existsb (fun r => P r || Q r) rows = false -> find Q rows = None.
Proof.
  induction rows as [|r rows IH]; cbn; [reflexivity|].
  intros H. apply orb_false_iff in H as [H1 H2].
  apply orb_false_iff in H1 as [_ H1]. rewrite H1. now apply IH.
Qed.

Lemma createSnapTransaction_success (bw : BookingWithRelations) (now created : Z)
    (s s' : Store) (r : SnapResult) :
  createSnapTransaction env snap_createTransaction bw now created s = (Ok r, s') ->
  let p := sr_payment r in
  s' = mkStore (customers s) (travelPackages s) (bookings s) (payments s ++ [p])
               (bookingSeq s) (paymentSeq s + 1)
  /\ Payment.id p = paymentSeq s
  /\ Payment.bookingId p = Booking.id (booking bw)
  /\ Payment.midtransOrderId p
     = ("TRV-" ++ Booking.bookingCode (booking bw) ++ "-" ++ string_of_Z now)%string
  /\ Payment.amount p = Booking.totalAmount (booking bw)
  /\ Payment.status p = PaymentStatus.PENDING
  /\ Payment.paidAt p = None
  /\ Payment.midtransToken p = Some (sr_snapToken r)
  /\ Payment.paymentUrl p = Some (sr_redirectUrl r)
  /\ findById Payment.bookingId (Booking.id (booking bw)) (payments s) = None
  /\ findByOrderId (Payment.midtransOrderId p) (payments s) = None.
Proof.
  unfold createSnapTransaction.
  destruct (customer bw) as [c|]; [|destruct (travelPackage bw); discriminate].
  destruct (travelPackage bw) as [pkg|]; [|discriminate].
  unfold tryCatch.
  destruct (snap_createTransaction _) as [tx|]; [|discriminate].
  unfold payment_create. unfold_monad. cbv beta.
  match goal with |- context [existsb ?f (payments s)] =>
    destruct (existsb f (payments s)) eqn:E end; [discriminate|].
  cbn. intros H. injection H as <- <-. cbn.
  repeat match goal with |- _ /\ _ => split end; try reflexivity.
  + unfold findById. exact (existsb_or_find_none _ _ _ E).
  + unfold findByOrderId. exact (existsb_or_find_none_r _ _ _ E).
Qed.

(** X12. [createSnapTransaction] writes all or nothing. When it throws,
    the store is as before, and a provider failure surfaces as 500. When it
    returns, exactly one payment row was appended: PENDING, for this
    booking, with the booking's total as amount, the order id built from
    the booking code and the time, the next payment id, the provider's
    token and URL, and no earlier row had this booking or this order id. *)
Theorem X12_createSnapTransaction (bw : BookingWithRelations) (now created : Z) (s : Store) :
  (forall e s', createSnapTransaction env snap_createTransaction bw now created s
                = (Throw e, s') -> s' = s)
  /\ (forall c pkg, customer bw = Some c -> travelPackage bw = Some pkg ->
      (forall p, snap_createTransaction p = None) ->
      createSnapTransaction env snap_createTransaction bw now created s
      = (Throw (mkError (Some 500) "Failed to create payment transaction"), s))
  /\ (forall r s', createSnapTransaction env snap_createTransaction bw now created s
                   = (Ok r, s') ->
      let p := sr_payment r in
      s' = mkStore (customers s) (travelPackages s) (bookings s) (payments s ++ [p])
                   (bookingSeq s) (paymentSeq s + 1)
      /\ Payment.id p = paymentSeq s
      /\ Payment.bookingId p = Booking.id (booking bw)
      /\ Payment.midtransOrderId p
         = ("TRV-" ++ Booking.bookingCode (booking bw) ++ "-" ++ string_of_Z now)%string
      /\ Payment.amount p = Booking.totalAmount (booking bw)
      /\ Payment.status p = PaymentStatus.PENDING
      /\ Payment.paidAt p = None
      /\ Payment.midtransToken p = Some (sr_snapToken r)
      /\ Payment.paymentUrl p = Some (sr_redirectUrl r)
      /\ findById Payment.bookingId (Booking.id (booking bw)) (payments s) = None
      /\ findByOrderId (Payment.midtransOrderId p) (payments s) = None).
Proof.
  split; [intros e s'; apply createSnapTransaction_throw|]. split.
  - intros c pkg Hc Hp Hsnap. unfold createSnapTransaction. rewrite Hc, Hp.
    unfold tryCatch. now rewrite Hsnap.
  - intros r s'. apply createSnapTransaction_success.
Qed.

Lemma getBookingById_missing (id : Z) (s : Store) :
  findById Booking.id id (bookings s) = None ->
  getBookingById id s = (Throw (mkError (Some 404) "Booking not found"), s).
Proof. intros H. unfold getBookingById. unfold_monad. cbv beta. now rewrite H. Qed.

(** X13. [initiatePayment] hands a 404 to the error handler for an
    unknown booking and answers 403 to a customer who does not own the
    booking, before looking at its status; and it never writes to bookings,
    customers or packages: it leaves the store as it was or appends one
    payment row, the latter exactly when it answers "Payment initiated
    successfully". *)
Theorem X13_initiatePayment_access (user : User) (id now created : Z) (s : Store) :
  (findById Booking.id id (bookings s) = None ->
   initiatePayment env snap_createTransaction user id now created s
   = (Next (mkError (Some 404) "Booking not found"), s))
  /\ (forall b, findById Booking.id id (bookings s) = Some b ->
      user_type user = "CUSTOMER" -> Booking.customerId b <> user_id user ->
      initiatePayment env snap_createTransaction user id now created s
      = (Json 403 false "Access denied" None, s))
  /\ (let r := fst (initiatePayment env snap_createTransaction user id now created s) in
      let s' := snd (initiatePayment env snap_createTransaction user id now created s) in
      (s' = s /\ forall d, r <> Json 200 true "Payment initiated successfully" d)
      \/ (exists p d, r = Json 200 true "Payment initiated successfully" d
                      /\ s' = mkStore (customers s) (travelPackages s) (bookings s)
                                      (payments s ++ [p]) (bookingSeq s) (paymentSeq s + 1)
                      /\ Payment.bookingId p = id
                      /\ Payment.status p = PaymentStatus.PENDING)).
Proof.
  split; [|split].
  - intros Hb. unfold initiatePayment. now rewrite (getBookingById_missing id s Hb).
  - intros b Hb Hu Hne. unfold initiatePayment.
    rewrite (getBookingById_found s id b Hb). cbn [booking withRelations].
    rewrite Hu. replace (Booking.customerId b =? user_id user) with false
      by (symmetry; now apply Z.eqb_neq).
    reflexivity.
  - cbv zeta. unfold initiatePayment.
    destruct (findById Booking.id id (bookings s)) as [b|] eqn:Hb.
    2:{ rewrite (getBookingById_missing id s Hb). left. split; [reflexivity | discriminate]. }
    rewrite (getBookingById_found s id b Hb). cbn [booking withRelations].
    destruct (_ && _); [left; split; [reflexivity | discriminate]|].
    destruct (negb _); [left; split; [reflexivity | discriminate]|].
    destruct (pendingPayment _); [left; split; [reflexivity | discriminate]|].
    destruct (createSnapTransaction _ _ _ _ _ _) as [[r|e] s2] eqn:Hc.
    + right.
      destruct (createSnapTransaction_success (withRelations s b) now created s s2 r Hc)
        as (Hs & _ & Hbid & _ & _ & Hps & _).
      exists (sr_payment r). eexists. split; [reflexivity|]. split; [exact Hs|].
      split; [|exact Hps]. rewrite Hbid. cbn [booking withRelations].
      now destruct (findById_key _ _ _ _ Hb).
    + left. apply createSnapTransaction_throw in Hc. subst s2.
      split; [reflexivity | discriminate].
Qed.

(** X14. A booking never gets a second payment row: when a payment row
    for the booking exists, [initiatePayment] leaves the store exactly as it
    was, whoever calls and whatever the provider answers. Unless that row is
    PENDING the call cannot succeed, so a booking whose payment failed,
    expired or was refunded cannot start a new payment. *)
Theorem X14_no_second_payment (user : User) (id now created : Z) (s : Store)
    (b : Booking.t) (p : Payment.t) :
  findById Booking.id id (bookings s) = Some b ->
  findById Payment.bookingId (Booking.id b) (payments s) = Some p ->
  snd (initiatePayment env snap_createTransaction user id now created s) = s
  /\ (Payment.status p <> PaymentStatus.PENDING ->
      forall m d, fst (initiatePayment env snap_createTransaction user id now created s)
                  <> Json 200 true m d).
Proof.
  intros Hb Hp. unfold initiatePayment.
  rewrite (getBookingById_found s id b Hb). cbn [booking withRelations].
  destruct (_ && _); [split; [reflexivity | discriminate]|].
  destruct (negb _); [split; [reflexivity | discriminate]|].
  unfold pendingPayment. cbn [payment withRelations]. rewrite Hp.
  destruct (PaymentStatus.eqb (Payment.status p) PaymentStatus.PENDING) eqn:E.
  { apply PaymentStatus_eqb_eq in E. split; [reflexivity | intros H; contradiction]. }
  destruct (createSnapTransaction _ _ _ _ _ _) as [[r|e] s2] eqn:Hc.
  - exfalso.
    destruct (createSnapTransaction_success (withRelations s b) now created s s2 r Hc)
      as (_ & _ & _ & _ & _ & _ & _ & _ & _ & Hnone & _).
    cbn [booking withRelations] in Hnone. congruence.
  - apply createSnapTransaction_throw in Hc. subst s2.
    split; [reflexivity | discriminate].
Qed.

End MorePayments.

Lemma X12_createSnapTransaction_witness :
  createSnapTransaction demoEnv (fun _ => None)
    (withRelations (storeWith [bookingOf 2 BookingStatus.PENDING] [])
                   (bookingOf 2 BookingStatus.PENDING))
    1700000000000 1700000000100 (storeWith [bookingOf 2 BookingStatus.PENDING] [])
  = (Throw (mkError (Some 500) "Failed to create payment transaction"),
     storeWith [bookingOf 2 BookingStatus.PENDING] [])
  /\ exists r s',
       createSnapTransaction demoEnv demoSnap
         (withRelations (storeWith [bookingOf 2 BookingStatus.PENDING] [])
                        (bookingOf 2 BookingStatus.PENDING))
         1700000000000 1700000000100 (storeWith [bookingOf 2 BookingStatus.PENDING] [])
       = (Ok r, s')
       /\ Payment.midtransOrderId (sr_payment r) = orderId1
       /\ Payment.amount (sr_payment r) = 700000000
       /\ Payment.status (sr_payment r) = PaymentStatus.PENDING.
Proof.
  split.
  - apply (proj1 (proj2 (X12_createSnapTransaction demoEnv (fun _ => None)
                           (withRelations (storeWith [bookingOf 2 BookingStatus.PENDING] [])
                                          (bookingOf 2 BookingStatus.PENDING))
                           1700000000000 1700000000100
                           (storeWith [bookingOf 2 BookingStatus.PENDING] [])))
                 budi baliTrip eq_refl eq_refl (fun _ => eq_refl)).
  - do 2 eexists. split; [vm_compute; reflexivity|].
    destruct (proj2 (proj2 (X12_createSnapTransaction demoEnv demoSnap
                (withRelations (storeWith [bookingOf 2 BookingStatus.PENDING] [])
                               (bookingOf 2 BookingStatus.PENDING))
                1700000000000 1700000000100
                (storeWith [bookingOf 2 BookingStatus.PENDING] []))) _ _
                ltac:(vm_compute; reflexivity))
      as (_ & _ & _ & H4 & H5 & H6 & _).
    split; [exact H4|]. split; [exact H5 | exact H6].
Defined.

Lemma X13_initiatePayment_access_witness :
  initiatePayment demoEnv demoSnap customerSusi 1 1700000000000 1700000000100 awaitingStore
  = (Json 403 false "Access denied" None, awaitingStore)
  /\ initiatePayment demoEnv demoSnap staff 5 1700000000000 1700000000100 awaitingStore
     = (Next (mkError (Some 404) "Booking not found"), awaitingStore).
Proof.
  split.
  - apply (proj1 (proj2 (X13_initiatePayment_access demoEnv demoSnap customerSusi 1
                           1700000000000 1700000000100 awaitingStore))
                 (bookingOf 2 BookingStatus.PENDING) eq_refl eq_refl).
    discriminate.
  - apply (proj1 (X13_initiatePayment_access demoEnv demoSnap staff 5
                    1700000000000 1700000000100 awaitingStore)).
    reflexivity.
Defined.

Lemma X14_no_second_payment_witness :
  snd (initiatePayment demoEnv demoSnap staff 1 1700000000000 1700000000100
         (storeWith [bookingOf 2 BookingStatus.PENDING]
                    [paymentRow PaymentStatus.EXPIRED None None]))
  = storeWith [bookingOf 2 BookingStatus.PENDING] [paymentRow PaymentStatus.EXPIRED None None]
  /\ forall m d,
       fst (initiatePayment demoEnv demoSnap staff 1 1700000000000 1700000000100
              (storeWith [bookingOf 2 BookingStatus.PENDING]
                         [paymentRow PaymentStatus.EXPIRED None None]))
       <> Json 200 true m d.
Proof.
  destruct (X14_no_second_payment demoEnv demoSnap staff 1 1700000000000 1700000000100
              (storeWith [bookingOf 2 BookingStatus.PENDING]
                         [paymentRow PaymentStatus.EXPIRED None None])
              (bookingOf 2 BookingStatus.PENDING)
              (paymentRow PaymentStatus.EXPIRED None None) eq_refl eq_refl) as [H1 H2].
  split; [exact H1 | apply H2; discriminate].
Defined.

(* ===================================================================== *)
(** ** Further properties: the booking controller *)
(* ===================================================================== *)

(** X15. [getBookingById] of the controller only reads, and a customer
    account only ever receives a booking of its own: any booking it sends
    is the stored one with that id, and when the caller is a CUSTOMER its
    customerId is the caller's id; for another customer's booking the
    answer is 403. *)
Theorem X15_getBooking_ownership (user : User) (id : Z) (s : Store) :
  snd (BookingController.getBookingById user id s) = s
  /\ (forall st ok m bw s',
        BookingController.getBookingById user id s = (Sent st ok m (Some bw), s') ->
        findById Booking.id id (bookings s) = Some (booking bw)
        /\ (user_type user = "CUSTOMER" ->
            Booking.customerId (booking bw) = user_id user))
  /\ (forall b, findById Booking.id id (bookings s) = Some b ->
        user_type user = "CUSTOMER" -> Booking.customerId b <> user_id user ->
        BookingController.getBookingById user id s
        = (Sent 403 false (Some "Access denied") None, s)).
Proof.
  unfold BookingController.getBookingById.
  destruct (findById Booking.id id (bookings s)) as [b|] eqn:Hb.
  - rewrite (getBookingById_found s id b Hb). cbn [booking withRelations].
    destruct (String.eqb (user_type user) "CUSTOMER") eqn:Eu;
      destruct (Booking.customerId b =? user_id user) eqn:Ec; cbn [negb andb].
    + apply Z.eqb_eq in Ec. split; [reflexivity|]. split.
      * intros st ok m bw s' H. injection H as _ _ _ <- _. cbn [booking]. auto.
      * intros b0 H0. injection H0 as <-. intros _ Hne. contradiction.
    + split; [reflexivity|]. split; [intros st ok m bw s' H; discriminate|].
      intros b0 H0 _ _. reflexivity.
    + apply String.eqb_neq in Eu. split; [reflexivity|]. split.
      * intros st ok m bw s' H. injection H as _ _ _ <- _. cbn [booking].
        split; [reflexivity | intros; contradiction].
      * intros b0 _ Hu. contradiction.
    + apply String.eqb_neq in Eu. split; [reflexivity|]. split.
      * intros st ok m bw s' H. injection H as _ _ _ <- _. cbn [booking].
        split; [reflexivity | intros; contradiction].
      * intros b0 _ Hu. contradiction.
  - rewrite (getBookingById_missing id s Hb).
    split; [reflexivity|]. split; [intros st ok m bw s' H; discriminate|].
    intros b H. discriminate.
Qed.

Lemma X15_getBooking_ownership_witness :
  BookingController.getBookingById customerSusi 1 awaitingStore
  = (Sent 403 false (Some "Access denied") None, awaitingStore).
Proof.
  apply (proj2 (proj2 (X15_getBooking_ownership customerSusi 1 awaitingStore))
               (bookingOf 2 BookingStatus.PENDING) eq_refl eq_refl).
  discriminate.
Defined.

(** X16. [createBooking] of the controller books for the caller when the
    caller is a customer account: a customerId in the body is ignored, and
    every booking it creates carries the caller's id. Staff must name the
    customer: without a customerId (or with 0) the answer is 400 and
    nothing is written. *)
Theorem X16_createBooking_customer (user : User) (body : CreateBody) (code : string)
    (s : Store) :
  (user_type user = "CUSTOMER" ->
   (forall other,
      BookingController.createBooking user body code s
      = BookingController.createBooking user
          (mkCreateBody other (cb_packageId body) (cb_participants body)
                        (cb_departureDate body) (cb_notes body)) code s)
   /\ (forall st ok m b s',
         BookingController.createBooking user body code s = (Sent st ok m (Some b), s') ->
         Booking.customerId b = user_id user))
  /\ (user_type user <> "CUSTOMER" -> falsyId (cb_customerId body) = true ->
      BookingController.createBooking user body code s
      = (Sent 400 false (Some "Customer ID is required") None, s))
  /\ (forall customerId, user_type user <> "CUSTOMER" ->
      cb_customerId body = Some customerId -> customerId <> 0 ->
      forall st ok m b s',
        BookingController.createBooking user body code s = (Sent st ok m (Some b), s') ->
        Booking.customerId b = customerId).
Proof.
  assert (Hrow : forall data b s',
            createBooking data code s = (Ok b, s') ->
            Booking.customerId b = bd_customerId data).
  { intros data b s' H. rewrite createBooking_run in H.
    destruct (findById Customer.id _ _); [|discriminate].
    destruct (findById TravelPackage.id _ _) as [p|]; [|discriminate].
    destruct (TravelPackage.isActive p); [|discriminate].
    cbv zeta in H. destruct (_ >=? _); [|discriminate].
    now injection H as <- _. }
  unfold BookingController.createBooking. split; [|split].
  - intros Hu. rewrite Hu. cbn [String.eqb Ascii.eqb Bool.eqb negb andb orElse
                                 cb_packageId cb_participants cb_departureDate cb_notes].
    change ("CUSTOMER" =? "CUSTOMER")%string with true. cbn [negb andb orElse].
    split; [reflexivity|].
    intros st ok m b s' H.
    destruct (createBooking _ code s) as [[b0|e] s0] eqn:Hc; [|discriminate].
    injection H as _ _ _ <- _. now apply Hrow in Hc.
  - intros Hu Hf. apply String.eqb_neq in Hu. rewrite Hu, Hf. reflexivity.
  - intros cid Hu Hc Hnz st ok m b s'. apply String.eqb_neq in Hu. rewrite Hu, Hc.
    cbn [negb andb falsyId orElse].
    replace (cid =? 0) with false by (symmetry; now apply Z.eqb_neq).
    destruct (createBooking _ code s) as [[b0|e] s0] eqn:Hr; [|discriminate].
    intros H. injection H as _ _ _ <- _. now apply Hrow in Hr.
Qed.

Lemma X16_createBooking_customer_witness :
  (forall st ok m b s',
     BookingController.createBooking customerBudi
       (mkCreateBody (Some 2) 1 2 "2026-12-24T00:00:00.000Z" None) "BK-0001" emptyStore
     = (Sent st ok m (Some b), s') ->
     Booking.customerId b = 1)
  /\ BookingController.createBooking staff
       (mkCreateBody None 1 2 "2026-12-24T00:00:00.000Z" None) "BK-0001" emptyStore
     = (Sent 400 false (Some "Customer ID is required") None, emptyStore).
Proof.
  split.
  - apply (proj2 (proj1 (X16_createBooking_customer customerBudi
                           (mkCreateBody (Some 2) 1 2 "2026-12-24T00:00:00.000Z" None)
                           "BK-0001" emptyStore) eq_refl)).
  - apply (proj1 (proj2 (X16_createBooking_customer staff
                           (mkCreateBody None 1 2 "2026-12-24T00:00:00.000Z" None)
                           "BK-0001" emptyStore))); [discriminate | reflexivity].
Defined.

(* ===================================================================== *)
(** ** Further properties: webhook endpoint and error handler *)
(* ===================================================================== *)

(** X17. The webhook endpoint, error handler included: a bad signature
    is answered 403 "Invalid signature" and an unknown order 404 "Payment
    not found", both with the store untouched; a notification that resolves
    to a payment, its booking and the booking's customer is answered 200
    with the payment's id and the status mapped from the notification. *)
Theorem X17_webhook_http (env : Env) (NODE_ENV : option string) (n : Notification)
    (now : Z) (s : Store) :
  (verifySignature env n = false ->
   exists e, PaymentController.handleWebhook env n now s = (Forwarded e, s)
             /\ errorHandler NODE_ENV (serviceError e)
                = mkErrorResponse 403 false "Invalid signature" None None)
  /\ (verifySignature env n = true ->
      findByOrderId (order_id n) (payments s) = None ->
      exists e, PaymentController.handleWebhook env n now s = (Forwarded e, s)
                /\ errorHandler NODE_ENV (serviceError e)
                   = mkErrorResponse 404 false "Payment not found" None None)
  /\ (forall pay bk,
      verifySignature env n = true ->
      findByOrderId (order_id n) (payments s) = Some pay ->
      findById Booking.id (Payment.bookingId pay) (bookings s) = Some bk ->
      findById Customer.id (Booking.customerId bk) (customers s) <> None ->
      exists s',
        PaymentController.handleWebhook env n now s
        = (Sent 200 true (Some "Notification processed")
                (Some (mkWebhookData (Payment.id pay)
                         (fst (mapStatus (transaction_status n) (fraud_status n)
                                         (Booking.status bk))))), s')).
Proof.
  unfold PaymentController.handleWebhook. split; [|split].
  - intros Hsig. unfold processNotification. rewrite Hsig. cbn [negb].
    eexists. split; reflexivity.
  - intros Hsig Hnone. unfold processNotification. rewrite Hsig. cbn [negb].
    unfold_monad. cbv beta. rewrite Hnone. eexists. split; reflexivity.
  - intros pay bk Hsig Hpay Hbk Hc.
    destruct (processNotification_run env n now s pay bk Hsig Hpay Hbk) as [p0 [Hp0 Hrun]].
    cbv zeta in Hrun. rewrite Hrun. clear Hrun.
    destruct (findById_key _ _ _ _ Hp0) as [_ Hid].
    destruct (BookingStatus.eqb _ (Booking.status bk)).
    { eexists. cbn [Payment.id Payment.status notificationData]. now rewrite Hid. }
    destruct (BookingStatus.eqb _ BookingStatus.PAID).
    2:{ eexists. cbn [Payment.id Payment.status notificationData]. now rewrite Hid. }
    match goal with |- context [updateCustomerStatus ?c ?st] =>
      destruct (updateCustomerStatus_ok c st) as [s3 H3]; [exact Hc | rewrite H3] end.
    eexists. cbn [Payment.id Payment.status notificationData]. now rewrite Hid.
Qed.

Lemma X17_webhook_http_witness :
  (exists e, PaymentController.handleWebhook demoEnv forgedNotice 1700000500000 awaitingStore
             = (Forwarded e, awaitingStore)
             /\ errorHandler (Some "production") (serviceError e)
                = mkErrorResponse 403 false "Invalid signature" None None)
  /\ exists s',
       PaymentController.handleWebhook demoEnv (notice "settlement" None) 1700000500000
                                       awaitingStore
       = (Sent 200 true (Some "Notification processed")
               (Some (mkWebhookData 1 PaymentStatus.SUCCESS)), s').
Proof.
  split.
  - apply (proj1 (X17_webhook_http demoEnv (Some "production") forgedNotice 1700000500000
                    awaitingStore)).
    vm_compute. reflexivity.
  - apply (proj2 (proj2 (X17_webhook_http demoEnv None (notice "settlement" None)
                           1700000500000 awaitingStore))
                 (paymentRow PaymentStatus.PENDING None None)
                 (bookingOf 2 BookingStatus.PENDING)).
    + vm_compute. reflexivity.
    + reflexivity.
    + reflexivity.
    + discriminate.
Defined.

(** X18. The error handler never reports success. A validation error is
    always 400 even when it carries a status code; an error the services
    built (plain name, no code, a non-zero status code) is answered with
    that code and its own message; and outside development the message of
    an error without a usable status code never reaches the client: the
    answer then carries one of six fixed texts. *)
Theorem X18_errorHandler (NODE_ENV : option string) (err : JsError) :
  er_success (errorHandler NODE_ENV err) = false
  /\ (err_name err = "ZodError" ->
      er_status (errorHandler NODE_ENV err) = 400
      /\ er_message (errorHandler NODE_ENV err) = "Validation error")
  /\ (forall (e : Error) code, statusCode e = Some code -> code <> 0 ->
      errorHandler NODE_ENV (serviceError e)
      = mkErrorResponse code false (message e) None None)
  /\ (NODE_ENV <> Some "development" -> truthyCode (err_statusCode err) = false ->
      In (er_message (errorHandler NODE_ENV err))
         ["Validation error"; "A record with this value already exists";
          "Record not found"; "Invalid token"; "Token expired";
          "Internal server error"]
      /\ In (er_status (errorHandler NODE_ENV err)) [400; 409; 404; 401; 500]).
Proof.
  split; [|split; [|split]].
  - unfold errorHandler.
    repeat match goal with |- context [if ?c then _ else _] => destruct c end; reflexivity.
  - intros Hn. unfold errorHandler. rewrite Hn. split; reflexivity.
  - intros e code Hc Hnz. unfold errorHandler, serviceError.
    cbn [err_name err_code err_statusCode err_message strIs String.eqb Ascii.eqb Bool.eqb].
    rewrite Hc. cbn [truthyCode orElse].
    replace (code =? 0) with false by (symmetry; now apply Z.eqb_neq). reflexivity.
  - intros Hdev Hcode. unfold errorHandler. rewrite Hcode.
    rewrite (strIs_false _ _ Hdev).
    repeat match goal with |- context [if ?c then _ else _] => destruct c end;
      cbn; tauto.
Qed.

Lemma X18_errorHandler_witness :
  errorHandler (Some "production")
    (serviceError (mkError (Some 400) "Cannot cancel a completed booking"))
  = mkErrorResponse 400 false "Cannot cancel a completed booking" None None
  /\ In (er_message (errorHandler (Some "production")
                       (mkJsError "TypeError" None None "Cannot read properties of null"
                                  None None)))
        ["Validation error"; "A record with this value already exists";
         "Record not found"; "Invalid token"; "Token expired";
         "Internal server error"].
Proof.
  split.
  - apply (proj1 (proj2 (proj2 (X18_errorHandler (Some "production")
                                  (mkJsError "Error" None None "" None None))))
                 (mkError (Some 400) "Cannot cancel a completed booking") 400 eq_refl).
    discriminate.
  - apply (proj2 (proj2 (proj2 (X18_errorHandler (Some "production")
             (mkJsError "TypeError" None None "Cannot read properties of null" None None))))
             ltac:(discriminate) eq_refl).
Defined.

(* ===================================================================== *)
(** ** Further properties: role gate *)
(* ===================================================================== *)

Lemma authorize_pass (allowedRoles : list string) (role : string) :
  authorize allowedRoles (Some (Some role)) = Proceed <-> In role allowedRoles.
Proof.
  unfold authorize.
  destruct (existsb (fun r => strIs (Some role) r) allowedRoles) eqn:E; cbn [negb].
  - split; [intros _ | reflexivity].
    apply existsb_exists in E as [r [Hin Hr]]. cbn in Hr.
    apply String.eqb_eq in Hr. now subst r.
  - split; [discriminate|]. intros Hin. exfalso.
    assert (H : existsb (fun r => strIs (Some role) r) allowedRoles = true).
    { apply existsb_exists. exists role. split; [exact Hin|]. cbn. apply String.eqb_refl. }
    congruence.
Qed.

(** X19. The role gate lets a request through exactly when the caller's
    role is in the list, so widening the list never locks anybody out;
    without an authenticated user the answer is 401 whatever the list, an
    account without a role is never let through, and ADMIN passes every
    predefined gate. *)
Theorem X19_authorize (allowedRoles wider : list string) (user : option (option string)) :
  authorize allowedRoles None = Rejected 401 "Authentication required"
  /\ (forall role, authorize allowedRoles (Some (Some role)) = Proceed <-> In role allowedRoles)
  /\ authorize allowedRoles (Some None) <> Proceed
  /\ (incl allowedRoles wider -> authorize allowedRoles user = Proceed ->
      authorize wider user = Proceed)
  /\ (forall gate, In gate [adminOnly; staffOnly; salesAndAdmin; csAndAdmin;
                            managementOnly; allStaff] ->
      gate (Some (Some "ADMIN")) = Proceed).
Proof.
  split; [reflexivity|]. split; [intros role; apply authorize_pass|]. split.
  - unfold authorize.
    replace (existsb (fun r => strIs None r) allowedRoles) with false; [discriminate|].
    symmetry. induction allowedRoles as [|r l IH]; [reflexivity | exact IH].
  - split.
    + intros Hincl Hpass. destruct user as [[role|]|].
      * apply authorize_pass. apply Hincl. now apply authorize_pass.
      * exfalso. revert Hpass. unfold authorize.
        replace (existsb (fun r => strIs None r) allowedRoles) with false; [discriminate|].
        symmetry. clear Hincl. induction allowedRoles as [|r l IH]; [reflexivity | exact IH].
      * discriminate Hpass.
    + intros gate Hin. cbn in Hin.
      repeat (destruct Hin as [<- | Hin]; [reflexivity|]). contradiction.
Qed.

Lemma X19_authorize_witness :
  authorize ["ADMIN"; "SALES"; "CS"] (Some (Some "SALES")) = Proceed.
Proof.
  apply (proj1 (proj2 (proj2 (proj2
           (X19_authorize ["ADMIN"; "SALES"] ["ADMIN"; "SALES"; "CS"] (Some (Some "SALES"))))))).
  - intros r Hr. cbn in *. tauto.
  - reflexivity.
Defined.

(* ===================================================================== *)
(** ** Further properties: packages *)
(* ===================================================================== *)

(** X20. [getPackageById] and [checkAvailability] agree: for an active
    package both report the same available slots, and the booked
    participants and the available slots [getPackageById] reports always add
    up to the quota. An inactive package is still returned by
    [getPackageById] while [checkAvailability] refuses it. *)
Theorem X20_package_views_agree (id participants : Z) (s : Store) (p : TravelPackage.t) :
  findById TravelPackage.id id (travelPackages s) = Some p ->
  exists pd,
    getPackageById id s = (Ok pd, s)
    /\ package pd = p
    /\ pd_bookedParticipants pd + pd_availableSlots pd = TravelPackage.quota p
    /\ pd_bookedParticipants pd = specBookedParticipants id (bookings s)
    /\ (TravelPackage.isActive p = true ->
        exists a, checkAvailability id participants s = (Ok a, s)
                  /\ availableSlots a = pd_availableSlots pd
                  /\ (isAvailable a = true <-> participants <= pd_availableSlots pd))
    /\ (TravelPackage.isActive p = false ->
        fst (checkAvailability id participants s)
        = Throw (mkError (Some 400) "Travel package is not available")).
Proof.
  intros Hp. rewrite getPackageById_run, checkAvailability_run, Hp.
  eexists. split; [reflexivity|]. cbn [package pd_bookedParticipants pd_availableSlots].
  split; [reflexivity|]. split; [lia|]. split; [reflexivity|]. split.
  - intros ->. cbv zeta. eexists. split; [reflexivity|]. cbn [availableSlots isAvailable].
    split; [reflexivity|]. apply Z.geb_le.
  - intros ->. reflexivity.
Qed.

Lemma X20_package_views_agree_witness :
  exists pd,
    getPackageById 1 (storeWith [bookingOf 7 BookingStatus.PENDING] [])
    = (Ok pd, storeWith [bookingOf 7 BookingStatus.PENDING] [])
    /\ pd_bookedParticipants pd = 7 /\ pd_availableSlots pd = 3.
Proof.
  destruct (X20_package_views_agree 1 4 (storeWith [bookingOf 7 BookingStatus.PENDING] [])
              baliTrip eq_refl) as (pd & H1 & _ & H3 & H4 & _).
  exists pd. split; [exact H1|]. cbn in H3, H4. split; lia.
Defined.

Lemma travelPackage_update_found (s : Store) (id : Z)
    (f : TravelPackage.t -> TravelPackage.t) (p : TravelPackage.t) :
  findById TravelPackage.id id (travelPackages s) = Some p ->
  travelPackage_update id f s
  = (Ok (f p), setTravelPackages (updateById TravelPackage.id id f) s).
Proof. intros H. unfold travelPackage_update. unfold_monad. cbv beta. now rewrite H. Qed.

(** X21. Once [deactivatePackage] has succeeded the package takes no
    more bookings: [checkAvailability] answers 400 and no [createBooking]
    for it succeeds or writes anything, while the bookings it already has
    and the other packages stay as they were. For an unknown id it throws
    the ORM's error and writes nothing. *)
Theorem X21_deactivatePackage (id : Z) (s : Store) :
  (findById TravelPackage.id id (travelPackages s) = None ->
   deactivatePackage id s = (Throw (mkError None "Record to update not found."), s))
  /\ (forall p, findById TravelPackage.id id (travelPackages s) = Some p ->
      let s' := snd (deactivatePackage id s) in
      fst (deactivatePackage id s) = Ok (setIsActive false p)
      /\ bookings s' = bookings s
      /\ customers s' = customers s
      /\ payments s' = payments s
      /\ (forall other, other <> id ->
            findById TravelPackage.id other (travelPackages s')
            = findById TravelPackage.id other (travelPackages s))
      /\ (forall participants,
            checkAvailability id participants s'
            = (Throw (mkError (Some 400) "Travel package is not available"), s'))
      /\ (forall data code, bd_packageId data = id ->
            exists e, createBooking data code s' = (Throw e, s'))).
Proof.
  split.
  - intros Hp. unfold deactivatePackage, travelPackage_update. unfold_monad. cbv beta.
    now rewrite Hp.
  - intros p Hp s'. subst s'. unfold deactivatePackage.
    rewrite (travelPackage_update_found s id _ p Hp).
    cbn [fst snd bookings customers payments travelPackages setTravelPackages].
    destruct (findById_key _ _ _ _ Hp) as [_ Hid].
    assert (Hfind : findById TravelPackage.id id
                      (updateById TravelPackage.id id (setIsActive false) (travelPackages s))
                    = Some (setIsActive false p)).
    { rewrite findById_updateById by reflexivity. rewrite Hp. cbn [option_map].
      now rewrite Hid, Z.eqb_refl. }
    split; [reflexivity|]. split; [reflexivity|]. split; [reflexivity|].
    split; [reflexivity|]. split; [|split].
    + intros other Hne. rewrite findById_updateById by reflexivity.
      destruct (findById TravelPackage.id other (travelPackages s)) as [q|] eqn:Hq;
        [|reflexivity].
      cbn [option_map]. destruct (findById_key _ _ _ _ Hq) as [_ Hqid].
      replace (TravelPackage.id q =? id) with false; [reflexivity|].
      symmetry. apply Z.eqb_neq. congruence.
    + intros n. rewrite checkAvailability_run.
      cbn [travelPackages setTravelPackages]. rewrite Hfind. reflexivity.
    + intros data code Hd. rewrite createBooking_run.
      cbn [travelPackages customers setTravelPackages]. rewrite Hd, Hfind.
      cbn [TravelPackage.isActive setIsActive].
      destruct (findById Customer.id _ _); eexists; reflexivity.
Qed.

Lemma X21_deactivatePackage_witness :
  (forall participants,
     checkAvailability 1 participants (snd (deactivatePackage 1 emptyStore))
     = (Throw (mkError (Some 400) "Travel package is not available"),
        snd (deactivatePackage 1 emptyStore)))
  /\ deactivatePackage 9 emptyStore
     = (Throw (mkError None "Record to update not found."), emptyStore).
Proof.
  split.
  - destruct (proj2 (X21_deactivatePackage 1 emptyStore) baliTrip eq_refl)
      as (_ & _ & _ & _ & _ & H & _).
    exact H.
  - apply (proj1 (X21_deactivatePackage 9 emptyStore)). reflexivity.
Defined.

Lemma filter_count_pos (P : Booking.t -> bool) (rows : list Booking.t) (b : Booking.t) :
  In b rows -> P b = true -> (Z.of_nat (List.length (filter P rows)) >? 0) = true.
Proof.
  intros Hin HP. apply Z.gtb_lt.
  assert (H : In b (filter P rows)) by (apply filter_In; auto).
  destruct (filter P rows); [contradiction | cbn [List.length]; lia].
Qed.

Lemma filter_count_zero (P : Booking.t -> bool) (rows : list Booking.t) :
  (forall b, In b rows -> P b = false) ->
  (Z.of_nat (List.length (filter P rows)) >? 0) = false.
Proof.
  intros H. induction rows as [|r rows IH]; [reflexivity|].
  cbn [filter]. rewrite (H r (or_introl eq_refl)). apply IH.
  intros b Hb. apply H. now right.
Qed.

Lemma findById_filter_other (id other : Z) (rows : list TravelPackage.t) :
  other <> id ->
  findById TravelPackage.id other (filter (fun p => negb (TravelPackage.id p =? id)) rows)
  = findById TravelPackage.id other rows.
Proof.
  intros Hne. unfold findById.
  induction rows as [|r rows IH]; [reflexivity|].
  cbn [filter find].
  destruct (TravelPackage.id r =? id) eqn:E; cbn [negb].
  - apply Z.eqb_eq in E.
    replace (TravelPackage.id r =? other) with false; [exact IH|].
    symmetry. apply Z.eqb_neq. congruence.
  - cbn [find]. destruct (TravelPackage.id r =? other); [reflexivity | exact IH].
Qed.

Lemma findById_filter_self (id : Z) (rows : list TravelPackage.t) :
  findById TravelPackage.id id (filter (fun p => negb (TravelPackage.id p =? id)) rows) = None.
Proof.
  unfold findById.
  induction rows as [|r rows IH]; [reflexivity|].
  cbn [filter]. destruct (TravelPackage.id r =? id) eqn:E; cbn [negb]; [exact IH|].
  cbn [find]. now rewrite E.
Qed.

(** X22. [deletePackage] never leaves a booking without its package: a
    package that any booking refers to, whatever the booking's status, is
    not deleted (400, nothing written); a package without bookings is
    removed and the other packages stay; an unknown id gives the ORM's
    error. So if every booking's package could be resolved before the call,
    it still can be afterwards. *)
Theorem X22_deletePackage (id : Z) (s : Store) :
  (forall b, In b (bookings s) -> Booking.packageId b = id ->
   deletePackage id s
   = (Throw (mkError (Some 400)
               "Cannot delete package with existing bookings. Deactivate instead."), s))
  /\ ((forall b, In b (bookings s) -> Booking.packageId b <> id) ->
      (findById TravelPackage.id id (travelPackages s) = None ->
       deletePackage id s = (Throw (mkError None "Record to delete does not exist."), s))
      /\ (findById TravelPackage.id id (travelPackages s) <> None ->
          let s' := snd (deletePackage id s) in
          fst (deletePackage id s) = Ok tt
          /\ findById TravelPackage.id id (travelPackages s') = None
          /\ (forall other, other <> id ->
                findById TravelPackage.id other (travelPackages s')
                = findById TravelPackage.id other (travelPackages s))
          /\ bookings s' = bookings s))
  /\ (packagesResolve s -> packagesResolve (snd (deletePackage id s))).
Proof.
  assert (Hblocked : forall b, In b (bookings s) -> Booking.packageId b = id ->
    deletePackage id s
    = (Throw (mkError (Some 400)
                "Cannot delete package with existing bookings. Deactivate instead."), s)).
  { intros b Hin Hb. unfold deletePackage. unfold bind at 1. unfold gets at 1.
    rewrite (filter_count_pos _ _ b Hin); [reflexivity|]. now apply Z.eqb_eq. }
  assert (Hfree : (forall b, In b (bookings s) -> Booking.packageId b <> id) ->
    deletePackage id s = travelPackage_delete id s).
  { intros Hno. unfold deletePackage. unfold bind at 1. unfold gets at 1.
    rewrite filter_count_zero; [reflexivity|].
    intros b Hin. apply Z.eqb_neq. now apply Hno. }
  split; [exact Hblocked|]. split.
  - intros Hno. rewrite (Hfree Hno). unfold travelPackage_delete. unfold_monad. cbv beta.
    split; [intros ->; reflexivity|].
    intros Hsome.
    destruct (findById TravelPackage.id id (travelPackages s)); [|contradiction].
    cbn [fst snd travelPackages bookings setTravelPackages].
    split; [reflexivity|]. split; [apply findById_filter_self|].
    split; [|reflexivity]. intros other Hne. now apply findById_filter_other.
  - intros Hres.
    destruct (existsb (fun b => Booking.packageId b =? id) (bookings s)) eqn:E.
    + apply existsb_exists in E as [b [Hin Hb]]. apply Z.eqb_eq in Hb.
      now rewrite (Hblocked b Hin Hb).
    + assert (Hno : forall b, In b (bookings s) -> Booking.packageId b <> id).
      { intros b Hin Hb.
        assert (H : existsb (fun b => Booking.packageId b =? id) (bookings s) = true).
        { apply existsb_exists. exists b. split; [exact Hin | now apply Z.eqb_eq]. }
        congruence. }
      rewrite (Hfree Hno). unfold travelPackage_delete. unfold_monad. cbv beta.
      destruct (findById TravelPackage.id id (travelPackages s)); [|exact Hres].
      cbn [snd]. intros b Hin. cbn [bookings travelPackages setTravelPackages] in *.
      rewrite findById_filter_other; [now apply Hres|]. now apply Hno.
Qed.

Lemma X22_deletePackage_witness :
  deletePackage 1 (storeWith [bookingOf 2 BookingStatus.CANCELED] [])
  = (Throw (mkError (Some 400)
              "Cannot delete package with existing bookings. Deactivate instead."),
     storeWith [bookingOf 2 BookingStatus.CANCELED] [])
  /\ findById TravelPackage.id 2 (travelPackages (snd (deletePackage 2 emptyStore))) = None.
Proof.
  split.
  - apply (proj1 (X22_deletePackage 1 (storeWith [bookingOf 2 BookingStatus.CANCELED] []))
                 (bookingOf 2 BookingStatus.CANCELED)); [now left | reflexivity].
  - destruct (proj2 (proj1 (proj2 (X22_deletePackage 2 emptyStore))
                       ltac:(intros b [])) ltac:(discriminate)) as (_ & H & _).
    exact H.
Defined.

(* ===================================================================== *)
(** ** Further properties: composing the operations *)
(* ===================================================================== *)

(** X23. The last notification wins: after two validly signed
    notifications for the same order, the payment row is what the second
    one alone would have written (status, payment type and paidAt); the
    first leaves no trace on it. *)
Theorem X23_last_notification_wins (env : Env) (n1 n2 : Notification) (t1 t2 : Z)
    (s : Store) (pay : Payment.t) (bk : Booking.t) :
  verifySignature env n1 = true ->
  verifySignature env n2 = true ->
  order_id n2 = order_id n1 ->
  findByOrderId (order_id n1) (payments s) = Some pay ->
  findById Booking.id (Payment.bookingId pay) (bookings s) = Some bk ->
  let s1 := snd (processNotification env n1 t1 s) in
  let s2 := snd (processNotification env n2 t2 s1) in
  findByOrderId (order_id n1) (payments s2)
  = findByOrderId (order_id n1) (payments (snd (processNotification env n2 t2 s)))
  /\ findByOrderId (order_id n1) (payments s2)
     = Some (notificationData
               (fst (mapStatus (transaction_status n2) (fraud_status n2) (Booking.status bk)))
               (payment_type n2) t2 pay).
Proof.
  intros Hs1 Hs2 Ho Hpay Hbk s1 s2.
  destruct (processNotification_rows env n1 t1 s pay bk Hs1 Hpay Hbk) as [Hr1 Hr2].
  cbv zeta in Hr1, Hr2. fold s1 in Hr1, Hr2.
  rewrite <- Ho in Hr1, Hpay.
  destruct (processNotification_rows env n2 t2 s pay bk Hs2 Hpay Hbk) as [Hdirect _].
  destruct (processNotification_rows env n2 t2 s1 _ _ Hs2 Hr1 Hr2) as [Hafter _].
  cbv zeta in Hdirect, Hafter. fold s2 in Hafter.
  cbn [Booking.status setBookingStatus] in Hafter.
  rewrite (mapStatus_fst_current _ _ _ (Booking.status bk)) in Hafter.
  rewrite <- Ho, Hafter, Hdirect. split; reflexivity.
Qed.

Lemma X23_last_notification_wins_witness :
  findByOrderId orderId1
    (payments (snd (processNotification demoEnv (notice "pending" None) 1700000900000
                      (snd (processNotification demoEnv (notice "settlement" None)
                                                1700000500000 awaitingStore)))))
  = Some (paymentRow PaymentStatus.PENDING (Some "bank_transfer") None).
Proof.
  apply (proj2 (X23_last_notification_wins demoEnv (notice "settlement" None)
                  (notice "pending" None) 1700000500000 1700000900000 awaitingStore
                  (paymentRow PaymentStatus.PENDING None None)
                  (bookingOf 2 BookingStatus.PENDING)
                  ltac:(vm_compute; reflexivity) ltac:(vm_compute; reflexivity)
                  eq_refl eq_refl eq_refl)).
Defined.

(** X24. A notification never books anything for a booking that already
    holds its slots: with distinct booking ids and a PENDING, PAID or
    CONFIRMED booking of non-negative size, no package holds more slots
    after [processNotification] than before, and when the notification
    cancels the booking its package holds exactly the booking's
    participants fewer. *)
Theorem X24_notification_never_books (env : Env) (n : Notification) (now : Z) (s : Store)
    (pay : Payment.t) (bk : Booking.t) :
  verifySignature env n = true ->
  findByOrderId (order_id n) (payments s) = Some pay ->
  findById Booking.id (Payment.bookingId pay) (bookings s) = Some bk ->
  uniqueBookingIds s ->
  holdsSlot (Booking.status bk) = true ->
  0 <= Booking.participants bk ->
  let s' := snd (processNotification env n now s) in
  forall packageId,
    specBookedParticipants packageId (bookings s')
    <= specBookedParticipants packageId (bookings s)
    /\ (snd (mapStatus (transaction_status n) (fraud_status n) (Booking.status bk))
        = BookingStatus.CANCELED ->
        specBookedParticipants packageId (bookings s')
        = specBookedParticipants packageId (bookings s) - slotsHeld packageId bk).
Proof.
  intros Hsig Hpay Hbk Hu Hhold Hpos s' pid. subst s'.
  destruct (processNotification_tables env n now s pay bk Hsig Hpay Hbk) as [_ Hb].
  cbv zeta in Hb. rewrite Hb. clear Hb.
  set (bs := snd (mapStatus _ _ _)).
  destruct (BookingStatus.eqb bs (Booking.status bk)) eqn:E.
  - apply BookingStatus_eqb_eq in E. split; [lia|].
    intros Hc. rewrite <- E, Hc in Hhold. discriminate Hhold.
  - rewrite (specBooked_updateById pid _ _ _ bk Hu Hbk). unfold slotsHeld.
    cbn [Booking.packageId Booking.status Booking.participants setBookingStatus].
    rewrite Hhold, andb_true_r. split.
    + destruct (Booking.packageId bk =? pid); cbn [andb]; [|lia].
      destruct (holdsSlot bs); lia.
    + intros ->. cbn [holdsSlot]. rewrite andb_false_r. lia.
Qed.

Lemma X24_notification_never_books_witness :
  specBookedParticipants 1
    (bookings (snd (processNotification demoEnv (notice "expire" None) 1700000900000
                                        awaitingStore)))
  = specBookedParticipants 1 (bookings awaitingStore)
    - slotsHeld 1 (bookingOf 2 BookingStatus.PENDING).
Proof.
  apply (proj2 (X24_notification_never_books demoEnv (notice "expire" None) 1700000900000
                  awaitingStore (paymentRow PaymentStatus.PENDING None None)
                  (bookingOf 2 BookingStatus.PENDING)
                  ltac:(vm_compute; reflexivity) eq_refl eq_refl
                  ltac:(unfold uniqueBookingIds; cbn; repeat constructor; intros [])
                  eq_refl ltac:(cbn; lia) 1)).
  reflexivity.
Defined.

(** X25. A booking can be read back right after it was created: when the
    generated code and the next id are not in use, the booking
    [createBooking] returns is the one [getBookingByCode] finds under its
    code and [getBookingById] finds under its id, with its customer and
    package attached and no payment yet (provided no payment row already
    points at that id). *)
Theorem X25_create_then_lookup (data : BookingData) (code : string) (s s' : Store)
    (b : Booking.t) :
  find (fun r => String.eqb (Booking.bookingCode r) code) (bookings s) = None ->
  findById Booking.id (bookingSeq s) (bookings s) = None ->
  createBooking data code s = (Ok b, s') ->
  getBookingByCode code s' = (Ok (withRelations s' b), s')
  /\ getBookingById (Booking.id b) s' = (Ok (withRelations s' b), s')
  /\ customer (withRelations s' b) <> None
  /\ travelPackage (withRelations s' b) <> None
  /\ (findById Payment.bookingId (bookingSeq s) (payments s) = None ->
      payment (withRelations s' b) = None
      /\ pendingPayment (withRelations s' b) = None).
Proof.
  intros Hcode Hid Hrun. rewrite createBooking_run in Hrun.
  destruct (findById Customer.id _ _) as [c|] eqn:Hc; [|discriminate].
  destruct (findById TravelPackage.id _ _) as [p|] eqn:Hp; [|discriminate].
  destruct (TravelPackage.isActive p); [|discriminate].
  cbv zeta in Hrun. destruct (_ >=? _); [|discriminate].
  injection Hrun as <- <-.
  split; [|split; [|split; [|split]]].
  - unfold getBookingByCode. unfold_monad. cbv beta. cbn [bookings].
    rewrite (find_app_last _ _ _ Hcode); [reflexivity|].
    cbn [Booking.bookingCode]. apply String.eqb_refl.
  - apply getBookingById_found. cbn [bookings Booking.id]. unfold findById in *.
    apply find_app_last; [exact Hid|]. cbn [Booking.id]. apply Z.eqb_refl.
  - cbn [customer withRelations customers Booking.customerId]. now rewrite Hc.
  - cbn [travelPackage withRelations travelPackages Booking.packageId]. now rewrite Hp.
  - intros Hnone. unfold pendingPayment.
    cbn [payment withRelations payments Booking.id]. rewrite Hnone. split; reflexivity.
Qed.

Lemma X25_create_then_lookup_witness :
  exists b s',
    createBooking (mkBookingData 1 1 2 "2026-12-24T00:00:00.000Z" None) "BK-0001" emptyStore
    = (Ok b, s')
    /\ getBookingByCode "BK-0001" s' = (Ok (withRelations s' b), s')
    /\ getBookingById 1 s' = (Ok (withRelations s' b), s').
Proof.
  do 2 eexists. split; [vm_compute; reflexivity|].
  destruct (X25_create_then_lookup (mkBookingData 1 1 2 "2026-12-24T00:00:00.000Z" None)
              "BK-0001" emptyStore _ _ eq_refl eq_refl ltac:(vm_compute; reflexivity))
    as (H1 & H2 & _).
  split; [exact H1 | exact H2].
Defined.
